(** * Valerixy: the reservation protocol of the order and inventory services

    A shallow embedding of the TypeScript sources of the two services and of
    the store of the dashboard:

    - [Inventory]: inventory-service/src/domain/stockRepository.ts
      (getProduct, reserveStock, releaseStock, findReservationByOrderId),
      consumers/verifyOrderConsumer.ts (handleVerifyOrderMessage) and
      handlers/inventoryHandler.ts (the ReserveStock and ReleaseStock gRPC
      handlers);
    - [Orders]: order-service domain/orderRepository.ts, clients/inventoryClient.ts,
      messaging/orderPublisher.ts, the /orders routes and the inventory-events
      consumer;
    - [System]: the two services joined by their calls, queue and topic;
    - [Dashboard]: dashboard/src/websocket.ts (broadcastMetric).

    Modelling conventions.
    - A PostgreSQL table is the list of its rows in insertion order; the
      products table, which is only ever read and written through its primary
      key, is a finite map from product id to row.
    - A transaction that ends in ROLLBACK leaves the database as it was, and a
      JavaScript exception is the [Thrown] outcome.
    - uuidv4() is an explicit argument [uuid] of the function that calls it; a
      primary-key or UNIQUE clash on INSERT is the database error it is in
      PostgreSQL.
    - Numbers are integers in [Z] and strings are unbounded: the tables of the
      model have no column widths. Where a statement depends on values being
      stored, it assumes that they fit their columns ([int4], [varchar],
      [storable]). Timestamps, event ids, console output and telemetry are
      not modelled.
    - Publishing is recorded as the list of messages the handler passes to the
      messaging module, in call order. The senders of the order service
      rethrow the error of a failed send; its routes are given twice, on a
      bus where every send returns ([postOrders], [cancelOrder]) and on a
      [Bus] that tells which sends return ([postOrdersVia], [cancelOrderVia]).
    - A handler runs from its start to its end, with one exception: POST
      /orders is also given in the two parts its awaited ReserveStock call
      divides it into ([beginOrder], [finishOrder]), so that other handlers
      can run while the call is on its way. *)

From Stdlib Require Import ZArith String List Bool Lia DecimalString.
From stdpp Require Import base option gmap strings list.

Local Open Scope string_scope.
Local Open Scope list_scope.
Local Open Scope Z_scope.

(** ** Outcomes of a call *)

Inductive Outcome (A : Type) : Type :=
| Returned (a : A)
| Thrown (message : string).
Arguments Returned {A} a.
Arguments Thrown {A} message.

(** JavaScript truthiness of an optional string: [undefined] and the empty
    string are falsy. *)
Definition truthy (s : option string) : bool :=
  match s with
  | Some v => negb (String.eqb v "")
  | None => false
  end.

(** Template-literal rendering of an integer. *)
Definition show (z : Z) : string := NilZero.string_of_int (Z.to_int z).

(** What a unary gRPC call hands to the client callback: a response, or an
    error with a status code of @grpc/grpc-js. *)
Definition DEADLINE_EXCEEDED : Z := 4.
Definition INTERNAL : Z := 13.
Definition UNAVAILABLE : Z := 14.

Inductive GrpcReply (A : Type) : Type :=
| GrpcOk (response : A)
| GrpcError (code : Z) (message : string).
Arguments GrpcOk {A} response.
Arguments GrpcError {A} code message.

(** The names of the status codes of @grpc/grpc-js; [Status[code]] is
    undefined for any other number. *)
Definition grpcStatusName (code : Z) : string :=
  match code with
  | 0 => "OK"
  | 1 => "CANCELLED"
  | 2 => "UNKNOWN"
  | 3 => "INVALID_ARGUMENT"
  | 4 => "DEADLINE_EXCEEDED"
  | 5 => "NOT_FOUND"
  | 6 => "ALREADY_EXISTS"
  | 7 => "PERMISSION_DENIED"
  | 8 => "RESOURCE_EXHAUSTED"
  | 9 => "FAILED_PRECONDITION"
  | 10 => "ABORTED"
  | 11 => "OUT_OF_RANGE"
  | 12 => "UNIMPLEMENTED"
  | 13 => "INTERNAL"
  | 14 => "UNAVAILABLE"
  | 15 => "DATA_LOSS"
  | 16 => "UNAUTHENTICATED"
  | _ => "undefined"
  end.

(** The message of the Error a client callback receives for a call that ended
    with a status other than OK: the code, its name and the details the server
    sent, as @grpc/grpc-js puts them together. *)
Definition callErrorMessage (code : Z) (details : string) : string :=
  show code +:+ " " +:+ grpcStatusName code +:+ ": " +:+ details.

(** ** Column types of PostgreSQL *)

(** INT / INTEGER: a value outside this range is refused with error 22003. *)
Definition int4 (z : Z) : bool := (-2147483648 <=? z) && (z <=? 2147483647).

(** VARCHAR(n): a longer value is refused with error 22001, and no text value
    holds the character NUL (error 22021). The length counted here is that of
    the string as the model has it, character by character. *)
Definition varchar (n : nat) (s : string) : bool :=
  (String.length s <=? n)%nat
  && forallb (fun c => negb (Ascii.eqb c Ascii.zero)) (list_ascii_of_string s).

Module Inventory.

(** *** Rows (inventory-service/init.sql) *)

Inductive ReservationStatus : Type := active | released | committed.

Definition status_name (s : ReservationStatus) : string :=
  match s with
  | active => "active"
  | released => "released"
  | committed => "committed"
  end.

#[global] Instance ReservationStatus_eq_dec : EqDecision ReservationStatus.
Proof. solve_decision. Defined.

(** The product columns the protocol reads: [stock] and
    [low_stock_threshold]. *)
Record Product : Type := mkProduct {
  stock : Z;
  lowStockThreshold : Z
}.

Record Reservation : Type := mkReservation {
  id : string;
  orderId : string;
  productId : string;
  quantity : Z;
  status : ReservationStatus;
  idempotencyKey : option string
}.

Record AuditRow : Type := mkAuditRow {
  product_id : string;
  operation : string;
  quantity_change : Z;
  previous_stock : Z;
  new_stock : Z;
  order_id : string;
  reservation_id : string;
  reason : string
}.

Record Db : Type := mkDb {
  products : gmap string Product;
  reservations : list Reservation;
  stock_audit_log : list AuditRow
}.

(** *** Results (stockRepository.ts) *)

Inductive ReserveStatus : Type :=
| confirmed | insufficient_stock | product_not_found | already_exists.

Record ReserveResult : Type := mkReserveResult {
  success : bool;
  message : string;
  reservationId : option string;
  remainingStock : option Z;
  result_status : ReserveStatus
}.

Record ReleaseResult : Type := mkReleaseResult {
  release_success : bool;
  release_message : string;
  newStock : option Z
}.

(** *** Queries *)

(** SELECT * FROM reservations WHERE idempotency_key = $1 *)
Definition byKey (key : string) (r : Reservation) : bool :=
  bool_decide (idempotencyKey r = Some key).

(** SELECT * FROM reservations WHERE id = $1 AND order_id = $2 *)
Definition byIdAndOrder (rid oid : string) (r : Reservation) : bool :=
  String.eqb (id r) rid && String.eqb (orderId r) oid.

(** SELECT * FROM reservations WHERE order_id = $1 AND status = 'active' *)
Definition activeFor (oid : string) (r : Reservation) : bool :=
  String.eqb (orderId r) oid && bool_decide (status r = active).

(** INSERT INTO reservations: the primary key [id] and the UNIQUE column
    [idempotency_key] (NULLs never clash) are checked. *)
Definition clashes (row r : Reservation) : bool :=
  String.eqb (id r) (id row)
  || match idempotencyKey row with
     | Some k => byKey k r
     | None => false
     end.

Definition insertReservation (row : Reservation) (rows : list Reservation)
  : option (list Reservation) :=
  if existsb (clashes row) rows then None else Some (rows ++ [row]).

(** UPDATE reservations SET status = 'released' WHERE id = $1 *)
Definition markReleased (rid : string) (r : Reservation) : Reservation :=
  if String.eqb (id r) rid
  then mkReservation (id r) (orderId r) (productId r) (quantity r) released
         (idempotencyKey r)
  else r.

(** UPDATE products SET stock = $1 WHERE id = $2 *)
Definition setStock (pid : string) (n : Z) (ps : gmap string Product)
  : gmap string Product :=
  match ps !! pid with
  | Some p => <[pid := mkProduct n (lowStockThreshold p)]> ps
  | None => ps
  end.

(** *** reserveStock *)

Definition reserveStock (uuid : string) (db : Db)
    (oid pid : string) (qty : Z) (key : option string)
  : Db * Outcome ReserveResult :=
  let existingRes :=
    match key with
    | Some k => if truthy key then List.filter (byKey k) (reservations db) else []
    | None => []
    end in
  match existingRes with
  | existing :: _ =>
      (db, Returned (mkReserveResult true
                       "Reservation already exists (idempotent)"
                       (Some (id existing)) None already_exists))
  | [] =>
      match products db !! pid with
      | None =>
          (db, Returned (mkReserveResult false
                           ("Product " +:+ pid +:+ " not found")
                           None None product_not_found))
      | Some product =>
          let currentStock := stock product in
          if currentStock <? qty then
            (db, Returned (mkReserveResult false
                             ("Insufficient stock. Available: " +:+ show currentStock
                              +:+ ", Requested: " +:+ show qty)
                             None (Some currentStock) insufficient_stock))
          else
            let newStock := currentStock - qty in
            match insertReservation (mkReservation uuid oid pid qty active key)
                    (reservations db) with
            | None =>
                (db, Thrown "duplicate key value violates unique constraint")
            | Some rows =>
                (mkDb (setStock pid newStock (products db))
                      rows
                      (stock_audit_log db ++
                         [mkAuditRow pid "reserve" (- qty) currentStock newStock
                                     oid uuid "order_reservation"]),
                 Returned (mkReserveResult true "Stock reserved successfully"
                             (Some uuid) (Some newStock) confirmed))
            end
      end
  end.

(** *** releaseStock *)

Definition releaseStock (db : Db) (oid rid why : string)
  : Db * Outcome ReleaseResult :=
  match List.filter (byIdAndOrder rid oid) (reservations db) with
  | [] => (db, Returned (mkReleaseResult false "Reservation not found" None))
  | reservation :: _ =>
      if negb (bool_decide (status reservation = active)) then
        (db, Returned (mkReleaseResult false
                         ("Reservation already " +:+ status_name (status reservation))
                         None))
      else
        match products db !! productId reservation with
        | None =>
            (db, Thrown "Cannot read properties of undefined (reading 'stock')")
        | Some product =>
            let currentStock := stock product in
            let newStock := currentStock + quantity reservation in
            (mkDb (setStock (productId reservation) newStock (products db))
                  (List.map (markReleased rid) (reservations db))
                  (stock_audit_log db ++
                     [mkAuditRow (productId reservation) "release"
                                 (quantity reservation) currentStock newStock
                                 oid rid why]),
             Returned (mkReleaseResult true "Stock released successfully"
                         (Some newStock)))
        end
  end.

(** *** findReservationByOrderId *)

Definition findReservationByOrderId (db : Db) (oid : string) : option Reservation :=
  head (List.filter (activeFor oid) (reservations db)).

(** *** Events published on inventory-events (publishers/inventoryPublisher.ts) *)

Inductive VerifiedStatus : Type := verified_confirmed | verified_not_found.

Inductive InventoryEvent : Type :=
| StockReserved (oid pid : string) (qty : Z)
    (remaining : option Z) (rid : option string)
| StockReleased (oid pid : string) (qty : Z) (newStock : option Z) (why : string)
| LowStockAlert (pid : string) (currentStock threshold : Z)
| OrderVerified (oid pid : string) (qty : Z) (st : VerifiedStatus)
    (recoveredFromCrash : bool) (rid : option string).

(** *** handleVerifyOrderMessage (consumers/verifyOrderConsumer.ts) *)

Record VerifyOrderData : Type := mkVerifyOrderData {
  verify_orderId : string;
  verify_productId : string;
  verify_quantity : Z;
  verify_idempotencyKey : string;
  originalRequestTime : string
}.

(** The handler returns the database, the events it published and whether the
    message is settled ([Returned]) or rethrown for redelivery ([Thrown]). *)
Definition handleVerifyOrderMessage (uuid : string) (db : Db) (body : VerifyOrderData)
  : Db * list InventoryEvent * Outcome unit :=
  let oid := verify_orderId body in
  let pid := verify_productId body in
  let qty := verify_quantity body in
  match findReservationByOrderId db oid with
  | Some existing =>
      (db,
       [OrderVerified oid pid qty verified_confirmed true (Some (id existing))],
       Returned tt)
  | None =>
      match reserveStock uuid db oid pid qty
              (Some ("verify-" +:+ verify_idempotencyKey body)) with
      | (db', Returned result) =>
          if success result then
            (db',
             [OrderVerified oid pid qty verified_confirmed false
                (reservationId result);
              StockReserved oid pid qty (remainingStock result)
                (reservationId result)],
             Returned tt)
          else
            (db',
             [OrderVerified oid pid qty verified_not_found false None],
             Returned tt)
      | (db', Thrown e) => (db', [], Thrown e)
      end
  end.

(** *** The ReleaseStock gRPC handler (handlers/inventoryHandler.ts) *)

Record ReleaseStockRequest : Type := mkReleaseStockRequest {
  req_orderId : string;
  req_reservationId : string;
  req_reason : string
}.

Record ReleaseStockResponse : Type := mkReleaseStockResponse {
  resp_success : bool;
  resp_message : string;
  resp_newStock : Z
}.

(** [result.newStock || 0] *)
Definition orZero (n : option Z) : Z :=
  match n with Some v => v | None => 0 end.

Definition grpcReleaseStock (db : Db) (request : ReleaseStockRequest)
  : Db * list InventoryEvent * GrpcReply ReleaseStockResponse :=
  match releaseStock db (req_orderId request) (req_reservationId request)
          (req_reason request) with
  | (db', Returned result) =>
      (db',
       (if release_success result
        then [StockReleased (req_orderId request) "unknown" 0 (newStock result)
                (req_reason request)]
        else []),
       GrpcOk (mkReleaseStockResponse (release_success result)
                 (release_message result) (orZero (newStock result))))
  | (db', Thrown e) => (db', [], GrpcError INTERNAL e)
  end.

(** *** Runs of the inventory service *)

(** One operation of a sequential run. *)
Inductive Op : Type :=
| Reserve (uuid oid pid : string) (qty : Z) (key : option string)
| Release (oid rid why : string)
| Verify (uuid : string) (body : VerifyOrderData).

Definition run (db : Db) (op : Op) : Db :=
  match op with
  | Reserve uuid oid pid qty key => fst (reserveStock uuid db oid pid qty key)
  | Release oid rid why => fst (releaseStock db oid rid why)
  | Verify uuid body => fst (fst (handleVerifyOrderMessage uuid db body))
  end.

Definition runAll (db : Db) (ops : list Op) : Db := fold_left run ops db.

(** Number of active reservations of an order. *)
Definition activeCount (db : Db) (oid : string) : nat :=
  length (List.filter (activeFor oid) (reservations db)).

(** Number of reservations stored under an idempotency key. *)
Definition keyCount (db : Db) (key : string) : nat :=
  length (List.filter (byKey key) (reservations db)).

(** A direct reserveStock call is guarded when its order holds no active
    reservation at the time of the call; the other operations always are. *)
Definition guarded (db : Db) (op : Op) : bool :=
  match op with
  | Reserve _ oid _ _ _ => bool_decide (findReservationByOrderId db oid = None)
  | _ => true
  end.

Fixpoint allGuarded (db : Db) (ops : list Op) : bool :=
  match ops with
  | [] => true
  | op :: rest => guarded db op && allGuarded (run db op) rest
  end.

(** The reservation found by the idempotency lookup of reserveStock, which is
    made only for a truthy key. *)
Definition storedUnder (db : Db) (key : option string) : option Reservation :=
  match key with
  | Some k => if truthy key then head (List.filter (byKey k) (reservations db)) else None
  | None => None
  end.

(** *** The reference definition of reserveStock, in the words of the
    specification: a reservation stored under the given key is answered with
    the current stock of the requested product. *)
Definition reserveStock_reference (uuid : string) (db : Db)
    (oid pid : string) (qty : Z) (key : option string)
  : Db * Outcome ReserveResult :=
  let found :=
    match key with
    | Some k => head (List.filter (byKey k) (reservations db))
    | None => None
    end in
  match found with
  | Some existing =>
      (db, Returned (mkReserveResult true
                       "Reservation already exists (idempotent)"
                       (Some (id existing))
                       (stock <$> products db !! pid) already_exists))
  | None =>
      match products db !! pid with
      | None =>
          (db, Returned (mkReserveResult false
                           ("Product " +:+ pid +:+ " not found")
                           None None product_not_found))
      | Some product =>
          if stock product <? qty then
            (db, Returned (mkReserveResult false
                             ("Insufficient stock. Available: "
                              +:+ show (stock product)
                              +:+ ", Requested: " +:+ show qty)
                             None (Some (stock product)) insufficient_stock))
          else
            (mkDb (<[pid := mkProduct (stock product - qty)
                              (lowStockThreshold product)]> (products db))
                  (reservations db ++ [mkReservation uuid oid pid qty active key])
                  (stock_audit_log db ++
                     [mkAuditRow pid "reserve" (- qty) (stock product)
                                 (stock product - qty) oid uuid
                                 "order_reservation"]),
             Returned (mkReserveResult true "Stock reserved successfully"
                         (Some uuid) (Some (stock product - qty)) confirmed))
      end
  end.

(** *** How a call can end *)

(** The five ways a call of reserveStock can end. *)
Inductive ReserveOutcome (uuid : string) (db : Db) (oid pid : string) (qty : Z)
    (key : option string) : Db * Outcome ReserveResult -> Prop :=
| reserve_existing existing :
    storedUnder db key = Some existing ->
    ReserveOutcome uuid db oid pid qty key
      (db, Returned (mkReserveResult true "Reservation already exists (idempotent)"
                       (Some (id existing)) None already_exists))
| reserve_no_product :
    storedUnder db key = None -> products db !! pid = None ->
    ReserveOutcome uuid db oid pid qty key
      (db, Returned (mkReserveResult false ("Product " +:+ pid +:+ " not found")
                       None None product_not_found))
| reserve_insufficient product :
    storedUnder db key = None -> products db !! pid = Some product ->
    stock product < qty ->
    ReserveOutcome uuid db oid pid qty key
      (db, Returned (mkReserveResult false
                       ("Insufficient stock. Available: " +:+ show (stock product)
                        +:+ ", Requested: " +:+ show qty)
                       None (Some (stock product)) insufficient_stock))
| reserve_clash product :
    storedUnder db key = None -> products db !! pid = Some product ->
    qty <= stock product ->
    existsb (clashes (mkReservation uuid oid pid qty active key)) (reservations db)
    = true ->
    ReserveOutcome uuid db oid pid qty key
      (db, Thrown "duplicate key value violates unique constraint")
| reserve_done product :
    storedUnder db key = None -> products db !! pid = Some product ->
    qty <= stock product ->
    existsb (clashes (mkReservation uuid oid pid qty active key)) (reservations db)
    = false ->
    ReserveOutcome uuid db oid pid qty key
      (mkDb (<[pid := mkProduct (stock product - qty) (lowStockThreshold product)]>
               (products db))
            (reservations db ++ [mkReservation uuid oid pid qty active key])
            (stock_audit_log db ++
               [mkAuditRow pid "reserve" (- qty) (stock product)
                  (stock product - qty) oid uuid "order_reservation"]),
       Returned (mkReserveResult true "Stock reserved successfully"
                   (Some uuid) (Some (stock product - qty)) confirmed)).


(** The ways a call of releaseStock can end. *)
Inductive ReleaseOutcome (db : Db) (oid rid why : string)
  : Db * Outcome ReleaseResult -> Prop :=
| release_missing :
    head (List.filter (byIdAndOrder rid oid) (reservations db)) = None ->
    ReleaseOutcome db oid rid why
      (db, Returned (mkReleaseResult false "Reservation not found" None))
| release_inactive reservation :
    head (List.filter (byIdAndOrder rid oid) (reservations db)) = Some reservation ->
    status reservation <> active ->
    ReleaseOutcome db oid rid why
      (db, Returned (mkReleaseResult false
                       ("Reservation already " +:+ status_name (status reservation))
                       None))
| release_no_product reservation :
    head (List.filter (byIdAndOrder rid oid) (reservations db)) = Some reservation ->
    status reservation = active ->
    products db !! productId reservation = None ->
    ReleaseOutcome db oid rid why
      (db, Thrown "Cannot read properties of undefined (reading 'stock')")
| release_done reservation product :
    head (List.filter (byIdAndOrder rid oid) (reservations db)) = Some reservation ->
    status reservation = active ->
    products db !! productId reservation = Some product ->
    ReleaseOutcome db oid rid why
      (mkDb (<[productId reservation :=
                 mkProduct (stock product + quantity reservation)
                   (lowStockThreshold product)]> (products db))
            (List.map (markReleased rid) (reservations db))
            (stock_audit_log db ++
               [mkAuditRow (productId reservation) "release" (quantity reservation)
                  (stock product) (stock product + quantity reservation)
                  oid rid why]),
       Returned (mkReleaseResult true "Stock released successfully"
                   (Some (stock product + quantity reservation)))).


(** *** Sample data: the seed rows of init.sql and two runs *)

Definition seed : Db :=
  mkDb (<["SKU-001" := mkProduct 50 10]>
          (<["SKU-002" := mkProduct 200 20]>
             (<["SKU-003" := mkProduct 100 15]> ∅)))
       [] [].


Definition reservedSeed : Db :=
  fst (reserveStock "r-1" seed "ord-1" "SKU-003" 2 (Some "k-42")).


Definition verifyFirst : list Op :=
  [Verify "r-1" (mkVerifyOrderData "o-1" "SKU-001" 3 "k-42" "2026-01-01T00:00:00Z");
   Verify "r-2" (mkVerifyOrderData "o-1" "SKU-001" 3 "k-42" "2026-01-01T00:00:00Z");
   Release "o-1" "r-1" "Order cancelled by user";
   Reserve "r-3" "o-1" "SKU-001" 3 (Some "k-43")].


(** *** getProduct and the ReserveStock gRPC handler
    (domain/stockRepository.ts, handlers/inventoryHandler.ts) *)

Definition getProduct (db : Db) (pid : string) : option Product :=
  products db !! pid.

#[global] Instance ReserveStatus_eq_dec : EqDecision ReserveStatus.
Proof. solve_decision. Defined.

Record ReserveStockRequest : Type := mkReserveStockRequest {
  reserve_orderId : string;
  reserve_productId : string;
  reserve_quantity : Z;
  reserve_idempotencyKey : string
}.

Record ReserveStockResponse : Type := mkReserveStockResponse {
  reserve_success : bool;
  reserve_message : string;
  reserve_reservationId : string;
  reserve_remainingStock : Z;
  reserve_status : Z
}.

(** statusMap of the handler: the proto enum number of a result status. *)
Definition statusNumber (s : ReserveStatus) : Z :=
  match s with
  | confirmed => 1
  | insufficient_stock => 2
  | product_not_found => 3
  | already_exists => 4
  end.

(** [result.reservationId || ''] *)
Definition orEmpty (s : option string) : string :=
  match s with Some v => v | None => "" end.

(** The handler. [crash] is what shouldSimulateCrash() answers when it is
    asked, which is only after a successful reservation. The injected latency
    and the ResponseTime metric, both readings of the clock, are left out. *)
Definition grpcReserveStock (crash : bool) (uuid : string) (db : Db)
    (request : ReserveStockRequest)
  : Db * list InventoryEvent * GrpcReply ReserveStockResponse :=
  let oid := reserve_orderId request in
  let pid := reserve_productId request in
  let qty := reserve_quantity request in
  let key := if truthy (Some (reserve_idempotencyKey request))
             then Some (reserve_idempotencyKey request) else None in
  match reserveStock uuid db oid pid qty key with
  | (db', Thrown e) => (db', [], GrpcError INTERNAL e)
  | (db', Returned result) =>
      if success result && crash then
        (db', [],
         GrpcError INTERNAL "SCHRODINGER_CRASH: Service crashed after DB commit")
      else
        (db',
         (if success result
             && negb (bool_decide (result_status result = already_exists))
          then
            StockReserved oid pid qty (remainingStock result) (reservationId result)
            :: match getProduct db' pid with
               | Some product =>
                   if stock product <=? lowStockThreshold product
                   then [LowStockAlert pid (stock product)
                           (lowStockThreshold product)]
                   else []
               | None => []
               end
          else []),
         GrpcOk (mkReserveStockResponse (success result) (message result)
                   (orEmpty (reservationId result))
                   (orZero (remainingStock result))
                   (statusNumber (result_status result))))
  end.

(** *** Quantities of a database *)

(** The stock of a product, 0 when there is no such row. *)
Definition stockOf (db : Db) (pid : string) : Z :=
  match products db !! pid with
  | Some p => stock p
  | None => 0
  end.

Fixpoint total (l : list Z) : Z :=
  match l with
  | [] => 0
  | x :: rest => x + total rest
  end.

(** What a reservation holds of a product: its quantity while it is active. *)
Definition heldBy (pid : string) (r : Reservation) : Z :=
  if String.eqb (productId r) pid && bool_decide (status r = active)
  then quantity r else 0.

Definition held (db : Db) (pid : string) : Z :=
  total (List.map (heldBy pid) (reservations db)).

(** What an audit row says was added to a product. *)
Definition changeOf (pid : string) (row : AuditRow) : Z :=
  if String.eqb (product_id row) pid then quantity_change row else 0.

Definition audited (db : Db) (pid : string) : Z :=
  total (List.map (changeOf pid) (stock_audit_log db)).

(** The primary key of reservations. *)
Definition idsUnique (db : Db) : Prop :=
  NoDup (List.map id (reservations db)).

(** The columns of a reservation that no statement updates. *)
Definition fixedColumns (r : Reservation)
  : string * string * string * Z * option string :=
  (id r, orderId r, productId r, quantity r, idempotencyKey r).

(** The only status change there is: active to released. *)
Definition statusMoves (old new : ReservationStatus) : Prop :=
  new = old \/ (old = active /\ new = released).

(** *** What one operation does to the database *)

(** The quantity an operation asks for. *)
Definition asked (op : Op) : Z :=
  match op with
  | Reserve _ _ _ qty _ => qty
  | Release _ _ _ => 0
  | Verify _ body => verify_quantity body
  end.

(** The database after a reservation has been written. *)
Definition reservedDb (db : Db) (uuid oid pid : string) (qty : Z)
    (key : option string) (product : Product) : Db :=
  mkDb (<[pid := mkProduct (stock product - qty) (lowStockThreshold product)]>
          (products db))
       (reservations db ++ [mkReservation uuid oid pid qty active key])
       (stock_audit_log db ++
          [mkAuditRow pid "reserve" (- qty) (stock product) (stock product - qty)
             oid uuid "order_reservation"]).

(** The database after a release has been written. *)
Definition releasedDb (db : Db) (oid rid why : string)
    (reservation : Reservation) (product : Product) : Db :=
  mkDb (<[productId reservation :=
            mkProduct (stock product + quantity reservation)
              (lowStockThreshold product)]> (products db))
       (List.map (markReleased rid) (reservations db))
       (stock_audit_log db ++
          [mkAuditRow (productId reservation) "release" (quantity reservation)
             (stock product) (stock product + quantity reservation) oid rid why]).

(** How the rows of [after] continue the rows of [before]: each old row is
    still there, in place, with its fixed columns and a status that has not
    moved or has moved from active to released; new rows come after. *)
Definition continues (before after : list Reservation) : Prop :=
  exists kept added,
    after = kept ++ added
    /\ Forall2 (fun old new =>
                  fixedColumns new = fixedColumns old
                  /\ statusMoves (status old) (status new))
         before kept.

(** The verdict of the VerifyOrder handler: the status and reservation id of
    the OrderVerified event it published first. *)
Definition verdict (published : list InventoryEvent)
  : option (VerifiedStatus * option string) :=
  match published with
  | OrderVerified _ _ _ st _ rid :: _ => Some (st, rid)
  | _ => None
  end.

(** An operation leaves the database alone, writes a reservation or writes a
    release. *)
Inductive Moves (db : Db) (op : Op) : Db -> Prop :=
| moves_nothing : Moves db op db
| moves_reserve uuid oid pid key product :
    products db !! pid = Some product ->
    asked op <= stock product ->
    (forall r, In r (reservations db) -> id r <> uuid) ->
    (forall k, key = Some k ->
               forall r, In r (reservations db) -> idempotencyKey r <> Some k) ->
    Moves db op (reservedDb db uuid oid pid (asked op) key product)
| moves_release oid rid why reservation product :
    In reservation (reservations db) ->
    id reservation = rid ->
    status reservation = active ->
    products db !! productId reservation = Some product ->
    Moves db op (releasedDb db oid rid why reservation product).

(** Requested quantities of a run are not negative. *)
Definition askedNonNegative (ops : list Op) : Prop :=
  Forall (fun op => 0 <= asked op) ops.

(** No stock and no reserved quantity is negative. *)
Definition nonNegative (db : Db) : Prop :=
  (forall pid p, products db !! pid = Some p -> 0 <= stock p)
  /\ (forall r, In r (reservations db) -> 0 <= quantity r).

(** The values a reserveStock call that succeeds writes fit the columns of
    init.sql: id, order_id and product_id of reservations VARCHAR(50),
    quantity INT, idempotency_key VARCHAR(100), stock of products INT, and
    quantity_change, previous_stock and new_stock of stock_audit_log INT.
    Where they do not, PostgreSQL refuses the statement and the call throws
    after ROLLBACK. *)
Definition storable (uuid oid pid : string) (qty : Z) (key : option string)
    (product : Product) : bool :=
  varchar 50 uuid && varchar 50 oid && varchar 50 pid
  && int4 qty && int4 (- qty) && int4 (stock product)
  && int4 (stock product - qty)
  && match key with Some k => varchar 100 k | None => true end.

(** The idempotency key the ReserveStock handler passes on:
    [idempotencyKey || undefined]. *)
Definition keyOf (request : ReserveStockRequest) : option string :=
  if truthy (Some (reserve_idempotencyKey request))
  then Some (reserve_idempotencyKey request) else None.


End Inventory.

Module Orders.

(** *** Rows (order-service/init.sql, domain/orderRepository.ts) *)

Inductive OrderStatus : Type :=
| pending | reserved | confirmed | failed | pending_verification | cancelled.

#[global] Instance OrderStatus_eq_dec : EqDecision OrderStatus.
Proof. solve_decision. Defined.

Definition status_name (s : OrderStatus) : string :=
  match s with
  | pending => "pending"
  | reserved => "reserved"
  | confirmed => "confirmed"
  | failed => "failed"
  | pending_verification => "pending_verification"
  | cancelled => "cancelled"
  end.

(** [completedAt] records whether completed_at holds a timestamp. *)
Record Order : Type := mkOrder {
  id : string;
  customerId : string;
  productId : string;
  quantity : Z;
  status : OrderStatus;
  idempotencyKey : option string;
  reservationId : option string;
  completedAt : bool;
  errorMessage : option string
}.

(** A row of order_events: the order and the event type (the JSON payload is
    not modelled). *)
Record OrderEventRow : Type := mkOrderEventRow {
  event_order_id : string;
  event_type : string
}.

Record Db : Type := mkDb {
  orders : list Order;
  order_events : list OrderEventRow
}.

Record CreateOrderInput : Type := mkCreateOrderInput {
  input_customerId : string;
  input_productId : string;
  input_quantity : Z;
  input_idempotencyKey : option string
}.

(** *** orderRepository *)

Definition byId (oid : string) (o : Order) : bool := String.eqb (id o) oid.

Definition byKey (key : string) (o : Order) : bool :=
  bool_decide (idempotencyKey o = Some key).

(** INSERT INTO orders: primary key [id], UNIQUE [idempotency_key] and
    CHECK (quantity > 0). *)
Definition clashes (row o : Order) : bool :=
  String.eqb (id o) (id row)
  || match idempotencyKey row with
     | Some k => byKey k o
     | None => false
     end.

Definition insertOrder (row : Order) (rows : list Order) : option (list Order) :=
  if negb (0 <? quantity row) then None
  else if existsb (clashes row) rows then None
  else Some (rows ++ [row]).

Definition createOrder (uuid : string) (db : Db) (input : CreateOrderInput)
  : Db * Outcome Order :=
  let existing :=
    match input_idempotencyKey input with
    | Some k =>
        if truthy (input_idempotencyKey input)
        then List.filter (byKey k) (orders db) else []
    | None => []
    end in
  match existing with
  | row :: _ => (db, Returned row)
  | [] =>
      let row := mkOrder uuid (input_customerId input) (input_productId input)
                   (input_quantity input) pending (input_idempotencyKey input)
                   None false None in
      match insertOrder row (orders db) with
      | None => (db, Thrown "new row violates a constraint of table orders")
      | Some rows =>
          (mkDb rows (order_events db ++ [mkOrderEventRow uuid "OrderCreated"]),
           Returned row)
      end
  end.

Definition getOrder (db : Db) (oid : string) : option Order :=
  head (List.filter (byId oid) (orders db)).

Definition getOrderByIdempotencyKey (db : Db) (key : string) : option Order :=
  head (List.filter (byKey key) (orders db)).

Definition isTerminal (s : OrderStatus) : bool :=
  match s with
  | confirmed | failed | cancelled => true
  | _ => false
  end.

(** The row after UPDATE orders SET status = $1 [, reservation_id = ..]
    [, error_message = ..] [, completed_at = CURRENT_TIMESTAMP]. *)
Definition setStatus (st : OrderStatus) (rid err : option string) (o : Order) : Order :=
  mkOrder (id o) (customerId o) (productId o) (quantity o) st (idempotencyKey o)
    (match rid with Some _ => rid | None => reservationId o end)
    (if isTerminal st then true else completedAt o)
    (match err with Some _ => err | None => errorMessage o end).

(** ... WHERE id = $n: only the row of the order is rewritten. *)
Definition rewriteRow (oid : string) (st : OrderStatus) (rid err : option string)
    (o : Order) : Order :=
  if byId oid o then setStatus st rid err o else o.

Definition updateOrderStatus (db : Db) (oid : string) (st : OrderStatus)
    (rid err : option string) : Db * option Order :=
  match List.filter (byId oid) (orders db) with
  | [] => (db, None)
  | row :: _ =>
      (mkDb (List.map (rewriteRow oid st rid err) (orders db))
            (order_events db ++ [mkOrderEventRow oid ("Status_" +:+ status_name st)]),
       Some (setStatus st rid err row))
  end.

(** *** Messages (messaging/orderPublisher.ts) and other effects *)

Inductive OrderEventType : Type :=
| OrderCreated | OrderConfirmed | OrderFailed | OrderCancelled
| OrderPendingVerification.

Record OrderEvent : Type := mkOrderEvent {
  eventType : OrderEventType;
  data_orderId : string;
  data_customerId : option string;
  data_productId : option string;
  data_quantity : option Z;
  data_status : option OrderStatus;
  data_reason : option string;
  data_reservationId : option string
}.

Record VerifyOrderMessage : Type := mkVerifyOrderMessage {
  verify_orderId : string;
  verify_productId : string;
  verify_quantity : Z;
  verify_idempotencyKey : string;
  originalRequestTime : string
}.

Record ReserveStockRequest : Type := mkReserveStockRequest {
  reserve_orderId : string;
  reserve_productId : string;
  reserve_quantity : Z;
  reserve_idempotencyKey : string
}.

Record ReleaseStockRequest : Type := mkReleaseStockRequest {
  release_orderId : string;
  release_reservationId : string;
  release_reason : string
}.

(** What a handler does besides touching its database, in call order. *)
Inductive Effect : Type :=
| PublishOrderEvent (e : OrderEvent)
| SendVerifyOrderMessage (m : VerifyOrderMessage)
| BroadcastOrderUpdate (oid : string) (st : OrderStatus)
    (rid : option string) (note : option string)
| CallReserveStock (request : ReserveStockRequest)
| CallReleaseStock (request : ReleaseStockRequest).

(** *** inventoryClient.reserveStock (clients/inventoryClient.ts) *)

Record ReserveStockResponse : Type := mkReserveStockResponse {
  success : bool;
  message : string;
  response_reservationId : string;
  remainingStock : Z;
  response_status : Z
}.

Definition statusMap (code : Z) : string :=
  match code with
  | 1 => "CONFIRMED"
  | 2 => "INSUFFICIENT_STOCK"
  | 3 => "PRODUCT_NOT_FOUND"
  | 4 => "ALREADY_EXISTS"
  | _ => "UNKNOWN"
  end.

(** The promise of the client: resolved with the response, or rejected with
    an Error whose message is TIMEOUT, UNAVAILABLE or, for any other status,
    that of the error object of the gRPC library. *)
Definition clientReserveStock (reply : GrpcReply ReserveStockResponse)
  : Outcome ReserveStockResponse :=
  match reply with
  | GrpcError code msg =>
      if code =? DEADLINE_EXCEEDED then Thrown "TIMEOUT"
      else if code =? UNAVAILABLE then Thrown "UNAVAILABLE"
      else Thrown (callErrorMessage code msg)
  | GrpcOk response => Returned response
  end.

(** *** HTTP (the /orders routes) *)

Record CreateOrderRequest : Type := mkCreateOrderRequest {
  body_customerId : option string;
  body_productId : option string;
  body_quantity : option Z;
  body_idempotencyKey : option string;
  header_idempotencyKey : option string
}.

Record Response : Type := mkResponse {
  statusCode : Z;
  json_success : bool;
  json_data : option Order;
  json_cached : bool;
  json_error : option string;
  json_verificationRequired : bool
}.

(** [a || b] on optional strings. *)
Definition orElse (a b : option string) : option string :=
  if truthy a then a else b.

Definition text (s : option string) : string :=
  match s with Some v => v | None => "" end.

(** [!quantity] for a numeric field: absent or zero. *)
Definition missingNumber (q : option Z) : bool :=
  match q with Some v => v =? 0 | None => true end.

(** The part of the POST /orders handler that follows createOrder: the
    OrderCreated event, the ReserveStock call and what is made of its outcome.
    [now] is the clock reading put in the VerifyOrder message and [reply] what
    the call hands back. *)
Definition afterCreate (now : string) (reply : GrpcReply ReserveStockResponse)
    (db0 : Db) (order : Order) (customerId productId : string) (quantity : Z)
    (requestIdempotencyKey : string) : Db * list Effect * Response :=
  let created :=
    [PublishOrderEvent
       (mkOrderEvent OrderCreated (id order) (Some customerId)
          (Some productId) (Some quantity) (Some pending) None None);
     CallReserveStock
       (mkReserveStockRequest (id order) productId quantity
          requestIdempotencyKey)] in
  match clientReserveStock reply with
  | Thrown errorMessage =>
      if String.eqb errorMessage "TIMEOUT"
         || String.eqb errorMessage "UNAVAILABLE" then
        let db1 := fst (updateOrderStatus db0 (id order)
                          pending_verification None None) in
        (db1,
         created ++
         [SendVerifyOrderMessage
            (mkVerifyOrderMessage (id order) productId quantity
               requestIdempotencyKey now);
          PublishOrderEvent
            (mkOrderEvent OrderPendingVerification (id order) None
               (Some productId) (Some quantity)
               (Some pending_verification)
               (Some "gRPC timeout - verification required") None)],
         mkResponse 202 true (getOrder db1 (id order)) false None true)
      else
        (db0, created,
         mkResponse 500 false None false (Some errorMessage) false)
  | Returned reservationResult =>
      if success reservationResult then
        let rid := Some (response_reservationId reservationResult) in
        let db1 := fst (updateOrderStatus db0 (id order) confirmed
                          rid None) in
        (db1,
         created ++
         [PublishOrderEvent
            (mkOrderEvent OrderConfirmed (id order) None None None
               (Some confirmed) None rid);
          BroadcastOrderUpdate (id order) confirmed rid None],
         mkResponse 201 true (getOrder db1 (id order)) false None false)
      else
        let why := Some (message reservationResult) in
        let db1 := fst (updateOrderStatus db0 (id order) failed
                          None why) in
        (db1,
         created ++
         [PublishOrderEvent
            (mkOrderEvent OrderFailed (id order) None None None
               (Some failed) why None);
          BroadcastOrderUpdate (id order) failed None why],
         mkResponse 400 false (getOrder db1 (id order)) false why false)
  end.

(** POST /orders. [genKey] and [uuid] are the two uuidv4() results: the
    generated idempotency key and the order id. *)
Definition postOrders (genKey uuid now : string)
    (reply : GrpcReply ReserveStockResponse) (db : Db) (req : CreateOrderRequest)
  : Db * list Effect * Response :=
  let idempotencyKey := orElse (header_idempotencyKey req) (body_idempotencyKey req) in
  if negb (truthy (body_customerId req)) || negb (truthy (body_productId req))
     || missingNumber (body_quantity req) then
    (db, [], mkResponse 400 false None false
               (Some "Missing required fields: customerId, productId, quantity") false)
  else
    let customerId := text (body_customerId req) in
    let productId := text (body_productId req) in
    let quantity := match body_quantity req with Some v => v | None => 0 end in
    if quantity <=? 0 then
      (db, [], mkResponse 400 false None false (Some "Quantity must be positive") false)
    else
      let requestIdempotencyKey :=
        if truthy idempotencyKey then text idempotencyKey else genKey in
      match (if truthy idempotencyKey
             then getOrderByIdempotencyKey db (text idempotencyKey) else None) with
      | Some existingOrder =>
          (db, [], mkResponse 200 true (Some existingOrder) true None false)
      | None =>
          match createOrder uuid db
                  (mkCreateOrderInput customerId productId quantity
                     (Some requestIdempotencyKey)) with
          | (db0, Thrown e) => (db0, [], mkResponse 500 false None false (Some e) false)
          | (db0, Returned order) =>
              afterCreate now reply db0 order customerId productId quantity
                requestIdempotencyKey
          end
      end.

(** POST /orders/:id/cancel. The outcome of the ReleaseStock call is ignored
    by the route (a rejection is caught and logged). *)
Definition cancelOrder (db : Db) (oid : string) : Db * list Effect * Response :=
  match getOrder db oid with
  | None => (db, [], mkResponse 404 false None false (Some "Order not found") false)
  | Some order =>
      if bool_decide (status order = cancelled) then
        (db, [], mkResponse 400 false None false
                   (Some "Order is already cancelled") false)
      else if bool_decide (status order = failed) then
        (db, [], mkResponse 400 false None false
                   (Some "Cannot cancel a failed order") false)
      else
        let release :=
          if bool_decide (status order = confirmed) && truthy (reservationId order)
          then [CallReleaseStock
                  (mkReleaseStockRequest (id order) (text (reservationId order))
                     "Order cancelled by user")]
          else [] in
        let db1 := fst (updateOrderStatus db (id order) cancelled None None) in
        (db1,
         release ++
         [PublishOrderEvent
            (mkOrderEvent OrderCancelled (id order) None None None
               (Some cancelled) (Some "Cancelled by user") None);
          BroadcastOrderUpdate (id order) cancelled None None],
         mkResponse 200 true (getOrder db1 (id order)) false None false)
  end.

(** *** The inventory-events consumer *)

(** The body of a received message: eventType and the fields of [data] the
    handlers read. *)
Record InventoryMessage : Type := mkInventoryMessage {
  msg_eventType : string;
  msg_orderId : string;
  msg_reservationId : option string;
  msg_reason : option string;
  msg_status : option string;
  msg_verified : option bool
}.

Definition handleStockReserved (db : Db) (event : InventoryMessage)
  : Db * list Effect :=
  let orderId := msg_orderId event in
  let reservationId := msg_reservationId event in
  match updateOrderStatus db orderId confirmed reservationId None with
  | (db1, Some _) =>
      (db1,
       [PublishOrderEvent
          (mkOrderEvent OrderConfirmed orderId None None None (Some confirmed)
             None reservationId);
        BroadcastOrderUpdate orderId confirmed reservationId None])
  | (db1, None) => (db1, [])
  end.

Definition handleStockReleased (db : Db) (event : InventoryMessage)
  : Db * list Effect := (db, []).

Definition handleVerificationComplete (db : Db) (event : InventoryMessage)
  : Db * list Effect :=
  let orderId := msg_orderId event in
  let reservationId := msg_reservationId event in
  let verified :=
    match msg_verified event with
    | Some v => v
    | None => bool_decide (msg_status event = Some "confirmed")
    end in
  match getOrder db orderId with
  | None => (db, [])
  | Some order =>
      if negb (bool_decide (status order = pending_verification)) then (db, [])
      else if verified then
        (fst (updateOrderStatus db orderId confirmed reservationId None),
         [PublishOrderEvent
            (mkOrderEvent OrderConfirmed orderId None None None (Some confirmed)
               (Some "Verified via Schrödinger recovery") reservationId);
          BroadcastOrderUpdate orderId confirmed reservationId
            (Some "Order confirmed after verification")])
      else
        let why :=
          Some (if truthy (msg_reason event) then text (msg_reason event)
                else "Verification failed - no reservation found") in
        (fst (updateOrderStatus db orderId failed None why),
         [PublishOrderEvent
            (mkOrderEvent OrderFailed orderId None None None (Some failed) why None);
          BroadcastOrderUpdate orderId failed None
            (Some "Order failed after verification")])
  end.

(** processMessage: dispatch on eventType. *)
Definition processMessage (db : Db) (event : InventoryMessage) : Db * list Effect :=
  if String.eqb (msg_eventType event) "StockReserved" then
    handleStockReserved db event
  else if String.eqb (msg_eventType event) "StockReleased" then
    handleStockReleased db event
  else if String.eqb (msg_eventType event) "OrderVerified"
          || String.eqb (msg_eventType event) "VerificationComplete" then
    handleVerificationComplete db event
  else (db, []).

(** *** Requests and steps of the order service *)

(** The validation of POST /orders rejects the request. *)
Definition invalid (req : CreateOrderRequest) : bool :=
  negb (truthy (body_customerId req)) || negb (truthy (body_productId req))
  || missingNumber (body_quantity req)
  || match body_quantity req with Some v => v <=? 0 | None => false end.

(** The idempotency key the client supplied: the header, else the body. *)
Definition suppliedKey (req : CreateOrderRequest) : option string :=
  orElse (header_idempotencyKey req) (body_idempotencyKey req).

(** One step of the order service: a create request, a cancel request or a
    message from inventory-events. *)
Inductive Step : Type :=
| Post (genKey uuid now : string) (reply : GrpcReply ReserveStockResponse)
    (req : CreateOrderRequest)
| Cancel (oid : string)
| Consume (event : InventoryMessage).

Definition step (db : Db) (s : Step) : Db :=
  match s with
  | Post genKey uuid now reply req =>
      fst (fst (postOrders genKey uuid now reply db req))
  | Cancel oid => fst (fst (cancelOrder db oid))
  | Consume event => fst (processMessage db event)
  end.



(** The key under which POST /orders stores a new order. *)
Definition requestKey (genKey : string) (req : CreateOrderRequest) : string :=
  if truthy (suppliedKey req) then text (suppliedKey req) else genKey.


(** *** How a call can end *)





(** *** Sample data: a first order and its confirmation *)

Definition firstOrder : CreateOrderRequest :=
  mkCreateOrderRequest (Some "C1") (Some "SKU-002") (Some 3) None (Some "k-42").


Definition happyReply : GrpcReply ReserveStockResponse :=
  GrpcOk (mkReserveStockResponse true "Stock reserved successfully" "r-1" 197 1).


Definition confirmedDb : Db :=
  fst (fst (postOrders "g-1" "ord-1" "2026-01-01T00:00:00Z" happyReply
              (mkDb [] []) firstOrder)).




(** *** Runs of the order service and what they write *)

Definition runSteps (db : Db) (steps : list Step) : Db := fold_left step steps db.

(** One statement that changes the orders table: the INSERT of createOrder
    (a pending order whose id and idempotency key are not taken and whose
    quantity is positive) or the UPDATE of updateOrderStatus. *)
Inductive Write (db : Db) : Db -> Prop :=
| write_insert row :
    status row = pending ->
    completedAt row = false ->
    0 < quantity row ->
    (forall o, In o (orders db) -> id o <> id row) ->
    (forall k, idempotencyKey row = Some k ->
               forall o, In o (orders db) -> idempotencyKey o <> Some k) ->
    Write db (mkDb (orders db ++ [row])
                   (order_events db ++ [mkOrderEventRow (id row) "OrderCreated"]))
| write_update oid st rid err :
    Write db (fst (updateOrderStatus db oid st rid err)).

Inductive Writes : Db -> Db -> Prop :=
| writes_none db : Writes db db
| writes_more db db1 db2 : Write db db1 -> Writes db1 db2 -> Writes db db2.

(** completed_at is set on every order whose status is terminal. *)
Definition completedOk (db : Db) : Prop :=
  forall o, In o (orders db) -> isTerminal (status o) = true -> completedAt o = true.

(** The constraints of the orders table: primary key, UNIQUE idempotency key
    and CHECK (quantity > 0). *)
Definition constraintsOk (db : Db) : Prop :=
  NoDup (List.map id (orders db))
  /\ (forall k, (length (List.filter (byKey k) (orders db)) <= 1)%nat)
  /\ (forall o, In o (orders db) -> 0 < quantity o).

(** The columns of an order that no statement updates. *)
Definition fixedColumns (o : Order)
  : string * string * string * Z * option string :=
  (id o, customerId o, productId o, quantity o, idempotencyKey o).

(** Sample data: an order that times out, is confirmed by verification and
    then cancelled, and a second order that goes through. *)
Definition sampleSteps : list Step :=
  [Post "g-1" "ord-1" "2026-01-01T00:00:00Z"
     (GrpcError DEADLINE_EXCEEDED "Deadline exceeded") firstOrder;
   Consume (mkInventoryMessage "OrderVerified" "ord-1" (Some "r-1") None
              (Some "confirmed") None);
   Cancel "ord-1";
   Post "g-2" "ord-2" "2026-01-01T00:00:09Z" happyReply
     (mkCreateOrderRequest (Some "C2") (Some "SKU-001") (Some 1) None None)].

(** *** The routes when a send can fail (messaging/orderPublisher.ts) *)

(** publishOrderEvent and sendVerifyOrderMessage return when the message was
    sent, or when there is no sender, and rethrow the error of a send that
    failed. A bus tells, for each message, which of the two happens; the
    effects of a route are then the calls that returned. [postOrders] and
    [cancelOrder] above are the routes on a bus where every call returns. *)
Definition Bus : Type := Effect -> Outcome unit.

Definition reliable : Bus := fun _ => Returned tt.

(** The answer of the catch block of a route. *)
Definition internalError (e : string) : Response :=
  mkResponse 500 false None false (Some e) false.

(** The variables of the POST /orders handler that are live while it awaits
    the ReserveStock call. *)
Record Pending : Type := mkPending {
  pending_order : Order;
  pending_customerId : string;
  pending_productId : string;
  pending_quantity : Z;
  pending_key : string
}.

(** POST /orders up to the awaited ReserveStock call: validation, the lookup
    by idempotency key, createOrder and the OrderCreated event. The handler
    either answers at once or is left waiting for the reply. *)
Definition beginOrder (bus : Bus) (genKey uuid : string) (db : Db)
    (req : CreateOrderRequest) : Db * list Effect * (Response + Pending) :=
  let idempotencyKey := orElse (header_idempotencyKey req) (body_idempotencyKey req) in
  if negb (truthy (body_customerId req)) || negb (truthy (body_productId req))
     || missingNumber (body_quantity req) then
    (db, [], inl (mkResponse 400 false None false
                    (Some "Missing required fields: customerId, productId, quantity")
                    false))
  else
    let customerId := text (body_customerId req) in
    let productId := text (body_productId req) in
    let quantity := match body_quantity req with Some v => v | None => 0 end in
    if quantity <=? 0 then
      (db, [], inl (mkResponse 400 false None false
                      (Some "Quantity must be positive") false))
    else
      let requestIdempotencyKey :=
        if truthy idempotencyKey then text idempotencyKey else genKey in
      match (if truthy idempotencyKey
             then getOrderByIdempotencyKey db (text idempotencyKey) else None) with
      | Some existingOrder =>
          (db, [], inl (mkResponse 200 true (Some existingOrder) true None false))
      | None =>
          match createOrder uuid db
                  (mkCreateOrderInput customerId productId quantity
                     (Some requestIdempotencyKey)) with
          | (db0, Thrown e) => (db0, [], inl (internalError e))
          | (db0, Returned order) =>
              let created :=
                PublishOrderEvent
                  (mkOrderEvent OrderCreated (id order) (Some customerId)
                     (Some productId) (Some quantity) (Some pending) None None) in
              match bus created with
              | Thrown e => (db0, [], inl (internalError e))
              | Returned _ =>
                  (db0,
                   [created;
                    CallReserveStock
                      (mkReserveStockRequest (id order) productId quantity
                         requestIdempotencyKey)],
                   inr (mkPending order customerId productId quantity
                          requestIdempotencyKey))
              end
          end
      end.

(** POST /orders from the moment the ReserveStock call has ended with
    [reply]. Each branch writes the status first and publishes afterwards, and
    none of them reads the status the order has by then. *)
Definition finishOrder (bus : Bus) (now : string)
    (reply : GrpcReply ReserveStockResponse) (db0 : Db) (p : Pending)
  : Db * list Effect * Response :=
  let order := pending_order p in
  let productId := pending_productId p in
  let quantity := pending_quantity p in
  match clientReserveStock reply with
  | Thrown errorMessage =>
      if String.eqb errorMessage "TIMEOUT"
         || String.eqb errorMessage "UNAVAILABLE" then
        let db1 := fst (updateOrderStatus db0 (id order)
                          pending_verification None None) in
        let verify :=
          SendVerifyOrderMessage
            (mkVerifyOrderMessage (id order) productId quantity (pending_key p)
               now) in
        let announced :=
          PublishOrderEvent
            (mkOrderEvent OrderPendingVerification (id order) None
               (Some productId) (Some quantity) (Some pending_verification)
               (Some "gRPC timeout - verification required") None) in
        match bus verify with
        | Thrown e => (db1, [], internalError e)
        | Returned _ =>
            match bus announced with
            | Thrown e => (db1, [verify], internalError e)
            | Returned _ =>
                (db1, [verify; announced],
                 mkResponse 202 true (getOrder db1 (id order)) false None true)
            end
        end
      else (db0, [], internalError errorMessage)
  | Returned reservationResult =>
      if success reservationResult then
        let rid := Some (response_reservationId reservationResult) in
        let db1 := fst (updateOrderStatus db0 (id order) confirmed rid None) in
        let announced :=
          PublishOrderEvent
            (mkOrderEvent OrderConfirmed (id order) None None None
               (Some confirmed) None rid) in
        match bus announced with
        | Thrown e => (db1, [], internalError e)
        | Returned _ =>
            (db1, [announced; BroadcastOrderUpdate (id order) confirmed rid None],
             mkResponse 201 true (getOrder db1 (id order)) false None false)
        end
      else
        let why := Some (message reservationResult) in
        let db1 := fst (updateOrderStatus db0 (id order) failed None why) in
        let announced :=
          PublishOrderEvent
            (mkOrderEvent OrderFailed (id order) None None None
               (Some failed) why None) in
        match bus announced with
        | Thrown e => (db1, [], internalError e)
        | Returned _ =>
            (db1, [announced; BroadcastOrderUpdate (id order) failed None why],
             mkResponse 400 false (getOrder db1 (id order)) false why false)
        end
  end.

(** POST /orders when nothing else runs while the handler awaits the call. *)
Definition postOrdersVia (bus : Bus) (genKey uuid now : string)
    (reply : GrpcReply ReserveStockResponse) (db : Db) (req : CreateOrderRequest)
  : Db * list Effect * Response :=
  match beginOrder bus genKey uuid db req with
  | (db0, effects, inl response) => (db0, effects, response)
  | (db0, effects, inr p) =>
      let '(db1, more, response) := finishOrder bus now reply db0 p in
      (db1, effects ++ more, response)
  end.

(** POST /orders/:id/cancel. The order is cancelled before OrderCancelled is
    published. *)
Definition cancelOrderVia (bus : Bus) (db : Db) (oid : string)
  : Db * list Effect * Response :=
  match getOrder db oid with
  | None => (db, [], mkResponse 404 false None false (Some "Order not found") false)
  | Some order =>
      if bool_decide (status order = cancelled) then
        (db, [], mkResponse 400 false None false
                   (Some "Order is already cancelled") false)
      else if bool_decide (status order = failed) then
        (db, [], mkResponse 400 false None false
                   (Some "Cannot cancel a failed order") false)
      else
        let release :=
          if bool_decide (status order = confirmed) && truthy (reservationId order)
          then [CallReleaseStock
                  (mkReleaseStockRequest (id order) (text (reservationId order))
                     "Order cancelled by user")]
          else [] in
        let db1 := fst (updateOrderStatus db (id order) cancelled None None) in
        let announced :=
          PublishOrderEvent
            (mkOrderEvent OrderCancelled (id order) None None None
               (Some cancelled) (Some "Cancelled by user") None) in
        match bus announced with
        | Thrown e => (db1, release, internalError e)
        | Returned _ =>
            (db1,
             release ++ [announced; BroadcastOrderUpdate (id order) cancelled None None],
             mkResponse 200 true (getOrder db1 (id order)) false None false)
        end
  end.

(** *** Steps when requests overlap *)

(** While the POST /orders handler awaits the ReserveStock call, other
    requests and messages are handled. A move is a whole step, the first part
    of a create request, or the reply path of a create request that is
    waiting. *)
Inductive Move : Type :=
| Whole (s : Step)
| Begin (bus : Bus) (genKey uuid : string) (req : CreateOrderRequest)
| Reply (bus : Bus) (now : string) (reply : GrpcReply ReserveStockResponse)
    (p : Pending).

Definition move (db : Db) (m : Move) : Db :=
  match m with
  | Whole s => step db s
  | Begin bus genKey uuid req => fst (fst (beginOrder bus genKey uuid db req))
  | Reply bus now reply p => fst (fst (finishOrder bus now reply db p))
  end.



(** Sample data: a bus on which sending to the verify-orders queue fails. *)
Definition queueDown : Bus :=
  fun e =>
    match e with
    | SendVerifyOrderMessage _ => Thrown "The messaging entity could not be found"
    | _ => Returned tt
    end.

(** Sample data: the first create request waiting for its ReserveStock call. *)
Definition firstPending : Pending :=
  mkPending (mkOrder "ord-1" "C1" "SKU-002" 3 pending (Some "k-42") None false None)
    "C1" "SKU-002" 3 "k-42".

Definition waitingDb : Db :=
  fst (fst (beginOrder reliable "g-1" "ord-1" (mkDb [] []) firstOrder)).


Definition secondPending : Pending :=
  mkPending (mkOrder "ord-2" "C2" "SKU-001" 1 pending (Some "g-2") None false None)
    "C2" "SKU-001" 1 "g-2".

Definition overlapDb : Db :=
  move (step confirmedDb (Cancel "ord-1"))
    (Begin reliable "g-2" "ord-2"
       (mkCreateOrderRequest (Some "C2") (Some "SKU-001") (Some 1) None None)).

(** The values createOrder and the reply path store fit the columns of
    orders: id and reservation_id VARCHAR(36), customer_id VARCHAR(100),
    product_id VARCHAR(36), quantity INTEGER, idempotency_key VARCHAR(100). *)
Definition storable (uuid customerId productId : string) (quantity : Z)
    (key rid : string) : bool :=
  varchar 36 uuid && varchar 100 customerId && varchar 36 productId
  && int4 quantity && varchar 100 key && varchar 36 rid.

End Orders.

(** ** The two services joined by their calls, queue and topic *)

Module System.

Record State : Type := mkState {
  orderDb : Orders.Db;
  inventoryDb : Inventory.Db
}.

Definition onWire (r : Orders.ReleaseStockRequest) : Inventory.ReleaseStockRequest :=
  Inventory.mkReleaseStockRequest (Orders.release_orderId r)
    (Orders.release_reservationId r) (Orders.release_reason r).

(** The ReleaseStock calls among the effects of a route, run by the gRPC
    handler of the inventory service in call order. *)
Fixpoint deliver (inv : Inventory.Db) (effects : list Orders.Effect)
  : Inventory.Db * list Inventory.InventoryEvent :=
  match effects with
  | [] => (inv, [])
  | Orders.CallReleaseStock r :: rest =>
      let '(inv1, published, _) := Inventory.grpcReleaseStock inv (onWire r) in
      let '(inv2, later) := deliver inv1 rest in
      (inv2, published ++ later)
  | _ :: rest => deliver inv rest
  end.

(** POST /orders/:id/cancel against both databases; [reachable] tells whether
    the call gets through to the inventory service. *)
Definition cancelOrder (reachable : bool) (st : State) (oid : string)
  : State * list Inventory.InventoryEvent * Orders.Response :=
  let '(odb, effects, response) := Orders.cancelOrder (orderDb st) oid in
  let '(inv, published) :=
    if reachable then deliver (inventoryDb st) effects else (inventoryDb st, []) in
  (mkState odb inv, published, response).


(** *** A create request against both services *)

(** The request of the ReserveStock call a waiting handler has made, as the
    inventory service receives it. *)
Definition callOnWire (p : Orders.Pending) : Inventory.ReserveStockRequest :=
  Inventory.mkReserveStockRequest (Orders.id (Orders.pending_order p))
    (Orders.pending_productId p) (Orders.pending_quantity p) (Orders.pending_key p).

(** The reply as the client receives it. [enum] is how the status enum of the
    proto file, which is not part of the sources, arrives. *)
Definition replyOnWire (enum : Z -> Z) (reply : GrpcReply Inventory.ReserveStockResponse)
  : GrpcReply Orders.ReserveStockResponse :=
  match reply with
  | GrpcOk r =>
      GrpcOk (Orders.mkReserveStockResponse (Inventory.reserve_success r)
                (Inventory.reserve_message r) (Inventory.reserve_reservationId r)
                (Inventory.reserve_remainingStock r)
                (enum (Inventory.reserve_status r)))
  | GrpcError code message => GrpcError code message
  end.

(** POST /orders when the ReserveStock call is answered within the deadline
    and nothing else runs meanwhile: the route up to the call, the inventory
    handler on the call, and the route from the reply on. [rid] is the id the
    inventory service generates. *)
Definition placeOrder (bus : Orders.Bus) (crash : bool) (enum : Z -> Z)
    (genKey uuid rid now : string) (st : State) (req : Orders.CreateOrderRequest)
  : State * list Inventory.InventoryEvent * list Orders.Effect * Orders.Response :=
  match Orders.beginOrder bus genKey uuid (orderDb st) req with
  | (odb, effects, inl response) =>
      (mkState odb (inventoryDb st), [], effects, response)
  | (odb, effects, inr p) =>
      let '(inv, published, reply) :=
        Inventory.grpcReserveStock crash rid (inventoryDb st) (callOnWire p) in
      let '(odb1, more, response) :=
        Orders.finishOrder bus now (replyOnWire enum reply) odb p in
      (mkState odb1 inv, published, effects ++ more, response)
  end.

(** POST /orders when the call ends with the error [code] on the client side
    without a reply of the handler: the deadline has passed (the handler may
    still run the call, before or after) or the service was not reached. Only
    the order service moves. *)
Definition unanswered (bus : Orders.Bus) (code : Z) (details : string)
    (genKey uuid now : string) (st : State) (req : Orders.CreateOrderRequest)
  : State * list Orders.Effect * Orders.Response :=
  let '(odb, effects, response) :=
    Orders.postOrdersVia bus genKey uuid now (GrpcError code details) (orderDb st)
      req in
  (mkState odb (inventoryDb st), effects, response).

(** The inventory handler running a ReserveStock call whose reply nobody
    waits for any more. Only the inventory service moves. *)
Definition serve (crash : bool) (rid : string) (st : State)
    (call : Inventory.ReserveStockRequest)
  : State * list Inventory.InventoryEvent :=
  let '(inv, published, _) :=
    Inventory.grpcReserveStock crash rid (inventoryDb st) call in
  (mkState (orderDb st) inv, published).

(** *** The verify-orders queue and the inventory-events topic *)

Definition verifyOnWire (m : Orders.VerifyOrderMessage) : Inventory.VerifyOrderData :=
  Inventory.mkVerifyOrderData (Orders.verify_orderId m) (Orders.verify_productId m)
    (Orders.verify_quantity m) (Orders.verify_idempotencyKey m)
    (Orders.originalRequestTime m).

(** The body of an inventory event as the order consumer reads it: eventType
    and, from data, orderId, reservationId, reason, status and verified. A
    LowStockAlert has no orderId; its place is taken by the empty string. *)
Definition eventOnWire (e : Inventory.InventoryEvent) : Orders.InventoryMessage :=
  match e with
  | Inventory.StockReserved oid _ _ _ rid =>
      Orders.mkInventoryMessage "StockReserved" oid rid None None None
  | Inventory.StockReleased oid _ _ _ why =>
      Orders.mkInventoryMessage "StockReleased" oid None (Some why) None None
  | Inventory.LowStockAlert _ _ _ =>
      Orders.mkInventoryMessage "LowStockAlert" "" None None None None
  | Inventory.OrderVerified oid _ _ st _ rid =>
      Orders.mkInventoryMessage "OrderVerified" oid rid None
        (Some (match st with
               | Inventory.verified_confirmed => "confirmed"
               | Inventory.verified_not_found => "not_found"
               end)) None
  end.

(** The order consumer on a list of published events, in order. *)
Definition consume (odb : Orders.Db) (published : list Inventory.InventoryEvent)
  : Orders.Db :=
  fold_left (fun db e => fst (Orders.processMessage db (eventOnWire e))) published odb.

(** A VerifyOrder message handled by the inventory service. Only the
    inventory service moves. *)
Definition verify (uuid : string) (st : State) (m : Orders.VerifyOrderMessage)
  : State * list Inventory.InventoryEvent :=
  let '(inv, published, _) :=
    Inventory.handleVerifyOrderMessage uuid (inventoryDb st) (verifyOnWire m) in
  (mkState (orderDb st) inv, published).

(** Published events handled by the order consumer. *)
Definition deliverEvents (st : State) (published : list Inventory.InventoryEvent)
  : State :=
  mkState (consume (orderDb st) published) (inventoryDb st).

(** The order POST /orders inserts for a request. *)
Definition newOrder (genKey uuid : string) (req : Orders.CreateOrderRequest)
  : Orders.Order :=
  Orders.mkOrder uuid (Orders.text (Orders.body_customerId req))
    (Orders.text (Orders.body_productId req))
    (match Orders.body_quantity req with Some v => v | None => 0 end)
    Orders.pending (Some (Orders.requestKey genKey req)) None false None.

(** Ids and keys that are not in use yet, in either database. *)
Definition unused (genKey uuid rid : string) (st : State)
    (req : Orders.CreateOrderRequest) : Prop :=
  Orders.requestKey genKey req <> ""
  /\ (forall o, In o (Orders.orders (orderDb st)) ->
        Orders.id o <> uuid
        /\ Orders.idempotencyKey o <> Some (Orders.requestKey genKey req))
  /\ (forall r, In r (Inventory.reservations (inventoryDb st)) ->
        Inventory.id r <> rid
        /\ Inventory.orderId r <> uuid
        /\ Inventory.idempotencyKey r <> Some (Orders.requestKey genKey req)).

(** The values the exchange stores for a request fit the columns of both
    databases, with [rid] the reservation id and [key] the key the inventory
    service stores it under. *)
Definition fits (genKey uuid rid : string) (key : string)
    (req : Orders.CreateOrderRequest) (product : Inventory.Product) : bool :=
  let productId := Orders.text (Orders.body_productId req) in
  let quantity := match Orders.body_quantity req with Some v => v | None => 0 end in
  Orders.storable uuid (Orders.text (Orders.body_customerId req)) productId quantity
    (Orders.requestKey genKey req) rid
  && Inventory.storable rid uuid productId quantity (Some key) product.

(** Sample data: no orders yet, the inventory as seeded. *)
Definition emptyShop : State :=
  mkState (Orders.mkDb [] []) Inventory.seed.

End System.

(** * The dashboard's metrics store (dashboard/src/websocket.ts) *)

Module Dashboard.

Section Store.

(** [data: any]: the payload of a metric, with the two properties
    broadcastMetric reads from a health report: [data.service], as the key it
    is used for, and the truth value of [data.healthy]. *)
Variable Payload : Type.
Variable serviceOf : Payload -> string.
Variable healthyOf : Payload -> bool.

Inductive Health : Type := healthy | unhealthy | unknown.

(** An entry of [services]: the object
    [{ status, lastCheck, ...data }], given by the status and the time the code
    sets and the payload spread over them; the two initial entries have no
    payload. *)
Record ServiceMetrics : Type := mkServiceMetrics {
  status : Health;
  lastCheck : string;
  report : option Payload
}.

(** An entry of [events] or [responseTimes]: [{ timestamp, ...data }]. *)
Record Stamped : Type := mkStamped {
  timestamp : string;
  payload : Payload
}.

Record MetricsStore : Type := mkMetricsStore {
  services : gmap string ServiceMetrics;
  events : list Stamped;
  responseTimes : list Stamped
}.

Definition metricsStore : MetricsStore :=
  mkMetricsStore
    (<["order-service" := mkServiceMetrics unknown "" None]>
       (<["inventory-service" := mkServiceMetrics unknown "" None]> ∅))
    [] [].

(** [array.slice(-n)] for a positive [n]: the last [n] elements, or all of
    them when there are fewer. *)
Definition sliceLast {A : Type} (n : nat) (l : list A) : list A :=
  drop (length l - n) l.

(** [array.push(x); if (array.length > n) array = array.slice(-n)]. *)
Definition pushCapped {A : Type} (n : nat) (l : list A) (x : A) : list A :=
  let pushed := l ++ [x] in
  if (n <? length pushed)%nat then sliceLast n pushed else pushed.

(** A connected client and whether its readyState is OPEN. *)
Record Client : Type := mkClient {
  client_name : string;
  client_open : bool
}.

(** The message sent to a client: type, data and timestamp. *)
Record Sent : Type := mkSent {
  sent_to : string;
  sent_type : string;
  sent_data : Payload;
  sent_timestamp : string
}.

(** broadcastMetric(type, data). [now] is the time read while storing and
    [sentAt] the time read for the message. *)
Definition broadcastMetric (now sentAt : string) (clients : list Client)
    (store : MetricsStore) (type : string) (data : Payload)
  : MetricsStore * list Sent :=
  let stored :=
    if String.eqb type "serviceHealth" then
      mkMetricsStore
        (<[serviceOf data :=
             mkServiceMetrics (if healthyOf data then healthy else unhealthy) now
               (Some data)]> (services store))
        (events store) (responseTimes store)
    else if String.eqb type "responseTime" then
      mkMetricsStore (services store) (events store)
        (pushCapped 100 (responseTimes store) (mkStamped now data))
    else if String.eqb type "event" then
      mkMetricsStore (services store)
        (pushCapped 50 (events store) (mkStamped now data))
        (responseTimes store)
    else store in
  (stored,
   List.map (fun c => mkSent (client_name c) type data sentAt)
     (List.filter client_open clients)).

(** One call of broadcastMetric with the times it reads. *)
Record Call : Type := mkCall {
  call_now : string;
  call_sentAt : string;
  call_type : string;
  call_data : Payload
}.

Definition after (clients : list Client) (store : MetricsStore) (calls : list Call)
  : MetricsStore :=
  fold_left
    (fun s c =>
       fst (broadcastMetric (call_now c) (call_sentAt c) clients s (call_type c)
              (call_data c)))
    calls store.

(** The entries a list of calls pushes for one metric type, in call order. *)
Definition pushedBy (type : string) (calls : list Call) : list Stamped :=
  List.map (fun c => mkStamped (call_now c) (call_data c))
    (List.filter (fun c => String.eqb (call_type c) type) calls).

End Store.

End Dashboard.

(** * Properties of the inventory service *)

Module InventoryFacts.
Import Inventory.

(** ** Lists of rows *)

Lemma filter_nil_forall {A} (f : A -> bool) (l : list A) :
  List.filter f l = [] <-> (forall x, In x l -> f x = false).
Proof.
  induction l as [|a l IH]; simpl.
  - split; [intros _ x [] | reflexivity].
  - destruct (f a) eqn:Ha; split.
    + discriminate.
    + intros H. specialize (H a (or_introl eq_refl)). congruence.
    + intros H x [<-|Hx]; [assumption | now apply IH].
    + intros H. apply IH. intros x Hx. apply H. now right.
Qed.

Lemma head_filter_In {A} (f : A -> bool) (l : list A) (x : A) :
  head (List.filter f l) = Some x -> In x l /\ f x = true.
Proof.
  intros H. destruct (List.filter f l) as [|y ys] eqn:E; [discriminate|].
  injection H as ->.
  assert (Hin : In x (List.filter f l)) by (rewrite E; now left).
  now apply filter_In in Hin.
Qed.

Lemma head_filter_None {A} (f : A -> bool) (l : list A) :
  head (List.filter f l) = None <-> (forall x, In x l -> f x = false).
Proof.
  rewrite <- filter_nil_forall.
  destruct (List.filter f l); simpl; split; congruence.
Qed.

Lemma existsb_false_forall {A} (f : A -> bool) (l : list A) :
  existsb f l = false <-> (forall x, In x l -> f x = false).
Proof.
  induction l as [|a l IH]; simpl.
  - split; [intros _ x [] | reflexivity].
  - rewrite orb_false_iff, IH. split.
    + intros [Ha Hl] x [<-|Hx]; auto.
    + intros H. split; [apply H; now left | intros x Hx; apply H; now right].
Qed.

(** ** The idempotency lookup *)

Lemma storedUnder_rows db key :
  match key with
  | Some k => if truthy key then List.filter (byKey k) (reservations db) else []
  | None => []
  end
  = match storedUnder db key with
    | Some r => r :: tail (match key with
                           | Some k => List.filter (byKey k) (reservations db)
                           | None => []
                           end)
    | None => []
    end.
Proof.
  unfold storedUnder. destruct key as [k|]; [|reflexivity].
  destruct (truthy (Some k)); [|reflexivity].
  now destruct (List.filter (byKey k) (reservations db)).
Qed.


(** INSERT succeeds exactly when no stored row clashes with the new one. *)
Lemma insertReservation_fresh row rows :
  (forall r, In r rows -> id r <> id row) ->
  (forall k, idempotencyKey row = Some k ->
             forall r, In r rows -> idempotencyKey r <> Some k) ->
  insertReservation row rows = Some (rows ++ [row]).
Proof.
  intros Hid Hkey. unfold insertReservation.
  replace (existsb (clashes row) rows) with false; [reflexivity|].
  symmetry. apply existsb_false_forall. intros r Hr. unfold clashes.
  apply orb_false_iff. split.
  - apply String.eqb_neq. now apply Hid.
  - destruct (idempotencyKey row) as [k|] eqn:Hk; [|reflexivity].
    unfold byKey. apply bool_decide_eq_false. now apply (Hkey k).
Qed.


(** Where no reservation is stored under the key, the code is the reference
    definition. *)
Lemma reference_agrees_without_stored_key uuid db oid pid qty key :
  (forall r, In r (reservations db) -> id r <> uuid) ->
  (forall k, key = Some k -> forall r, In r (reservations db) ->
                                       idempotencyKey r <> Some k) ->
  reserveStock uuid db oid pid qty key = reserveStock_reference uuid db oid pid qty key.
Proof.
  intros Hid Hkey. unfold reserveStock, reserveStock_reference.
  assert (Hnone : match key with
                  | Some k => List.filter (byKey k) (reservations db)
                  | None => []
                  end = []).
  { destruct key as [k|]; [|reflexivity]. apply filter_nil_forall.
    intros r Hr. unfold byKey. apply bool_decide_eq_false. now apply (Hkey k). }
  replace (match key with
           | Some k => if truthy key then List.filter (byKey k) (reservations db) else []
           | None => []
           end) with (@nil Reservation)
    by (destruct key as [k|]; [destruct (truthy (Some k))|]; congruence).
  replace (match key with
           | Some k => head (List.filter (byKey k) (reservations db))
           | None => None
           end) with (@None Reservation)
    by (destruct key as [k|]; [rewrite Hnone|]; reflexivity).
  destruct (products db !! pid) as [product|] eqn:Hp; [|reflexivity].
  destruct (stock product <? qty); [reflexivity|].
  rewrite insertReservation_fresh; [|assumption|exact Hkey].
  unfold setStock. now rewrite Hp.
Qed.


(** ** Outcomes of reserveStock and releaseStock *)

Lemma reserveStock_outcome uuid db oid pid qty key :
  ReserveOutcome uuid db oid pid qty key (reserveStock uuid db oid pid qty key).
Proof.
  unfold reserveStock. rewrite storedUnder_rows.
  destruct (storedUnder db key) as [existing|] eqn:Hs.
  - now apply reserve_existing.
  - destruct (products db !! pid) as [product|] eqn:Hp.
    + destruct (stock product <? qty) eqn:Hlt.
      * apply Z.ltb_lt in Hlt. now apply reserve_insufficient.
      * apply Z.ltb_ge in Hlt. unfold insertReservation.
        destruct (existsb _ _) eqn:He.
        -- now apply (reserve_clash _ _ _ _ _ _ product).
        -- unfold setStock. rewrite Hp. now apply reserve_done.
    + now apply reserve_no_product.
Qed.

Lemma releaseStock_outcome db oid rid why :
  ReleaseOutcome db oid rid why (releaseStock db oid rid why).
Proof.
  unfold releaseStock.
  destruct (List.filter (byIdAndOrder rid oid) (reservations db))
    as [|reservation rest] eqn:Hf.
  - apply release_missing. now rewrite Hf.
  - assert (Hh : head (List.filter (byIdAndOrder rid oid) (reservations db))
                 = Some reservation) by now rewrite Hf.
    destruct (bool_decide (status reservation = active)) eqn:Ha; simpl.
    + apply bool_decide_eq_true in Ha.
      destruct (products db !! productId reservation) as [product|] eqn:Hp.
      * unfold setStock. rewrite Hp. now apply release_done.
      * now apply (release_no_product _ _ _ _ reservation).
    + apply bool_decide_eq_false in Ha. now apply (release_inactive _ _ _ _ reservation).
Qed.

(** ** C2: reserve idempotence *)

Lemma filter_byKey_app k rows row :
  List.filter (byKey k) (rows ++ [row])
  = List.filter (byKey k) rows ++ (if byKey k row then [row] else []).
Proof. rewrite List.filter_app. reflexivity. Qed.





(** ** C3: active reservations per order *)

Lemma activeFor_markReleased oid rid r :
  activeFor oid (markReleased rid r) = true -> activeFor oid r = true.
Proof.
  unfold markReleased. destruct (String.eqb (id r) rid); [|trivial].
  unfold activeFor. simpl. rewrite andb_true_iff.
  intros [_ H]. discriminate H.
Qed.

Lemma filter_map_length {A} (f : A -> bool) (g : A -> A) (l : list A) :
  (forall x, f (g x) = true -> f x = true) ->
  (length (List.filter f (List.map g l)) <= length (List.filter f l))%nat.
Proof.
  intros H. induction l as [|a l IH]; simpl; [lia|].
  destruct (f (g a)) eqn:E.
  - rewrite (H a E). simpl. lia.
  - destruct (f a); simpl; lia.
Qed.

Lemma activeCount_none db oid :
  findReservationByOrderId db oid = None -> activeCount db oid = 0%nat.
Proof.
  unfold findReservationByOrderId, activeCount.
  destruct (List.filter (activeFor oid) (reservations db)); [reflexivity|discriminate].
Qed.

Lemma activeCount_other oid oid' r :
  orderId r = oid -> oid <> oid' -> activeFor oid' r = false.
Proof.
  intros <- Hne. unfold activeFor. apply andb_false_iff. left.
  now apply String.eqb_neq.
Qed.

(** A reserveStock call adds at most one active row, and only to its own
    order. *)
Lemma reserve_activeCount uuid db oid pid qty key oid' :
  (activeCount (fst (reserveStock uuid db oid pid qty key)) oid'
   <= activeCount db oid' + (if String.eqb oid oid' then 1 else 0))%nat.
Proof.
  destruct (reserveStock_outcome uuid db oid pid qty key); simpl; try lia.
  unfold activeCount. simpl. rewrite List.filter_app, length_app. simpl.
  destruct (String.eqb oid oid') eqn:E.
  - destruct (activeFor oid' _); simpl; lia.
  - apply String.eqb_neq in E.
    rewrite (activeCount_other oid oid'); simpl; [lia|reflexivity|assumption].
Qed.

Lemma release_activeCount db oid rid why oid' :
  (activeCount (fst (releaseStock db oid rid why)) oid' <= activeCount db oid')%nat.
Proof.
  destruct (releaseStock_outcome db oid rid why); simpl; try lia.
  unfold activeCount. simpl. apply filter_map_length.
  intros x. apply activeFor_markReleased.
Qed.

Lemma guarded_step db op :
  guarded db op = true ->
  (forall oid, (activeCount db oid <= 1)%nat) ->
  forall oid, (activeCount (run db op) oid <= 1)%nat.
Proof.
  intros Hg Hinv oid'. destruct op as [uuid oid pid qty key|oid rid why|uuid body]; simpl.
  - simpl in Hg. apply bool_decide_eq_true in Hg.
    pose proof (reserve_activeCount uuid db oid pid qty key oid') as Hle.
    destruct (String.eqb oid oid') eqn:E.
    + apply String.eqb_eq in E. subst oid'.
      rewrite (activeCount_none _ _ Hg) in Hle. lia.
    + specialize (Hinv oid'). lia.
  - pose proof (release_activeCount db oid rid why oid'). specialize (Hinv oid'). lia.
  - unfold handleVerifyOrderMessage.
    destruct (findReservationByOrderId db (verify_orderId body)) as [existing|] eqn:Hf.
    + simpl. apply Hinv.
    + pose proof (reserve_activeCount uuid db (verify_orderId body)
                    (verify_productId body) (verify_quantity body)
                    (Some ("verify-" +:+ verify_idempotencyKey body)) oid') as Hle.
      destruct (reserveStock uuid db (verify_orderId body) (verify_productId body)
                  (verify_quantity body)
                  (Some ("verify-" +:+ verify_idempotencyKey body)))
        as [db' [result|e]]; simpl in *.
      * assert (Hdb : (activeCount db' oid' <= 1)%nat).
        { destruct (String.eqb (verify_orderId body) oid') eqn:E.
          - apply String.eqb_eq in E. subst oid'.
            rewrite (activeCount_none _ _ Hf) in Hle. lia.
          - specialize (Hinv oid'). lia. }
        now destruct (success result).
      * destruct (String.eqb (verify_orderId body) oid') eqn:E.
        -- apply String.eqb_eq in E. subst oid'.
           rewrite (activeCount_none _ _ Hf) in Hle. lia.
        -- specialize (Hinv oid'). lia.
Qed.

(** The lookup of the VerifyOrder handler is sound as far as it goes: in a
    run from an empty reservations table in which every direct reserveStock
    call is made for an order that holds no active reservation at that time,
    no order ever has two active reservations. *)
Lemma guarded_runs_one_active (stocked : gmap string Product) (ops : list Op) :
  allGuarded (mkDb stocked [] []) ops = true ->
  forall oid, (activeCount (runAll (mkDb stocked [] []) ops) oid <= 1)%nat.
Proof.
  assert (Hgen : forall ops db,
             (forall oid, (activeCount db oid <= 1)%nat) ->
             allGuarded db ops = true ->
             forall oid, (activeCount (runAll db ops) oid <= 1)%nat).
  { clear. intros ops. induction ops as [|op rest IH]; intros db Hinv Hg; simpl.
    - exact Hinv.
    - simpl in Hg. apply andb_true_iff in Hg as [Hop Hrest].
      apply IH; [|assumption]. now apply guarded_step. }
  intros Hg. apply Hgen; [|assumption].
  intros oid. unfold activeCount. simpl. lia.
Qed.

(** C3: the code at the failing input. The VerifyOrder handler reserves for
    an order whose ReserveStock call is still on its way (the handler of that
    call sleeps before it reserves); when the call runs, its key k-42 is not
    the handler's verify-k-42 and reserveStock never looks at the order id, so
    the order holds two active reservations: the property does not hold of
    the code. *)
Lemma two_active_reservations :
  let ops :=
    [Verify "r-1" (mkVerifyOrderData "o-1" "SKU-001" 3 "k-42" "2026-01-01T00:00:00Z");
     Reserve "r-2" "o-1" "SKU-001" 3 (Some "k-42")] in
  activeCount (runAll (mkDb (products seed) [] []) ops) "o-1" = 2%nat
  /\ ~ (forall stocked ops oid,
          (activeCount (runAll (mkDb stocked [] []) ops) oid <= 1)%nat).
Proof.
  assert (H : activeCount
                (runAll (mkDb (products seed) [] [])
                   [Verify "r-1" (mkVerifyOrderData "o-1" "SKU-001" 3 "k-42"
                                    "2026-01-01T00:00:00Z");
                    Reserve "r-2" "o-1" "SKU-001" 3 (Some "k-42")]) "o-1" = 2%nat)
    by (vm_compute; reflexivity).
  split; [exact H|].
  intros Hall.
  specialize (Hall (products seed)
                [Verify "r-1" (mkVerifyOrderData "o-1" "SKU-001" 3 "k-42"
                                 "2026-01-01T00:00:00Z");
                 Reserve "r-2" "o-1" "SKU-001" 3 (Some "k-42")] "o-1").
  rewrite H in Hall. lia.
Qed.


(** ** The UNIQUE constraint on idempotency_key is kept by every operation *)

Lemma byKey_markReleased k rid r : byKey k (markReleased rid r) = byKey k r.
Proof. unfold markReleased. now destruct (String.eqb (id r) rid). Qed.

Lemma filter_map_same {A} (f : A -> bool) (g : A -> A) (l : list A) :
  (forall x, f (g x) = f x) ->
  length (List.filter f (List.map g l)) = length (List.filter f l).
Proof.
  intros H. induction l as [|a l IH]; simpl; [reflexivity|].
  rewrite H. destruct (f a); simpl; now rewrite IH.
Qed.

Lemma reserve_keyCount uuid db oid pid qty key k :
  (keyCount db k <= 1)%nat ->
  (keyCount (fst (reserveStock uuid db oid pid qty key)) k <= 1)%nat.
Proof.
  intros Hle.
  destruct (reserveStock_outcome uuid db oid pid qty key)
    as [existing Hs | Hs Hp | product Hs Hp Hlt
       | product Hs Hp Hge Hcl | product Hs Hp Hge Hcl]; simpl; try assumption.
  unfold keyCount in *. simpl. rewrite filter_byKey_app, length_app.
  destruct (byKey k (mkReservation uuid oid pid qty active key)) eqn:Hrow;
    simpl; [|lia].
  unfold byKey in Hrow. apply bool_decide_eq_true in Hrow. simpl in Hrow. subst key.
  replace (List.filter (byKey k) (reservations db)) with (@nil Reservation);
    [simpl; lia|].
  symmetry. apply filter_nil_forall. intros r Hr.
  rewrite existsb_false_forall in Hcl. specialize (Hcl r Hr).
  unfold clashes in Hcl. simpl in Hcl. now apply orb_false_iff in Hcl as [_ Hcl].
Qed.

Lemma keys_unique_run db op :
  (forall k, (keyCount db k <= 1)%nat) ->
  forall k, (keyCount (run db op) k <= 1)%nat.
Proof.
  intros Hinv k. destruct op as [uuid oid pid qty key|oid rid why|uuid body]; simpl.
  - now apply reserve_keyCount.
  - destruct (releaseStock_outcome db oid rid why); simpl; try apply Hinv.
    unfold keyCount. simpl. rewrite filter_map_same; [apply Hinv|].
    intros r. apply byKey_markReleased.
  - unfold handleVerifyOrderMessage.
    destruct (findReservationByOrderId db (verify_orderId body)); [apply Hinv|].
    pose proof (reserve_keyCount uuid db (verify_orderId body) (verify_productId body)
                  (verify_quantity body)
                  (Some ("verify-" +:+ verify_idempotencyKey body)) k (Hinv k)) as Hle.
    destruct (reserveStock uuid db (verify_orderId body) (verify_productId body)
                (verify_quantity body)
                (Some ("verify-" +:+ verify_idempotencyKey body)))
      as [db' [result|e]]; simpl in *; [now destruct (success result)|assumption].
Qed.

(** ** C6: the VerifyOrder handler *)

Lemma findReservation_active db oid r :
  findReservationByOrderId db oid = Some r ->
  In r (reservations db) /\ orderId r = oid /\ status r = active.
Proof.
  unfold findReservationByOrderId. intros H.
  apply head_filter_In in H as [Hin Hact]. unfold activeFor in Hact.
  apply andb_true_iff in Hact as [Ho Hs].
  apply String.eqb_eq in Ho. apply bool_decide_eq_true in Hs. auto.
Qed.

Lemma findReservation_none db oid :
  findReservationByOrderId db oid = None <->
  (forall r, In r (reservations db) -> ~ (orderId r = oid /\ status r = active)).
Proof.
  unfold findReservationByOrderId. rewrite head_filter_None.
  split; intros H r Hr; specialize (H r Hr); unfold activeFor in *.
  - intros [Ho Hs]. rewrite <- Ho, String.eqb_refl in H. simpl in H.
    apply bool_decide_eq_false in H. contradiction.
  - apply andb_false_iff.
    destruct (String.eqb (orderId r) oid) eqn:E; [right|now left].
    apply String.eqb_eq in E. apply bool_decide_eq_false. intros Hs. now apply H.
Qed.

(** C6: the VerifyOrder handler. If the order has an active reservation, the
    handler publishes exactly OrderVerified with status confirmed,
    recoveredFromCrash true and the id of that reservation (the first active
    row of the order), and leaves the database untouched: reserveStock is not
    called. Otherwise its database is the one reserveStock leaves when called
    with the key verify-<original>; when that call succeeds it publishes
    OrderVerified (confirmed, recoveredFromCrash false) and StockReserved, and
    when it fails OrderVerified (not_found, recoveredFromCrash false) with the
    database unchanged. *)
Theorem verify_handler (uuid : string) (db : Db) (body : VerifyOrderData) :
  let oid := verify_orderId body in
  let pid := verify_productId body in
  let qty := verify_quantity body in
  let call := reserveStock uuid db oid pid qty
                (Some ("verify-" +:+ verify_idempotencyKey body)) in
  ((exists r, In r (reservations db) /\ orderId r = oid /\ status r = active) ->
   exists existing,
     In existing (reservations db) /\ orderId existing = oid
     /\ status existing = active
     /\ handleVerifyOrderMessage uuid db body
        = (db, [OrderVerified oid pid qty verified_confirmed true (Some (id existing))],
           Returned tt))
  /\ ((forall r, In r (reservations db) -> ~ (orderId r = oid /\ status r = active)) ->
      forall db' result, call = (db', Returned result) ->
      (success result = true ->
       handleVerifyOrderMessage uuid db body
       = (db',
          [OrderVerified oid pid qty verified_confirmed false (reservationId result);
           StockReserved oid pid qty (remainingStock result) (reservationId result)],
          Returned tt))
      /\ (success result = false ->
          db' = db
          /\ handleVerifyOrderMessage uuid db body
             = (db, [OrderVerified oid pid qty verified_not_found false None],
                Returned tt))).
Proof.
  intros oid pid qty call. split.
  - intros (r & Hin & Ho & Hs).
    destruct (findReservationByOrderId db oid) as [existing|] eqn:Hf.
    + exists existing. destruct (findReservation_active _ _ _ Hf) as (H1 & H2 & H3).
      repeat split; try assumption.
      unfold handleVerifyOrderMessage. fold oid. now rewrite Hf.
    + rewrite findReservation_none in Hf. exfalso. now apply (Hf r Hin).
  - intros Hnone db' result Hcall.
    apply findReservation_none in Hnone.
    unfold handleVerifyOrderMessage. fold oid pid qty. rewrite Hnone.
    fold call. rewrite Hcall. split; intros Hsucc; rewrite Hsucc.
    + reflexivity.
    + assert (db' = db) as ->; [|now split].
      pose proof (reserveStock_outcome uuid db oid pid qty
                    (Some ("verify-" +:+ verify_idempotencyKey body))) as Ho.
      fold call in Ho. rewrite Hcall in Ho.
      inversion Ho; subst; try reflexivity; discriminate.
Qed.

(** ** C10: the StockReleased event of the ReleaseStock handler *)

(** C10: when the ReleaseStock gRPC call succeeds, the handler publishes
    exactly one event, StockReleased, whose productId is the literal unknown
    and whose quantity is 0, whatever product and quantity the released
    reservation has; its orderId and reason are those of the request and its
    newStock is the stock the release wrote. *)
Theorem release_event_placeholders (db db' : Db) (request : ReleaseStockRequest)
    (published : list InventoryEvent) (response : ReleaseStockResponse) :
  grpcReleaseStock db request = (db', published, GrpcOk response) ->
  resp_success response = true ->
  exists reservation product,
    head (List.filter (byIdAndOrder (req_reservationId request) (req_orderId request))
            (reservations db)) = Some reservation
    /\ products db !! productId reservation = Some product
    /\ products db' !! productId reservation
       = Some (mkProduct (stock product + quantity reservation)
                 (lowStockThreshold product))
    /\ published
       = [StockReleased (req_orderId request) "unknown" 0
            (Some (stock product + quantity reservation)) (req_reason request)]
    /\ resp_newStock response = stock product + quantity reservation.
Proof.
  unfold grpcReleaseStock. intros H Hs.
  destruct (releaseStock_outcome db (req_orderId request) (req_reservationId request)
              (req_reason request))
    as [Hm | reservation Hh Hst | reservation Hh Hst Hp | reservation product Hh Hst Hp];
    simpl in H; inversion H; subst; simpl in Hs; try discriminate.
  exists reservation, product. repeat split; try assumption.
  simpl. apply lookup_insert_eq.
Qed.

Lemma release_event_placeholders_witness :
  exists reservation product,
    head (List.filter (byIdAndOrder "r-1" "ord-1") (reservations reservedSeed))
    = Some reservation
    /\ products reservedSeed !! productId reservation = Some product
    /\ products (fst (fst (grpcReleaseStock reservedSeed
                             (mkReleaseStockRequest "ord-1" "r-1"
                                "Order cancelled by user"))))
         !! productId reservation
       = Some (mkProduct (stock product + quantity reservation)
                 (lowStockThreshold product))
    /\ [StockReleased "ord-1" "unknown" 0 (Some 100) "Order cancelled by user"]
       = [StockReleased "ord-1" "unknown" 0
            (Some (stock product + quantity reservation)) "Order cancelled by user"]
    /\ 100 = stock product + quantity reservation.
Proof.
  apply (release_event_placeholders reservedSeed _
           (mkReleaseStockRequest "ord-1" "r-1" "Order cancelled by user")
           [StockReleased "ord-1" "unknown" 0 (Some 100) "Order cancelled by user"]
           (mkReleaseStockResponse true "Stock released successfully" 100)).
  - vm_compute. reflexivity.
  - reflexivity.
Defined.

(** ** releaseStock, case by case *)



Lemma byIdAndOrder_markReleased rid oid rid' r :
  byIdAndOrder rid oid (markReleased rid' r) = byIdAndOrder rid oid r.
Proof. unfold markReleased. now destruct (String.eqb (id r) rid'). Qed.

Lemma released_row db oid rid reservation :
  head (List.filter (byIdAndOrder rid oid) (reservations db)) = Some reservation ->
  head (List.filter (byIdAndOrder rid oid)
          (List.map (markReleased rid) (reservations db)))
  = Some (mkReservation (id reservation) (orderId reservation) (productId reservation)
            (quantity reservation) released (idempotencyKey reservation)).
Proof.
  intros Hh. pose proof (head_filter_In _ _ _ Hh) as [_ Hby].
  induction (reservations db) as [|r rows IH]; [discriminate|].
  simpl in *. rewrite byIdAndOrder_markReleased.
  destruct (byIdAndOrder rid oid r) eqn:E.
  - simpl in *. injection Hh as ->. unfold markReleased.
    unfold byIdAndOrder in Hby. apply andb_true_iff in Hby as [Hid _].
    now rewrite Hid.
  - now apply IH.
Qed.

(** A reserveStock call that answers confirmed has inserted its row. *)
Lemma reserveStock_confirmed uuid db oid pid qty key db1 result :
  reserveStock uuid db oid pid qty key = (db1, Returned result) ->
  result_status result = confirmed ->
  exists product,
    products db !! pid = Some product
    /\ (forall r, In r (reservations db) -> id r <> uuid)
    /\ reservationId result = Some uuid
    /\ db1 = mkDb (<[pid := mkProduct (stock product - qty)
                              (lowStockThreshold product)]> (products db))
                  (reservations db ++ [mkReservation uuid oid pid qty active key])
                  (stock_audit_log db ++
                     [mkAuditRow pid "reserve" (- qty) (stock product)
                        (stock product - qty) oid uuid "order_reservation"]).
Proof.
  destruct (reserveStock_outcome uuid db oid pid qty key)
    as [existing Hs | Hs Hp | product Hs Hp Hlt
       | product Hs Hp Hge Hcl | product Hs Hp Hge Hcl];
    intros H Hconf; inversion H; subst; try discriminate.
  exists product. repeat split; try assumption.
  intros r Hr. rewrite existsb_false_forall in Hcl. specialize (Hcl r Hr).
  unfold clashes in Hcl. simpl in Hcl. apply orb_false_iff in Hcl as [Hcl _].
  now apply String.eqb_neq.
Qed.


End InventoryFacts.

(** * Properties of the order service *)

Module OrderFacts.
Import Orders.

(** ** Rows of the orders table *)

Lemma filter_map_commute {A} (f : A -> bool) (g : A -> A) (l : list A) :
  (forall x, f (g x) = f x) ->
  List.filter f (List.map g l) = List.map g (List.filter f l).
Proof.
  intros H. induction l as [|a l IH]; simpl; [reflexivity|].
  rewrite H. destruct (f a); simpl; now rewrite IH.
Qed.

Lemma head_filter_found {A} (f : A -> bool) (l : list A) (x : A) :
  head (List.filter f l) = Some x -> In x l /\ f x = true.
Proof.
  intros H. destruct (List.filter f l) as [|y ys] eqn:E; [discriminate|].
  injection H as ->.
  assert (Hin : In x (List.filter f l)) by (rewrite E; now left).
  now apply filter_In in Hin.
Qed.

Lemma filter_none {A} (f : A -> bool) (l : list A) :
  List.filter f l = [] <-> (forall x, In x l -> f x = false).
Proof.
  induction l as [|a l IH]; simpl.
  - split; [intros _ x [] | reflexivity].
  - destruct (f a) eqn:Ha; split.
    + discriminate.
    + intros H. specialize (H a (or_introl eq_refl)). congruence.
    + intros H x [<-|Hx]; [assumption | now apply IH].
    + intros H. apply IH. intros x Hx. apply H. now right.
Qed.

Lemma getOrder_id db oid o : getOrder db oid = Some o -> In o (orders db) /\ id o = oid.
Proof.
  intros H. apply head_filter_found in H as [Hin Hid].
  split; [assumption|]. now apply String.eqb_eq.
Qed.

Lemma In_getOrder db o : In o (orders db) -> exists o', getOrder db (id o) = Some o'.
Proof.
  intros Hin. unfold getOrder.
  destruct (List.filter (byId (id o)) (orders db)) as [|o' rest] eqn:E.
  - rewrite filter_none in E. specialize (E o Hin).
    unfold byId in E. now rewrite String.eqb_refl in E.
  - now exists o'.
Qed.

(** ** updateOrderStatus *)

Lemma byId_rewriteRow oid' oid st rid err o :
  byId oid' (rewriteRow oid st rid err o) = byId oid' o.
Proof. unfold rewriteRow. now destruct (byId oid o). Qed.

Lemma byKey_rewriteRow k oid st rid err o :
  byKey k (rewriteRow oid st rid err o) = byKey k o.
Proof. unfold rewriteRow. now destruct (byId oid o). Qed.

Lemma orders_updated db oid st rid err :
  orders (fst (updateOrderStatus db oid st rid err))
  = List.map (rewriteRow oid st rid err) (orders db).
Proof.
  unfold updateOrderStatus.
  destruct (List.filter (byId oid) (orders db)) as [|row rest] eqn:E; simpl.
  - rewrite filter_none in E. symmetry.
    etransitivity; [|apply List.map_id]. apply List.map_ext_in.
    intros o Ho. unfold rewriteRow. now rewrite (E o Ho).
  - reflexivity.
Qed.

Lemma getOrder_updated db oid st rid err oid' :
  getOrder (fst (updateOrderStatus db oid st rid err)) oid'
  = rewriteRow oid st rid err <$> getOrder db oid'.
Proof.
  unfold getOrder. rewrite orders_updated, filter_map_commute.
  - now destruct (List.filter (byId oid') (orders db)).
  - intros o. apply byId_rewriteRow.
Qed.


Lemma status_rewriteRow_same oid st rid err o :
  id o = oid -> status (rewriteRow oid st rid err o) = st.
Proof.
  intros <-. unfold rewriteRow, byId. now rewrite String.eqb_refl.
Qed.


Lemma id_rewriteRow oid st rid err o : id (rewriteRow oid st rid err o) = id o.
Proof. unfold rewriteRow. now destruct (byId oid o). Qed.

(** ** createOrder *)



(** ** What POST /orders does to the orders table *)







Lemma data_after_update db0 order st rid err :
  In order (orders db0) ->
  exists o, getOrder (fst (updateOrderStatus db0 (id order) st rid err)) (id order)
            = Some o
            /\ status o = st /\ id o = id order.
Proof.
  intros Hin. destruct (In_getOrder _ _ Hin) as [o' Ho'].
  exists (rewriteRow (id order) st rid err o').
  rewrite getOrder_updated, Ho'. apply getOrder_id in Ho' as [_ Hid].
  repeat split.
  - now apply status_rewriteRow_same.
  - now rewrite id_rewriteRow.
Qed.

(** ** C9: the status codes of POST /orders *)




(** ** C5: a reservation call that times out or finds no server *)

(** On a bus where every call returns, the routes are the ones above. *)
Lemma postOrdersVia_reliable genKey uuid now reply db req :
  postOrdersVia reliable genKey uuid now reply db req
  = postOrders genKey uuid now reply db req.
Proof.
  unfold postOrdersVia, beginOrder, postOrders.
  destruct (negb (truthy (body_customerId req)) || negb (truthy (body_productId req))
            || missingNumber (body_quantity req)); [reflexivity|].
  destruct (match body_quantity req with Some v => v | None => 0 end <=? 0);
    [reflexivity|].
  destruct (if truthy (orElse (header_idempotencyKey req) (body_idempotencyKey req))
            then _ else None) as [existing|]; [reflexivity|].
  destruct (createOrder uuid db _) as [db0 [order|e]]; [|reflexivity].
  unfold reliable, finishOrder, afterCreate. cbn [pending_order pending_productId
    pending_quantity pending_key].
  destruct (clientReserveStock reply) as [result|errorMessage].
  - now destruct (success result).
  - now destruct (String.eqb errorMessage "TIMEOUT"
                  || String.eqb errorMessage "UNAVAILABLE").
Qed.

Lemma cancelOrderVia_reliable db oid :
  cancelOrderVia reliable db oid = cancelOrder db oid.
Proof.
  unfold cancelOrderVia, cancelOrder.
  destruct (getOrder db oid) as [order|]; [|reflexivity].
  destruct (bool_decide (status order = cancelled)); [reflexivity|].
  now destruct (bool_decide (status order = failed)).
Qed.

(** A handler that answers before the ReserveStock call has made no call. *)
Lemma beginOrder_answered bus genKey uuid db req db0 effects response :
  beginOrder bus genKey uuid db req = (db0, effects, inl response) -> effects = [].
Proof.
  unfold beginOrder.
  destruct (negb (truthy (body_customerId req)) || negb (truthy (body_productId req))
            || missingNumber (body_quantity req)); [now intros [= <- <- <-]|].
  destruct (match body_quantity req with Some v => v | None => 0 end <=? 0);
    [now intros [= <- <- <-]|].
  destruct (if truthy (orElse (header_idempotencyKey req) (body_idempotencyKey req))
            then _ else None) as [existing|]; [now intros [= <- <- <-]|].
  destruct (createOrder uuid db _) as [db1 [order|e]]; [|now intros [= <- <- <-]].
  destruct (bus _); [discriminate|now intros [= <- <- <-]].
Qed.

(** A handler that waits for the ReserveStock call has stored or found the
    order, published OrderCreated and made the call. *)
Lemma beginOrder_waiting bus genKey uuid db req db0 effects p :
  beginOrder bus genKey uuid db req = (db0, effects, inr p) ->
  let customerId := text (body_customerId req) in
  let productId := text (body_productId req) in
  let quantity := match body_quantity req with Some v => v | None => 0 end in
  invalid req = false
  /\ createOrder uuid db
       (mkCreateOrderInput customerId productId quantity
          (Some (requestKey genKey req)))
     = (db0, Returned (pending_order p))
  /\ p = mkPending (pending_order p) customerId productId quantity
           (requestKey genKey req)
  /\ effects
     = [PublishOrderEvent
          (mkOrderEvent OrderCreated (id (pending_order p)) (Some customerId)
             (Some productId) (Some quantity) (Some pending) None None);
        CallReserveStock
          (mkReserveStockRequest (id (pending_order p)) productId quantity
             (requestKey genKey req))].
Proof.
  unfold beginOrder. fold (suppliedKey req).
  destruct (negb (truthy (body_customerId req)) || negb (truthy (body_productId req))
            || missingNumber (body_quantity req)) eqn:Hmiss; [discriminate|].
  destruct (match body_quantity req with Some v => v | None => 0 end <=? 0) eqn:Hq;
    [discriminate|].
  assert (Hvalid : invalid req = false).
  { unfold invalid. rewrite Hmiss. simpl.
    destruct (body_quantity req); [assumption|reflexivity]. }
  fold (requestKey genKey req).
  destruct (if truthy (suppliedKey req) then _ else None) as [existing|];
    [discriminate|].
  destruct (createOrder uuid db _) as [db1 [order|e]]; [|discriminate].
  destruct (bus _); [|discriminate].
  intros [= <- <- <-]. simpl. auto.
Qed.

(** C5, as amended: when the ReserveStock call of a create request ends in
    the gRPC error DEADLINE_EXCEEDED (the 2 s deadline) or UNAVAILABLE, the
    handler puts the order in pending_verification, whatever was handled
    while it was waiting. It then sends VerifyOrder with the order id, the
    product, the quantity, the idempotency key and the request time,
    publishes OrderPendingVerification and answers 202 with success = true
    and no error, provided both sends return. When the send of VerifyOrder
    fails, nothing more is sent; when the publish fails, VerifyOrder has been
    sent; in both cases the answer is 500 with the error of the send and the
    order stays in pending_verification. Here [start] is the database the
    request found and [db] the database when the call ends. *)
Theorem timeout_enters_verification (bus : Bus) (genKey uuid now : string)
    (code : Z) (msg : string) (start db0 db db' : Db) (req : CreateOrderRequest)
    (p : Pending) (o : Order) (made effects : list Effect) (response : Response) :
  beginOrder bus genKey uuid start req = (db0, made, inr p) ->
  getOrder db (id (pending_order p)) = Some o ->
  finishOrder bus now (GrpcError code msg) db p = (db', effects, response) ->
  code = DEADLINE_EXCEEDED \/ code = UNAVAILABLE ->
  let productId := text (body_productId req) in
  let quantity := match body_quantity req with Some v => v | None => 0 end in
  exists order,
    id order = id (pending_order p)
    /\ getOrder db' (id order) = Some order
    /\ status order = pending_verification
    /\ made
       = [PublishOrderEvent
            (mkOrderEvent OrderCreated (id order) (Some (text (body_customerId req)))
               (Some productId) (Some quantity) (Some pending) None None);
          CallReserveStock
            (mkReserveStockRequest (id order) productId quantity
               (requestKey genKey req))]
    /\ let verify :=
         SendVerifyOrderMessage
           (mkVerifyOrderMessage (id order) productId quantity
              (requestKey genKey req) now) in
       let announced :=
         PublishOrderEvent
           (mkOrderEvent OrderPendingVerification (id order) None (Some productId)
              (Some quantity) (Some pending_verification)
              (Some "gRPC timeout - verification required") None) in
       match bus verify, bus announced with
       | Returned _, Returned _ =>
           effects = [verify; announced]
           /\ response = mkResponse 202 true (Some order) false None true
       | Returned _, Thrown e =>
           effects = [verify] /\ response = internalError e
       | Thrown e, _ =>
           effects = [] /\ response = internalError e
       end.
Proof.
  intros Hb Hstored Hfinish Hcode productId quantity. revert Hfinish.
  destruct (beginOrder_waiting _ _ _ _ _ _ _ _ Hb) as (_ & _ & Hp & ->).
  assert (Hin : In o (orders db)) by now apply getOrder_id in Hstored as [Hin _].
  pose proof (getOrder_id _ _ _ Hstored) as [_ Hido].
  destruct (data_after_update db o pending_verification None None Hin)
    as (order & Hget & Hst & Hid).
  rewrite Hido in Hget. rewrite Hido in Hid.
  assert (Hthrown : clientReserveStock (GrpcError code msg) = Thrown "TIMEOUT"
                    \/ clientReserveStock (GrpcError code msg) = Thrown "UNAVAILABLE").
  { destruct Hcode as [-> | ->]; [left|right]; reflexivity. }
  unfold finishOrder. rewrite Hp. cbn [pending_order pending_productId
    pending_quantity pending_key].
  fold productId quantity.
  assert (Hflag : forall e, e = "TIMEOUT" \/ e = "UNAVAILABLE" ->
                            String.eqb e "TIMEOUT" || String.eqb e "UNAVAILABLE" = true).
  { intros e [-> | ->]; reflexivity. }
  destruct (clientReserveStock (GrpcError code msg)) as [result|e];
    [destruct Hthrown; discriminate|].
  rewrite Hflag by (destruct Hthrown as [[= ->]|[= ->]]; auto).
  cbv zeta.
  destruct (bus (SendVerifyOrderMessage _)) as [[]|e1] eqn:Hverify.
  - destruct (bus (PublishOrderEvent _)) as [[]|e2] eqn:Hannounced;
      intros [= <- <- <-]; exists order; rewrite Hid;
      (split; [reflexivity|]); (split; [exact Hget|]); (split; [exact Hst|]);
      (split; [reflexivity|]); rewrite Hverify, Hannounced, ?Hget; now split.
  - intros [= <- <- <-]. exists order. rewrite Hid.
    split; [reflexivity|]. split; [exact Hget|]. split; [exact Hst|].
    split; [reflexivity|]. rewrite Hverify. now split.
Qed.

Lemma timeout_enters_verification_witness :
  exists order,
    getOrder (fst (fst (finishOrder reliable "2026-01-01T00:00:00Z"
                          (GrpcError DEADLINE_EXCEEDED "Deadline exceeded")
                          waitingDb firstPending))) "ord-1"
    = Some order
    /\ status order = pending_verification
    /\ snd (finishOrder reliable "2026-01-01T00:00:00Z"
              (GrpcError DEADLINE_EXCEEDED "Deadline exceeded") waitingDb firstPending)
       = mkResponse 202 true (Some order) false None true.
Proof.
  destruct (timeout_enters_verification reliable "g-1" "ord-1"
              "2026-01-01T00:00:00Z" DEADLINE_EXCEEDED "Deadline exceeded"
              (mkDb [] []) waitingDb waitingDb
              (fst (fst (finishOrder reliable "2026-01-01T00:00:00Z"
                           (GrpcError DEADLINE_EXCEEDED "Deadline exceeded")
                           waitingDb firstPending)))
              firstOrder firstPending
              (mkOrder "ord-1" "C1" "SKU-002" 3 pending (Some "k-42") None false None)
              (snd (fst (beginOrder reliable "g-1" "ord-1" (mkDb [] []) firstOrder)))
              (snd (fst (finishOrder reliable "2026-01-01T00:00:00Z"
                           (GrpcError DEADLINE_EXCEEDED "Deadline exceeded")
                           waitingDb firstPending)))
              (snd (finishOrder reliable "2026-01-01T00:00:00Z"
                      (GrpcError DEADLINE_EXCEEDED "Deadline exceeded")
                      waitingDb firstPending)))
    as (order & Hid & Hget & Hst & _ & Hsent).
  - reflexivity.
  - reflexivity.
  - reflexivity.
  - left. reflexivity.
  - exists order. rewrite Hid in Hget. split; [exact Hget|]. split; [exact Hst|].
    exact (proj2 Hsent).
Defined.

(** C5, the claim as stated fails: when the send to the verify-orders queue
    fails, the order is in pending_verification but no VerifyOrder message
    and no OrderPendingVerification event go out, and the answer is 500, not
    202. *)
Lemma timeout_without_verify_message :
  let outcome :=
    postOrdersVia queueDown "g-1" "ord-1" "2026-01-01T00:00:00Z"
      (GrpcError DEADLINE_EXCEEDED "Deadline exceeded") (mkDb [] []) firstOrder in
  status <$> getOrder (fst (fst outcome)) "ord-1" = Some pending_verification
  /\ snd (fst outcome)
     = [PublishOrderEvent
          (mkOrderEvent OrderCreated "ord-1" (Some "C1") (Some "SKU-002") (Some 3)
             (Some pending) None None);
        CallReserveStock (mkReserveStockRequest "ord-1" "SKU-002" 3 "k-42")]
  /\ snd outcome = internalError "The messaging entity could not be found"
  /\ statusCode (snd outcome) <> 202.
Proof.
  vm_compute. repeat split; discriminate.
Qed.


(** ** C8: idempotent create *)










(** ** C1: terminal statuses *)







Lemma stockReserved_db db event :
  fst (handleStockReserved db event)
  = fst (updateOrderStatus db (msg_orderId event) confirmed
           (msg_reservationId event) None).
Proof.
  unfold handleStockReserved.
  now destruct (updateOrderStatus db (msg_orderId event) confirmed
                  (msg_reservationId event) None) as [db1 [row|]].
Qed.








End OrderFacts.

(** * Cancelling a confirmed order *)

Module SystemFacts.





End SystemFacts.

(** * Further properties of the inventory service *)

Module InventoryRuns.
Import Inventory InventoryFacts.

(** ** One operation *)

Lemma clash_free uuid oid pid qty key rows :
  existsb (clashes (mkReservation uuid oid pid qty active key)) rows = false ->
  (forall r, In r rows -> id r <> uuid)
  /\ (forall k, key = Some k -> forall r, In r rows -> idempotencyKey r <> Some k).
Proof.
  rewrite existsb_false_forall. intros H. split.
  - intros r Hr. specialize (H r Hr). unfold clashes in H. simpl in H.
    apply orb_false_iff in H as [H _]. now apply String.eqb_neq.
  - intros k -> r Hr. specialize (H r Hr). unfold clashes in H. simpl in H.
    apply orb_false_iff in H as [_ H]. unfold byKey in H.
    now apply bool_decide_eq_false in H.
Qed.

Lemma reserve_moves op uuid db oid pid key :
  Moves db op (fst (reserveStock uuid db oid pid (asked op) key)).
Proof.
  destruct (reserveStock_outcome uuid db oid pid (asked op) key)
    as [existing Hs | Hs Hp | product Hs Hp Hlt
       | product Hs Hp Hge Hcl | product Hs Hp Hge Hcl]; simpl;
    try apply moves_nothing.
  destruct (clash_free _ _ _ _ _ _ Hcl) as [Hid Hkey].
  now apply (moves_reserve db op uuid oid pid key product).
Qed.

Lemma run_moves db op : Moves db op (run db op).
Proof.
  destruct op as [uuid oid pid qty key|oid rid why|uuid body]; simpl.
  - apply (reserve_moves (Reserve uuid oid pid qty key)).
  - destruct (releaseStock_outcome db oid rid why)
      as [Hm | reservation Hh Hst | reservation Hh Hst Hp
         | reservation product Hh Hst Hp]; simpl; try apply moves_nothing.
    apply head_filter_In in Hh as [Hin Hby].
    unfold byIdAndOrder in Hby. apply andb_true_iff in Hby as [Hid _].
    apply String.eqb_eq in Hid.
    now apply (moves_release db _ oid rid why reservation product).
  - unfold handleVerifyOrderMessage.
    destruct (findReservationByOrderId db (verify_orderId body));
      [apply moves_nothing|].
    pose proof (reserve_moves (Verify uuid body) uuid db (verify_orderId body)
                  (verify_productId body)
                  (Some ("verify-" +:+ verify_idempotencyKey body))) as Hm.
    simpl asked in Hm.
    destruct (reserveStock uuid db (verify_orderId body) (verify_productId body)
                (verify_quantity body)
                (Some ("verify-" +:+ verify_idempotencyKey body)))
      as [db' [result|e]]; simpl in *; [now destruct (success result)|assumption].
Qed.

(** A property kept by every operation is kept by every run. *)
Lemma runAll_keeps (P : Db -> Prop) :
  (forall db op, P db -> P (run db op)) ->
  forall ops db, P db -> P (runAll db ops).
Proof.
  intros Hstep ops. induction ops as [|op rest IH]; intros db HP; simpl.
  - exact HP.
  - apply IH. now apply Hstep.
Qed.


(** ** The table constraints *)

Lemma map_id_markReleased rid rows :
  List.map id (List.map (markReleased rid) rows) = List.map id rows.
Proof.
  rewrite List.map_map. apply List.map_ext. intros r.
  unfold markReleased. now destruct (String.eqb (id r) rid).
Qed.

Lemma moves_idsUnique db op db' : Moves db op db' -> idsUnique db -> idsUnique db'.
Proof.
  intros [|uuid oid pid key product Hp Hge Hid Hkey
          |oid rid why reservation product Hin Hrid Hst Hp] Hu; unfold idsUnique in *;
    simpl; [assumption| |now rewrite map_id_markReleased].
  rewrite List.map_app. simpl. apply NoDup_app. repeat split.
  - exact Hu.
  - intros x Hx [<-|[]]%list_elem_of_In. apply list_elem_of_In in Hx.
    apply in_map_iff in Hx as (r & Hr & Hin). now apply (Hid r Hin).
  - apply NoDup_singleton.
Qed.

(** X1: the primary key and the UNIQUE idempotency key of the reservations
    table hold after every run of reserveStock, releaseStock and the
    VerifyOrder handler that starts from a table where they hold: no two rows
    share an id, and no two rows share an idempotency key. *)
Theorem constraints_kept (db : Db) (ops : list Op) :
  idsUnique db ->
  (forall k, (keyCount db k <= 1)%nat) ->
  idsUnique (runAll db ops) /\ (forall k, (keyCount (runAll db ops) k <= 1)%nat).
Proof.
  intros Hids Hkeys.
  apply (runAll_keeps (fun d => idsUnique d /\ forall k, (keyCount d k <= 1)%nat));
    [|now split].
  intros d op [Hi Hk]. split.
  - apply (moves_idsUnique d op); [apply run_moves|assumption].
  - now apply keys_unique_run.
Qed.

Lemma constraints_kept_witness :
  idsUnique (runAll seed verifyFirst)
  /\ (forall k, (keyCount (runAll seed verifyFirst) k <= 1)%nat).
Proof.
  apply (constraints_kept seed verifyFirst).
  - apply NoDup_nil_2.
  - intros k. vm_compute. lia.
Defined.

(** ** Conservation of stock *)

Lemma stockOf_insert_same db pid p rows log :
  stockOf (mkDb (<[pid := p]> (products db)) rows log) pid = stock p.
Proof. unfold stockOf. simpl. now rewrite lookup_insert_eq. Qed.

Lemma stockOf_insert_other db pid pid' p rows log :
  pid <> pid' ->
  stockOf (mkDb (<[pid := p]> (products db)) rows log) pid' = stockOf db pid'.
Proof. intros H. unfold stockOf. simpl. now rewrite lookup_insert_ne. Qed.

Lemma total_app l1 l2 : total (l1 ++ l2) = total l1 + total l2.
Proof. induction l1 as [|x l1 IH]; simpl; lia. Qed.

(** Releasing the one row with a given id takes its quantity off what is held
    of its product, and off nothing else. *)
Lemma held_released rid pid rows reservation :
  NoDup (List.map id rows) ->
  In reservation rows -> id reservation = rid -> status reservation = active ->
  total (List.map (heldBy pid) (List.map (markReleased rid) rows))
  = total (List.map (heldBy pid) rows)
    - (if String.eqb (productId reservation) pid then quantity reservation else 0).
Proof.
  intros Hnd Hin Hid Hst. induction rows as [|r rows IH]; [destruct Hin|].
  simpl in Hnd. apply NoDup_cons in Hnd as [Hnotin Hnd]. simpl.
  destruct Hin as [->|Hin].
  - assert (Hrest : List.map (markReleased rid) rows = rows).
    { rewrite <- (List.map_id rows) at 2. apply List.map_ext_in. intros r Hr.
      unfold markReleased. destruct (String.eqb (id r) rid) eqn:E; [|reflexivity].
      apply String.eqb_eq in E. exfalso. apply Hnotin. apply list_elem_of_In.
      apply in_map_iff. exists r. split; [congruence|assumption]. }
    rewrite Hrest. unfold markReleased at 1. rewrite Hid, String.eqb_refl.
    unfold heldBy at 1 3. simpl. rewrite Hst.
    destruct (String.eqb (productId reservation) pid); simpl; lia.
  - rewrite (IH Hnd Hin).
    assert (Hne : id r <> rid).
    { intros E. apply Hnotin. apply list_elem_of_In. apply in_map_iff.
      exists reservation. split; [congruence|assumption]. }
    unfold markReleased at 1. apply String.eqb_neq in Hne. rewrite Hne. lia.
Qed.

Lemma moves_conserves db op db' pid :
  Moves db op db' -> idsUnique db ->
  stockOf db' pid + held db' pid = stockOf db pid + held db pid.
Proof.
  intros [|uuid oid pid0 key product Hp Hge Hid Hkey
          |oid rid why reservation product Hin Hrid Hst Hp] Hu;
    [reflexivity| |].
  - unfold reservedDb, held. simpl reservations.
    rewrite List.map_app, total_app. simpl.
    destruct (String.eqb pid0 pid) eqn:E.
    + apply String.eqb_eq in E. subst pid0. rewrite stockOf_insert_same.
      unfold heldBy at 2. simpl. rewrite String.eqb_refl. simpl.
      unfold stockOf. rewrite Hp. simpl. lia.
    + apply String.eqb_neq in E. rewrite stockOf_insert_other by assumption.
      unfold heldBy at 2. simpl. apply String.eqb_neq in E. rewrite E. simpl. lia.
  - unfold releasedDb, held. simpl reservations.
    rewrite (held_released rid pid _ reservation Hu Hin Hrid Hst).
    destruct (String.eqb (productId reservation) pid) eqn:E.
    + apply String.eqb_eq in E. subst pid. rewrite stockOf_insert_same.
      unfold stockOf. rewrite Hp. simpl. lia.
    + apply String.eqb_neq in E. rewrite stockOf_insert_other by assumption. lia.
Qed.

(** X2: conservation of stock. Through every run of reserveStock, releaseStock
    and the VerifyOrder handler, the stock of a product plus the quantities of
    its active reservations stays what it was, provided reservation ids are
    unique at the start (the primary key). *)
Theorem stock_conserved (db : Db) (ops : list Op) (pid : string) :
  idsUnique db ->
  stockOf (runAll db ops) pid + held (runAll db ops) pid
  = stockOf db pid + held db pid.
Proof.
  intros Hu.
  apply (runAll_keeps
           (fun d => idsUnique d
                     /\ stockOf d pid + held d pid = stockOf db pid + held db pid));
    [|now split].
  intros d op [Hi Heq]. split.
  - apply (moves_idsUnique d op); [apply run_moves|assumption].
  - rewrite <- Heq. apply (moves_conserves d op); [apply run_moves|assumption].
Qed.

Lemma stock_conserved_witness :
  stockOf (runAll seed verifyFirst) "SKU-001"
  + held (runAll seed verifyFirst) "SKU-001"
  = stockOf seed "SKU-001" + held seed "SKU-001".
Proof.
  apply (stock_conserved seed verifyFirst "SKU-001"). apply NoDup_nil_2.
Defined.


(** ** The audit log *)

Lemma moves_audited db op db' pid :
  Moves db op db' ->
  stockOf db' pid - audited db' pid = stockOf db pid - audited db pid.
Proof.
  intros [|uuid oid pid0 key product Hp Hge Hid Hkey
          |oid rid why reservation product Hin Hrid Hst Hp]; [reflexivity| |];
    unfold audited; simpl stock_audit_log; rewrite List.map_app, total_app; simpl;
    unfold changeOf at 2; simpl.
  - destruct (String.eqb pid0 pid) eqn:E.
    + apply String.eqb_eq in E. subst pid0. unfold reservedDb.
      rewrite stockOf_insert_same. unfold stockOf. rewrite Hp. simpl. lia.
    + apply String.eqb_neq in E. unfold reservedDb.
      rewrite stockOf_insert_other by assumption. lia.
  - destruct (String.eqb (productId reservation) pid) eqn:E.
    + apply String.eqb_eq in E. subst pid. unfold releasedDb.
      rewrite stockOf_insert_same. unfold stockOf. rewrite Hp. simpl. lia.
    + apply String.eqb_neq in E. unfold releasedDb.
      rewrite stockOf_insert_other by assumption. lia.
Qed.

(** X3: the audit log accounts for every change of stock. After every run of
    reserveStock, releaseStock and the VerifyOrder handler, the stock of a
    product differs from its stock at the start by the sum of the
    quantity_change of the audit rows written for it during the run. *)
Theorem audit_replays_stock (db : Db) (ops : list Op) (pid : string) :
  stockOf (runAll db ops) pid
  = stockOf db pid + (audited (runAll db ops) pid - audited db pid).
Proof.
  assert (H : stockOf (runAll db ops) pid - audited (runAll db ops) pid
              = stockOf db pid - audited db pid).
  { apply (runAll_keeps
             (fun d => stockOf d pid - audited d pid = stockOf db pid - audited db pid));
      [|reflexivity].
    intros d op Heq. rewrite <- Heq. apply (moves_audited d op), run_moves. }
  lia.
Qed.

Lemma moves_log db op db' :
  Moves db op db' ->
  exists written,
    stock_audit_log db' = stock_audit_log db ++ written
    /\ Forall (fun row => new_stock row = previous_stock row + quantity_change row)
         written.
Proof.
  intros [|uuid oid pid0 key product Hp Hge Hid Hkey
          |oid rid why reservation product Hin Hrid Hst Hp].
  - exists []. split; [now rewrite List.app_nil_r|constructor].
  - eexists. split; [reflexivity|]. repeat constructor.
  - eexists. split; [reflexivity|]. repeat constructor.
Qed.

(** X4: the audit log is append-only and its rows add up. After every run the
    log is the log at the start followed by the rows written during the run,
    and each of those rows has new_stock = previous_stock + quantity_change. *)
Theorem audit_log_append_only (db : Db) (ops : list Op) :
  exists written,
    stock_audit_log (runAll db ops) = stock_audit_log db ++ written
    /\ Forall (fun row => new_stock row = previous_stock row + quantity_change row)
         written.
Proof.
  apply (runAll_keeps
           (fun d => exists written,
                stock_audit_log d = stock_audit_log db ++ written
                /\ Forall (fun row => new_stock row
                                      = previous_stock row + quantity_change row)
                     written)).
  - intros d op (w1 & Hw1 & Hf1).
    destruct (moves_log d op (run d op) (run_moves d op)) as (w2 & Hw2 & Hf2).
    exists (w1 ++ w2). split.
    + now rewrite Hw2, Hw1, List.app_assoc.
    + apply Forall_app. now split.
  - exists []. split; [now rewrite List.app_nil_r|constructor].
Qed.

(** ** Reservation rows *)

Lemma fixedColumns_markReleased rid r :
  fixedColumns (markReleased rid r) = fixedColumns r.
Proof. unfold markReleased. now destruct (String.eqb (id r) rid). Qed.

Lemma same_id_same_row rows r r' :
  NoDup (List.map id rows) -> In r rows -> In r' rows -> id r = id r' -> r = r'.
Proof.
  induction rows as [|x rows IH]; [intros _ []|].
  simpl. intros Hnd. apply NoDup_cons in Hnd as [Hnotin Hnd].
  intros [->|Hr] [->|Hr'] Hid; [reflexivity| | |now apply IH].
  - exfalso. apply Hnotin. apply list_elem_of_In, in_map_iff. eauto.
  - exfalso. apply Hnotin. apply list_elem_of_In, in_map_iff. eauto.
Qed.

Lemma statusMoves_trans a b c : statusMoves a b -> statusMoves b c -> statusMoves a c.
Proof.
  unfold statusMoves. intros [->|[-> ->]] [->|[H ->]]; auto; discriminate.
Qed.

Lemma rows_unchanged rows :
  Forall2 (fun old new => fixedColumns new = fixedColumns old
                          /\ statusMoves (status old) (status new)) rows rows.
Proof.
  induction rows; constructor; [|assumption]. split; [reflexivity|now left].
Qed.

Lemma continues_refl rows : continues rows rows.
Proof.
  exists rows, []. split; [now rewrite List.app_nil_r|apply rows_unchanged].
Qed.

Lemma continues_trans a b c : continues a b -> continues b c -> continues a c.
Proof.
  intros (k1 & a1 & -> & H1) (k2 & a2 & -> & H2).
  apply Forall2_app_inv_l in H2 as (k2a & k2b & Hka & Hkb & ->).
  exists k2a, (k2b ++ a2). split; [now rewrite List.app_assoc|].
  clear Hkb. revert k2a Hka. induction H1 as [|x y l l' [Hf Hs] _ IH];
    intros k2a Hka.
  - inversion Hka. constructor.
  - inversion Hka as [|y' z l1 l2 [Hf' Hs'] Hrest]; subst. constructor.
    + split; [congruence|]. now apply (statusMoves_trans _ (status y)).
    + now apply IH.
Qed.

Lemma Forall2_map_each {A} (P : A -> A -> Prop) (f : A -> A) (l : list A) :
  (forall x, In x l -> P x (f x)) -> Forall2 P l (List.map f l).
Proof.
  induction l as [|a l IH]; intros H; simpl; constructor.
  - apply H. now left.
  - apply IH. intros x Hx. apply H. now right.
Qed.

Lemma moves_rows db op db' :
  Moves db op db' -> idsUnique db ->
  continues (reservations db) (reservations db').
Proof.
  intros [|uuid oid pid0 key product Hp Hge Hid Hkey
          |oid rid why reservation product Hin Hrid Hst Hp] Hu.
  - apply continues_refl.
  - exists (reservations db), [mkReservation uuid oid pid0 (asked op) active key].
    split; [reflexivity|apply rows_unchanged].
  - exists (List.map (markReleased rid) (reservations db)), [].
    split; [simpl; now rewrite List.app_nil_r|].
    apply (Forall2_map_each
             (fun old new => fixedColumns new = fixedColumns old
                             /\ statusMoves (status old) (status new))).
    intros r Hr. split; [apply fixedColumns_markReleased|].
    unfold markReleased. destruct (String.eqb (id r) rid) eqn:E; [|now left].
    apply String.eqb_eq in E. right. simpl. split; [|reflexivity].
    rewrite (same_id_same_row _ r reservation Hu Hr Hin); congruence.
Qed.

(** X5: reservation rows are never deleted or rewritten. After every run that
    starts from a table with unique reservation ids, each row of the start is
    still in its place with the same id, order, product, quantity and
    idempotency key, and its status is the one it had or has gone from active
    to released; no row becomes committed and no released row becomes active
    again. *)
Theorem reservations_continue (db : Db) (ops : list Op) :
  idsUnique db ->
  continues (reservations db) (reservations (runAll db ops)).
Proof.
  intros Hu.
  apply (runAll_keeps
           (fun d => idsUnique d /\ continues (reservations db) (reservations d)));
    [|split; [assumption|apply continues_refl]].
  intros d op [Hi Hc]. split.
  - apply (moves_idsUnique d op); [apply run_moves|assumption].
  - apply (continues_trans _ (reservations d)); [assumption|].
    apply (moves_rows d op); [apply run_moves|assumption].
Qed.

Lemma reservations_continue_witness :
  continues (reservations reservedSeed)
    (reservations (runAll reservedSeed
                     [Release "ord-1" "r-1" "Order cancelled by user";
                      Reserve "r-2" "ord-2" "SKU-003" 5 None])).
Proof.
  apply (reservations_continue reservedSeed).
  unfold idsUnique. vm_compute. apply NoDup_singleton.
Defined.

(** ** Stock is never negative *)

Lemma moves_nonNegative db op db' :
  Moves db op db' -> 0 <= asked op -> nonNegative db -> nonNegative db'.
Proof.
  intros [|uuid oid pid0 key product Hp Hge Hid Hkey
          |oid rid why reservation product Hin Hrid Hst Hp] Hq [Hs Hr];
    [now split| |]; split; simpl.
  - intros pid p. destruct (decide (pid0 = pid)) as [->|Hne].
    + rewrite lookup_insert_eq. intros [= <-]. simpl. lia.
    + rewrite lookup_insert_ne by assumption. apply Hs.
  - intros r [Hin|[<-|[]]]%in_app_or; [now apply Hr|assumption].
  - intros pid p. destruct (decide (productId reservation = pid)) as [<-|Hne].
    + rewrite lookup_insert_eq. intros [= <-]. simpl.
      specialize (Hs _ _ Hp). specialize (Hr _ Hin). lia.
    + rewrite lookup_insert_ne by assumption. apply Hs.
  - intros r (r0 & <- & Hr0)%in_map_iff. specialize (Hr r0 Hr0).
    unfold markReleased. now destruct (String.eqb (id r0) rid).
Qed.

(** X6: stock never goes below zero. If no stock and no reserved quantity is
    negative at the start and no operation of the run asks for a negative
    quantity, no stock and no reserved quantity is negative after the run. *)
Theorem stock_never_negative (db : Db) (ops : list Op) :
  nonNegative db -> askedNonNegative ops -> nonNegative (runAll db ops).
Proof.
  revert db. induction ops as [|op rest IH]; intros db Hn Ha; simpl; [assumption|].
  apply Forall_cons in Ha as [Hop Hrest].
  apply IH; [|assumption].
  apply (moves_nonNegative db op); [apply run_moves|assumption|assumption].
Qed.

Lemma stock_never_negative_witness : nonNegative (runAll seed verifyFirst).
Proof.
  apply (stock_never_negative seed verifyFirst).
  - split.
    + intros pid p H. unfold seed in H. simpl in H.
      repeat (apply lookup_insert_Some in H as [[_ <-]|[_ H]]; [simpl; lia|]).
      rewrite lookup_empty in H. discriminate H.
    + intros r [].
  - unfold askedNonNegative, verifyFirst. repeat constructor; simpl; lia.
Defined.


(** ** Doing it twice *)

(** X7: a reservation is released once. After a releaseStock call that
    succeeded, a second call for the same order and reservation returns
    success = false with the message Reservation already released and changes
    nothing: the stock is not added back twice. *)
Theorem release_twice (db db1 : Db) (oid rid why again : string)
    (result : ReleaseResult) :
  releaseStock db oid rid why = (db1, Returned result) ->
  release_success result = true ->
  releaseStock db1 oid rid again
  = (db1, Returned (mkReleaseResult false "Reservation already released" None)).
Proof.
  destruct (releaseStock_outcome db oid rid why)
    as [Hm | reservation Hh Hst | reservation Hh Hst Hp
       | reservation product Hh Hst Hp];
    intros H Hs; inversion H; subst; try discriminate.
  pose proof (released_row db oid rid reservation Hh) as Hrow.
  destruct (releaseStock_outcome
              (mkDb (<[productId reservation :=
                         mkProduct (stock product + quantity reservation)
                           (lowStockThreshold product)]> (products db))
                    (List.map (markReleased rid) (reservations db))
                    (stock_audit_log db ++
                       [mkAuditRow (productId reservation) "release"
                          (quantity reservation) (stock product)
                          (stock product + quantity reservation) oid rid why]))
              oid rid again)
    as [Hm' | r' Hh' Hst' | r' Hh' Hst' Hp' | r' p' Hh' Hst' Hp'];
    simpl in Hm' || simpl in Hh'; try congruence.
  - rewrite Hrow in Hh'. injection Hh' as <-. reflexivity.
  - rewrite Hrow in Hh'. injection Hh' as <-. discriminate Hst'.
  - rewrite Hrow in Hh'. injection Hh' as <-. discriminate Hst'.
Qed.

Lemma release_twice_witness :
  releaseStock (fst (releaseStock reservedSeed "ord-1" "r-1" "Order cancelled by user"))
    "ord-1" "r-1" "retry"
  = (fst (releaseStock reservedSeed "ord-1" "r-1" "Order cancelled by user"),
     Returned (mkReleaseResult false "Reservation already released" None)).
Proof.
  apply (release_twice reservedSeed _ "ord-1" "r-1" "Order cancelled by user" "retry"
           (mkReleaseResult true "Stock released successfully" (Some 100))).
  - vm_compute. reflexivity.
  - reflexivity.
Defined.

Lemma findReservation_appended db oid row rows' log :
  findReservationByOrderId db oid = None ->
  orderId row = oid -> status row = active ->
  findReservationByOrderId (mkDb rows' (reservations db ++ [row]) log) oid = Some row.
Proof.
  intros Hnone Ho Hs. unfold findReservationByOrderId in *. simpl.
  rewrite List.filter_app.
  destruct (List.filter (activeFor oid) (reservations db)); [|discriminate].
  simpl. unfold activeFor. rewrite Ho, String.eqb_refl, Hs. reflexivity.
Qed.

(** The outcome of reserveStock does not depend on the generated id unless a
    row is inserted. *)
Lemma reserve_unchanged_again uuid uuid' db oid pid qty key out :
  reserveStock uuid db oid pid qty key = (db, Returned out) ->
  result_status out <> confirmed ->
  reserveStock uuid' db oid pid qty key = (db, Returned out).
Proof.
  intros H Hst.
  destruct (reserveStock_outcome uuid db oid pid qty key)
    as [existing Hs | Hs Hp | product Hs Hp Hlt
       | product Hs Hp Hge Hcl | product Hs Hp Hge Hcl];
    inversion H; subst; simpl in Hst; try congruence;
    destruct (reserveStock_outcome uuid' db oid pid qty key)
      as [existing' Hs' | Hs' Hp' | product' Hs' Hp' Hlt'
         | product' Hs' Hp' Hge' Hcl' | product' Hs' Hp' Hge' Hcl'];
    try congruence;
    try (rewrite Hp in Hp'; injection Hp' as <-; (reflexivity || lia)).
Qed.

(** X8: redelivery of a VerifyOrder message. When the handler has settled a
    message, handling the same message again (whatever id is generated)
    settles it too, leaves the database as the first handling left it, and
    publishes OrderVerified with the same status and the same reservation id:
    no second reservation is made and no stock is deducted twice. *)
Theorem verify_twice (uuid uuid' : string) (db db1 : Db) (body : VerifyOrderData)
    (published : list InventoryEvent) :
  handleVerifyOrderMessage uuid db body = (db1, published, Returned tt) ->
  exists again,
    handleVerifyOrderMessage uuid' db1 body = (db1, again, Returned tt)
    /\ verdict again = verdict published
    /\ is_Some (verdict published).
Proof.
  unfold handleVerifyOrderMessage.
  destruct (findReservationByOrderId db (verify_orderId body)) as [existing|] eqn:Hf.
  - intros H. injection H as <- <-. rewrite Hf. eexists. repeat split; eauto.
  - pose proof (reserveStock_outcome uuid db (verify_orderId body)
                  (verify_productId body) (verify_quantity body)
                  (Some ("verify-" +:+ verify_idempotencyKey body))) as Ho.
    destruct (reserveStock uuid db (verify_orderId body) (verify_productId body)
                (verify_quantity body)
                (Some ("verify-" +:+ verify_idempotencyKey body)))
      as [db' [result|e]] eqn:Hcall; [|discriminate].
    destruct (decide (result_status result = confirmed)) as [Hconf|Hother].
    + destruct (reserveStock_confirmed _ _ _ _ _ _ _ _ Hcall Hconf)
        as (product & Hp & Hfresh & Hrid & ->).
      assert (Hsucc : success result = true).
      { inversion Ho; subst; simpl in Hconf; try discriminate; reflexivity. }
      rewrite Hsucc. intros H. injection H as <- <-.
      rewrite (findReservation_appended db (verify_orderId body)); try reflexivity;
        [|assumption].
      eexists. repeat split; simpl; [now rewrite Hrid|eauto].
    + assert (db' = db) as ->.
      { inversion Ho; subst; try reflexivity. simpl in Hother. congruence. }
      intros H. assert (db1 = db) as ->
        by (destruct (success result); now injection H).
      rewrite Hf, (reserve_unchanged_again uuid uuid' _ _ _ _ _ _ Hcall Hother).
      exists published. split; [exact H|]. split; [reflexivity|].
      destruct (success result); injection H as <-; simpl; eauto.
Qed.

Lemma verify_twice_witness :
  exists again,
    handleVerifyOrderMessage "r-2"
      (fst (fst (handleVerifyOrderMessage "r-1" seed
                   (mkVerifyOrderData "o-1" "SKU-001" 3 "k-42" "2026-01-01T00:00:00Z"))))
      (mkVerifyOrderData "o-1" "SKU-001" 3 "k-42" "2026-01-01T00:00:00Z")
    = (fst (fst (handleVerifyOrderMessage "r-1" seed
                   (mkVerifyOrderData "o-1" "SKU-001" 3 "k-42"
                      "2026-01-01T00:00:00Z"))),
       again, Returned tt)
    /\ verdict again = Some (verified_confirmed, Some "r-1")
    /\ is_Some (Some (verified_confirmed, Some "r-1")).
Proof.
  apply (verify_twice "r-1" "r-2" seed _
           (mkVerifyOrderData "o-1" "SKU-001" 3 "k-42" "2026-01-01T00:00:00Z")
           [OrderVerified "o-1" "SKU-001" 3 verified_confirmed false (Some "r-1");
            StockReserved "o-1" "SKU-001" 3 (Some 47) (Some "r-1")]).
  vm_compute. reflexivity.
Defined.


(** ** The ReserveStock gRPC handler *)

(** X9: what the ReserveStock handler publishes. Without a simulated crash,
    either the database is unchanged and nothing is published, or stock was
    deducted for a new reservation and the handler publishes StockReserved
    with the remaining stock and the new reservation id, followed by
    LowStockAlert exactly when the remaining stock is at or below the
    threshold of the product; the reply then carries the same id and stock. *)
Theorem reserve_handler_publishes (uuid : string) (db : Db)
    (request : ReserveStockRequest) :
  let oid := reserve_orderId request in
  let pid := reserve_productId request in
  let qty := reserve_quantity request in
  let outcome := grpcReserveStock false uuid db request in
  (fst (fst outcome) = db /\ snd (fst outcome) = [])
  \/ exists product,
       products db !! pid = Some product
       /\ qty <= stock product
       /\ fst (fst outcome) = reservedDb db uuid oid pid qty (keyOf request) product
       /\ snd (fst outcome)
          = StockReserved oid pid qty (Some (stock product - qty)) (Some uuid)
            :: (if stock product - qty <=? lowStockThreshold product
                then [LowStockAlert pid (stock product - qty)
                        (lowStockThreshold product)]
                else [])
       /\ snd outcome
          = GrpcOk (mkReserveStockResponse true "Stock reserved successfully" uuid
                      (stock product - qty) 1).
Proof.
  intros oid pid qty outcome. subst outcome. unfold grpcReserveStock.
  fold oid pid qty. fold (keyOf request).
  destruct (reserveStock_outcome uuid db oid pid qty (keyOf request))
    as [existing Hs | Hs Hp | product Hs Hp Hlt
       | product Hs Hp Hge Hcl | product Hs Hp Hge Hcl]; simpl;
    try (left; split; reflexivity).
  right. exists product. unfold getProduct. simpl. rewrite lookup_insert_eq. simpl.
  repeat split; assumption || reflexivity.
Qed.

(** X10: a simulated crash after commit. When shouldSimulateCrash() answers
    yes, the handler writes to the database exactly what it writes otherwise,
    but publishes nothing and never replies success: a successful reservation
    is answered with the gRPC error INTERNAL (not with a timeout), so the
    stock is deducted while the caller is told of a failure. *)
Theorem crash_after_commit (uuid : string) (db : Db) (request : ReserveStockRequest) :
  let crashed := grpcReserveStock true uuid db request in
  let normal := grpcReserveStock false uuid db request in
  fst (fst crashed) = fst (fst normal)
  /\ snd (fst crashed) = []
  /\ (forall response, snd normal = GrpcOk response ->
        reserve_success response = true ->
        snd crashed
        = GrpcError INTERNAL "SCHRODINGER_CRASH: Service crashed after DB commit")
  /\ (forall response, snd crashed = GrpcOk response ->
        reserve_success response = false /\ fst (fst crashed) = db).
Proof.
  intros crashed normal. subst crashed normal. unfold grpcReserveStock.
  destruct (reserveStock_outcome uuid db (reserve_orderId request)
              (reserve_productId request) (reserve_quantity request)
              (if truthy (Some (reserve_idempotencyKey request))
               then Some (reserve_idempotencyKey request) else None))
    as [existing Hs | Hs Hp | product Hs Hp Hlt
       | product Hs Hp Hge Hcl | product Hs Hp Hge Hcl]; simpl;
    (split; [reflexivity|]); (split; [reflexivity|]);
    (split; intros response H; [intros Hs'|]);
    try discriminate H; try (injection H as <-; simpl in *; auto; discriminate).
Qed.




(** X12: the ReserveStock handler does not check the sign of the quantity. A
    request for a negative quantity of a product in stock, under a key that is
    not stored and with an unused generated id, is answered with success and
    raises the stock of the product by the absolute value of the quantity, as
    long as the values written fit their columns (in particular the new stock
    is within INT). *)
Theorem negative_quantity_adds_stock (uuid : string) (db : Db)
    (request : ReserveStockRequest) (product : Product) :
  products db !! reserve_productId request = Some product ->
  reserve_quantity request < 0 ->
  0 <= stock product ->
  (forall r, In r (reservations db) ->
             id r <> uuid /\ idempotencyKey r <> keyOf request) ->
  storable uuid (reserve_orderId request) (reserve_productId request)
    (reserve_quantity request) (keyOf request) product = true ->
  grpcReserveStock false uuid db request
  = (reservedDb db uuid (reserve_orderId request) (reserve_productId request)
       (reserve_quantity request) (keyOf request) product,
     StockReserved (reserve_orderId request) (reserve_productId request)
       (reserve_quantity request)
       (Some (stock product - reserve_quantity request)) (Some uuid)
     :: (if stock product - reserve_quantity request <=? lowStockThreshold product
         then [LowStockAlert (reserve_productId request)
                 (stock product - reserve_quantity request)
                 (lowStockThreshold product)]
         else []),
     GrpcOk (mkReserveStockResponse true "Stock reserved successfully" uuid
               (stock product - reserve_quantity request) 1))
  /\ stock product < stock product - reserve_quantity request.
Proof.
  intros Hp Hneg Hstock Hfresh _. split; [|lia].
  unfold grpcReserveStock. fold (keyOf request).
  destruct (reserveStock_outcome uuid db (reserve_orderId request)
              (reserve_productId request) (reserve_quantity request) (keyOf request))
    as [existing Hs | Hs Hp' | product' Hs Hp' Hlt
       | product' Hs Hp' Hge Hcl | product' Hs Hp' Hge Hcl].
  - exfalso. unfold storedUnder in Hs. destruct (keyOf request) as [k|] eqn:Hk;
      [|discriminate].
    destruct (truthy (Some k)); [|discriminate].
    apply head_filter_In in Hs as [Hin Hby]. unfold byKey in Hby.
    apply bool_decide_eq_true in Hby. now destruct (Hfresh existing Hin).
  - congruence.
  - rewrite Hp in Hp'. injection Hp' as <-. lia.
  - exfalso. apply not_false_iff_true in Hcl. apply Hcl.
    apply existsb_false_forall. intros r Hr. destruct (Hfresh r Hr) as [Hid Hkey].
    unfold clashes. simpl. apply orb_false_iff. split; [now apply String.eqb_neq|].
    destruct (keyOf request) as [k|]; [|reflexivity].
    unfold byKey. now apply bool_decide_eq_false.
  - rewrite Hp in Hp'. injection Hp' as <-. simpl.
    unfold getProduct. simpl. rewrite lookup_insert_eq. reflexivity.
Qed.

Lemma negative_quantity_adds_stock_witness :
  snd (grpcReserveStock false "r-1" seed
         (mkReserveStockRequest "ord-1" "SKU-002" (-5) ""))
  = GrpcOk (mkReserveStockResponse true "Stock reserved successfully" "r-1" 205 1)
  /\ 200 < 205.
Proof.
  destruct (negative_quantity_adds_stock "r-1" seed
              (mkReserveStockRequest "ord-1" "SKU-002" (-5) "") (mkProduct 200 20))
    as [Heq Hlt].
  - reflexivity.
  - simpl. lia.
  - simpl. lia.
  - intros r [].
  - reflexivity.
  - split; [now rewrite Heq|exact Hlt].
Defined.

(** A reservation that meets no obstacle is written. *)
Lemma reserve_succeeds uuid db oid pid qty k product :
  k <> "" ->
  products db !! pid = Some product ->
  qty <= stock product ->
  (forall r, In r (reservations db) -> id r <> uuid /\ idempotencyKey r <> Some k) ->
  reserveStock uuid db oid pid qty (Some k)
  = (reservedDb db uuid oid pid qty (Some k) product,
     Returned (mkReserveResult true "Stock reserved successfully" (Some uuid)
                 (Some (stock product - qty)) confirmed)).
Proof.
  intros Hk Hp Hge Hfresh.
  destruct (reserveStock_outcome uuid db oid pid qty (Some k))
    as [existing Hs | Hs Hp' | product' Hs Hp' Hlt
       | product' Hs Hp' Hge' Hcl | product' Hs Hp' Hge' Hcl].
  - exfalso. unfold storedUnder in Hs. destruct (truthy (Some k)); [|discriminate].
    apply head_filter_In in Hs as [Hin Hby]. unfold byKey in Hby.
    apply bool_decide_eq_true in Hby. now destruct (Hfresh existing Hin).
  - congruence.
  - rewrite Hp in Hp'. injection Hp' as <-. lia.
  - exfalso. apply not_false_iff_true in Hcl. apply Hcl.
    apply existsb_false_forall. intros r Hr. destruct (Hfresh r Hr) as [Hid Hkey].
    unfold clashes. simpl. apply orb_false_iff. split; [now apply String.eqb_neq|].
    unfold byKey. now apply bool_decide_eq_false.
  - rewrite Hp in Hp'. now injection Hp' as <-.
Qed.

End InventoryRuns.

(** * Further properties of the order service *)

Module OrderRuns.
Import Orders OrderFacts.

(** ** What a step writes *)

Lemma writes_one db db1 : Write db db1 -> Writes db db1.
Proof. intros H. apply (writes_more db db1); [assumption|apply writes_none]. Qed.

Lemma writes_trans db db1 db2 : Writes db db1 -> Writes db1 db2 -> Writes db db2.
Proof.
  induction 1 as [|a b c Hw _ IH]; [trivial|].
  intros H. apply (writes_more a b); [assumption|now apply IH].
Qed.

Lemma createOrder_writes uuid db input :
  Writes db (fst (createOrder uuid db input)).
Proof.
  unfold createOrder.
  destruct (match input_idempotencyKey input with
            | Some k => if truthy (input_idempotencyKey input)
                        then List.filter (byKey k) (orders db) else []
            | None => []
            end) as [|row rest]; [|apply writes_none].
  unfold insertOrder. simpl quantity.
  destruct (0 <? input_quantity input) eqn:Hq; simpl; [|apply writes_none].
  destruct (existsb _ _) eqn:Hex; simpl; [apply writes_none|].
  apply writes_one.
  apply (write_insert db
           (mkOrder uuid (input_customerId input) (input_productId input)
              (input_quantity input) pending (input_idempotencyKey input)
              None false None)); simpl; try reflexivity.
  - now apply Z.ltb_lt.
  - intros o Ho Hid. apply not_true_iff_false in Hex. apply Hex.
    apply existsb_exists. exists o. split; [assumption|].
    unfold clashes. simpl. now rewrite Hid, String.eqb_refl.
  - intros k Hk o Ho Hkey. apply not_true_iff_false in Hex. apply Hex.
    apply existsb_exists. exists o. split; [assumption|].
    unfold clashes. simpl. rewrite Hk. unfold byKey.
    rewrite bool_decide_eq_true_2 by assumption. apply orb_true_r.
Qed.

Lemma afterCreate_writes now reply db0 order customerId productId quantity key :
  Writes db0 (fst (fst (afterCreate now reply db0 order customerId productId
                          quantity key))).
Proof.
  unfold afterCreate. destruct (clientReserveStock reply) as [result|e].
  - destruct (success result); simpl; apply writes_one, write_update.
  - destruct (String.eqb e "TIMEOUT" || String.eqb e "UNAVAILABLE"); simpl;
      [apply writes_one, write_update|apply writes_none].
Qed.

Lemma step_writes db s : Writes db (step db s).
Proof.
  destruct s as [genKey uuid now reply req|target|event]; simpl.
  - unfold postOrders.
    destruct (negb (truthy (body_customerId req)) || negb (truthy (body_productId req))
              || missingNumber (body_quantity req)); [apply writes_none|].
    destruct (_ <=? 0); [apply writes_none|].
    destruct (if truthy _ then _ else None); [apply writes_none|].
    match goal with
    | |- context [createOrder ?u ?d ?i] =>
        pose proof (createOrder_writes u d i) as Hc;
        destruct (createOrder u d i) as [db0 [order|e]]
    end; simpl in *; [|assumption].
    apply (writes_trans _ db0); [assumption|apply afterCreate_writes].
  - unfold cancelOrder. destruct (getOrder db target) as [order|]; [|apply writes_none].
    destruct (bool_decide (status order = cancelled)); [apply writes_none|].
    destruct (bool_decide (status order = failed)); [apply writes_none|].
    simpl. apply writes_one, write_update.
  - unfold processMessage.
    destruct (String.eqb (msg_eventType event) "StockReserved").
    { rewrite stockReserved_db. apply writes_one, write_update. }
    destruct (String.eqb (msg_eventType event) "StockReleased"); [apply writes_none|].
    destruct (String.eqb (msg_eventType event) "OrderVerified"
              || String.eqb (msg_eventType event) "VerificationComplete");
      [|apply writes_none].
    unfold handleVerificationComplete.
    destruct (getOrder db (msg_orderId event)) as [order|]; [|apply writes_none].
    destruct (negb (bool_decide (status order = pending_verification)));
      [apply writes_none|].
    destruct (match msg_verified event with
              | Some v => v
              | None => bool_decide (msg_status event = Some "confirmed")
              end); simpl; apply writes_one, write_update.
Qed.

(** A property kept by every write is kept by every run. *)
Lemma runSteps_keeps (P : Db -> Prop) :
  (forall db db1, Write db db1 -> P db -> P db1) ->
  forall steps db, P db -> P (runSteps db steps).
Proof.
  intros Hw.
  assert (Hws : forall a b, Writes a b -> P a -> P b).
  { induction 1 as [|a b c H1 _ IH]; [trivial|]. intros Ha. apply IH.
    now apply (Hw a b). }
  intros steps. induction steps as [|s rest IH]; intros db HP; simpl; [assumption|].
  apply IH. apply (Hws db); [apply step_writes|assumption].
Qed.


(** ** Invariants of the orders table *)

Lemma In_updated db oid st rid err o' :
  In o' (orders (fst (updateOrderStatus db oid st rid err))) ->
  exists o, In o (orders db) /\ o' = rewriteRow oid st rid err o.
Proof.
  rewrite orders_updated. intros H. apply in_map_iff in H as (o & <- & Ho). eauto.
Qed.

Lemma write_completedOk db db1 : Write db db1 -> completedOk db -> completedOk db1.
Proof.
  intros [row Hst Hc Hq Hid Hkey|oid st rid err] Hok o' Hin Hterm.
  - simpl in Hin. apply in_app_or in Hin as [Hin|[<-|[]]]; [now apply Hok|].
    rewrite Hst in Hterm. discriminate.
  - apply In_updated in Hin as (o & Ho & ->). unfold rewriteRow in *.
    destruct (byId oid o); [|now apply Hok]. simpl in *. now rewrite Hterm.
Qed.

(** X13: completed_at is set on every finished order. If every order whose
    status is confirmed, failed or cancelled has completed_at set, this is
    still so after every run of create requests, cancel requests and
    inventory-events messages; in particular it holds in every state reached
    from an empty table. *)
Theorem terminal_orders_completed (db : Db) (steps : list Step) :
  completedOk db -> completedOk (runSteps db steps).
Proof. apply runSteps_keeps. exact write_completedOk. Qed.

Lemma terminal_orders_completed_witness :
  completedOk (runSteps (mkDb [] []) sampleSteps).
Proof.
  apply (terminal_orders_completed (mkDb [] []) sampleSteps).
  intros o [].
Defined.

Lemma map_id_rewriteRow oid st rid err rows :
  List.map id (List.map (rewriteRow oid st rid err) rows) = List.map id rows.
Proof.
  rewrite List.map_map. apply List.map_ext. intros o. apply id_rewriteRow.
Qed.

Lemma filter_byKey_updated k db oid st rid err :
  length (List.filter (byKey k) (orders (fst (updateOrderStatus db oid st rid err))))
  = length (List.filter (byKey k) (orders db)).
Proof.
  rewrite orders_updated, filter_map_commute, List.length_map; [reflexivity|].
  intros o. apply byKey_rewriteRow.
Qed.

Lemma write_constraintsOk db db1 :
  Write db db1 -> constraintsOk db -> constraintsOk db1.
Proof.
  intros [row Hst Hc Hq Hid Hkey|oid st rid err] (Hids & Hkeys & Hqty);
    repeat split.
  - simpl. rewrite List.map_app. simpl. apply NoDup_app. repeat split.
    + exact Hids.
    + intros x Hx [<-|[]]%list_elem_of_In. apply list_elem_of_In in Hx.
      apply in_map_iff in Hx as (o & Ho & Hin). now apply (Hid o Hin).
    + apply NoDup_singleton.
  - intros k. simpl. rewrite List.filter_app, length_app. simpl.
    destruct (byKey k row) eqn:Hrow; simpl; [|specialize (Hkeys k); lia].
    unfold byKey in Hrow. apply bool_decide_eq_true in Hrow.
    replace (List.filter (byKey k) (orders db)) with (@nil Order); [simpl; lia|].
    symmetry. apply filter_none. intros o Ho. unfold byKey.
    apply bool_decide_eq_false. now apply (Hkey k Hrow).
  - simpl. intros o [Ho|[<-|[]]]%in_app_or; [now apply Hqty|assumption].
  - rewrite orders_updated, map_id_rewriteRow. exact Hids.
  - intros k. rewrite filter_byKey_updated. apply Hkeys.
  - intros o' Hin. apply In_updated in Hin as (o & Ho & ->).
    unfold rewriteRow. destruct (byId oid o); simpl; now apply Hqty.
Qed.

(** X14: the constraints of the orders table are never broken. After every
    run that starts from a table in which order ids are unique, no two orders
    share an idempotency key and every quantity is positive, the same holds:
    no run stores two orders under one id or one idempotency key. *)
Theorem order_constraints_kept (db : Db) (steps : list Step) :
  constraintsOk db -> constraintsOk (runSteps db steps).
Proof. apply runSteps_keeps. exact write_constraintsOk. Qed.

Lemma order_constraints_kept_witness :
  constraintsOk (runSteps (mkDb [] []) sampleSteps).
Proof.
  apply (order_constraints_kept (mkDb [] []) sampleSteps).
  repeat split.
  - apply NoDup_nil_2.
  - intros k. simpl. lia.
  - intros o [].
Defined.

Lemma fixedColumns_rewriteRow oid st rid err o :
  fixedColumns (rewriteRow oid st rid err o) = fixedColumns o.
Proof. unfold rewriteRow. now destruct (byId oid o). Qed.

Lemma write_continues db db1 :
  Write db db1 ->
  (exists added, List.map fixedColumns (orders db1)
                 = List.map fixedColumns (orders db) ++ added)
  /\ (exists written, order_events db1 = order_events db ++ written).
Proof.
  intros [row Hst Hc Hq Hid Hkey|oid st rid err].
  - split; eexists; simpl; [now rewrite List.map_app|reflexivity].
  - split.
    + exists []. rewrite orders_updated, List.map_map, List.app_nil_r.
      apply List.map_ext. intros o. apply fixedColumns_rewriteRow.
    + unfold updateOrderStatus. destruct (List.filter (byId oid) (orders db)); simpl.
      * exists []. now rewrite List.app_nil_r.
      * eexists. reflexivity.
Qed.

(** X15: orders are never deleted and the history is append-only. After every
    run, the orders of the start are still there, in place, with the same id,
    customer, product, quantity and idempotency key (new orders come after
    them), and order_events is the list of the start followed by the rows
    written during the run. *)
Theorem orders_and_history_continue (db : Db) (steps : list Step) :
  (exists added, List.map fixedColumns (orders (runSteps db steps))
                 = List.map fixedColumns (orders db) ++ added)
  /\ (exists written, order_events (runSteps db steps) = order_events db ++ written).
Proof.
  apply (runSteps_keeps
           (fun d => (exists added, List.map fixedColumns (orders d)
                                    = List.map fixedColumns (orders db) ++ added)
                     /\ (exists written, order_events d = order_events db ++ written))).
  - intros d d1 Hw [(a1 & Ha1) (w1 & Hw1)].
    destruct (write_continues d d1 Hw) as [(a2 & Ha2) (w2 & Hw2)]. split.
    + exists (a1 ++ a2). now rewrite Ha2, Ha1, List.app_assoc.
    + exists (w1 ++ w2). now rewrite Hw2, Hw1, List.app_assoc.
  - split; exists []; now rewrite List.app_nil_r.
Qed.


(** ** Cancelling *)

(** X16: the answers of POST /orders/:id/cancel. An unknown order gets 404 and
    an order that is cancelled or failed gets 400, in both cases with no
    change and nothing published. Any other order becomes cancelled; the
    ReleaseStock call is made exactly when the order was confirmed and has a
    non-empty reservation id, so cancelling an order in pending or
    pending_verification never releases stock. The answer is 200 when the
    OrderCancelled event is published; when that send fails it is 500 with
    the error of the send, and the order is cancelled all the same. *)
Theorem cancel_answers (bus : Bus) (db : Db) (oid : string) :
  let outcome := cancelOrderVia bus db oid in
  let db' := fst (fst outcome) in
  let effects := snd (fst outcome) in
  let response := snd outcome in
  (getOrder db oid = None ->
   statusCode response = 404 /\ db' = db /\ effects = [])
  /\ (forall o, getOrder db oid = Some o ->
        status o = cancelled \/ status o = failed ->
        statusCode response = 400 /\ db' = db /\ effects = [])
  /\ (forall o, getOrder db oid = Some o ->
        status o <> cancelled -> status o <> failed ->
        let release :=
          if bool_decide (status o = confirmed) && truthy (reservationId o)
          then [CallReleaseStock
                  (mkReleaseStockRequest oid (text (reservationId o))
                     "Order cancelled by user")]
          else [] in
        let announced :=
          PublishOrderEvent
            (mkOrderEvent OrderCancelled oid None None None (Some cancelled)
               (Some "Cancelled by user") None) in
        status <$> getOrder db' oid = Some cancelled
        /\ match bus announced with
           | Returned _ =>
               statusCode response = 200
               /\ effects
                  = release ++ [announced; BroadcastOrderUpdate oid cancelled None None]
           | Thrown e => response = internalError e /\ effects = release
           end).
Proof.
  intros outcome db' effects response. subst outcome db' effects response.
  unfold cancelOrderVia. split; [|split].
  - intros Hget. now rewrite Hget.
  - intros o Hget Hst. rewrite Hget. destruct Hst as [-> | ->]; now repeat split.
  - intros o Hget Hc Hf. cbv zeta.
    rewrite Hget. rewrite !bool_decide_eq_false_2 by assumption.
    pose proof (getOrder_id _ _ _ Hget) as [_ Hid]. rewrite Hid.
    assert (Hdone : status <$> getOrder
                                 (fst (updateOrderStatus db oid cancelled None None)) oid
                    = Some cancelled).
    { rewrite getOrder_updated, Hget. simpl. now rewrite status_rewriteRow_same. }
    destruct (bus _) as [[]|e]; simpl; now repeat split.
Qed.

(** X17: an order is cancelled once. After a cancel request that was answered
    200, a second cancel request for the same order is answered 400 with the
    error Order is already cancelled; it changes nothing, publishes nothing
    and makes no ReleaseStock call. *)
Theorem cancel_twice (db db1 : Db) (oid : string) (effects : list Effect)
    (response : Response) :
  cancelOrder db oid = (db1, effects, response) ->
  statusCode response = 200 ->
  cancelOrder db1 oid
  = (db1, [], mkResponse 400 false None false (Some "Order is already cancelled")
                false).
Proof.
  unfold cancelOrder at 1.
  destruct (getOrder db oid) as [order|] eqn:Hget;
    [|intros H; injection H as <- <- <-; discriminate].
  pose proof (getOrder_id _ _ _ Hget) as [_ Hid].
  destruct (bool_decide (status order = cancelled));
    [intros H; injection H as <- <- <-; discriminate|].
  destruct (bool_decide (status order = failed));
    [intros H; injection H as <- <- <-; discriminate|].
  intros H _. injection H as <- _ _. unfold cancelOrder.
  rewrite Hid, getOrder_updated, Hget. simpl.
  rewrite status_rewriteRow_same by assumption. reflexivity.
Qed.

Lemma cancel_twice_witness :
  cancelOrder (fst (fst (cancelOrder confirmedDb "ord-1"))) "ord-1"
  = (fst (fst (cancelOrder confirmedDb "ord-1")), [],
     mkResponse 400 false None false (Some "Order is already cancelled") false).
Proof.
  apply (cancel_twice confirmedDb _ "ord-1"
           (snd (fst (cancelOrder confirmedDb "ord-1")))
           (snd (cancelOrder confirmedDb "ord-1"))).
  - reflexivity.
  - reflexivity.
Defined.

(** ** Messages for unknown orders *)

(** X18: a message about an order that does not exist is dropped. Whatever its
    type (StockReserved, StockReleased, OrderVerified, VerificationComplete or
    anything else), the consumer changes nothing and publishes nothing. *)
Theorem orphan_message_dropped (db : Db) (event : InventoryMessage) :
  getOrder db (msg_orderId event) = None ->
  processMessage db event = (db, []).
Proof.
  intros Hnone. unfold processMessage.
  destruct (String.eqb (msg_eventType event) "StockReserved").
  { unfold handleStockReserved, updateOrderStatus. unfold getOrder in Hnone.
    now destruct (List.filter (byId (msg_orderId event)) (orders db)). }
  destruct (String.eqb (msg_eventType event) "StockReleased"); [reflexivity|].
  destruct (String.eqb (msg_eventType event) "OrderVerified"
            || String.eqb (msg_eventType event) "VerificationComplete");
    [|reflexivity].
  unfold handleVerificationComplete. now rewrite Hnone.
Qed.

Lemma orphan_message_dropped_witness :
  processMessage confirmedDb
    (mkInventoryMessage "StockReserved" "ord-404" (Some "r-9") None None None)
  = (confirmedDb, []).
Proof.
  apply (orphan_message_dropped confirmedDb
           (mkInventoryMessage "StockReserved" "ord-404" (Some "r-9") None None None)).
  reflexivity.
Defined.


(** ** A create request that inserts its order *)

Lemma valid_fields req :
  invalid req = false ->
  (negb (truthy (body_customerId req)) || negb (truthy (body_productId req))
   || missingNumber (body_quantity req)) = false
  /\ (match body_quantity req with Some v => v | None => 0 end <=? 0) = false.
Proof.
  unfold invalid. intros H. apply orb_false_iff in H as [H1 H2]. split; [exact H1|].
  destruct (body_quantity req); [exact H2|].
  simpl in H1. rewrite orb_true_r in H1. discriminate.
Qed.

Lemma getOrder_new db row events :
  (forall o, In o (orders db) -> id o <> id row) ->
  getOrder (mkDb (orders db ++ [row]) events) (id row) = Some row.
Proof.
  intros Hfresh. unfold getOrder. simpl. rewrite List.filter_app.
  replace (List.filter (byId (id row)) (orders db)) with (@nil Order).
  - simpl. unfold byId. now rewrite String.eqb_refl.
  - symmetry. apply filter_none. intros o Ho. unfold byId.
    apply String.eqb_neq. now apply Hfresh.
Qed.

(** With a valid request, an unused order id and a request key that is not
    stored, POST /orders inserts the order and goes on to the reservation. *)
Lemma post_inserts genKey uuid now reply db req :
  invalid req = false ->
  (forall o, In o (orders db) ->
             id o <> uuid /\ idempotencyKey o <> Some (requestKey genKey req)) ->
  postOrders genKey uuid now reply db req
  = afterCreate now reply
      (mkDb (orders db ++
               [mkOrder uuid (text (body_customerId req)) (text (body_productId req))
                  (match body_quantity req with Some v => v | None => 0 end)
                  pending (Some (requestKey genKey req)) None false None])
            (order_events db ++ [mkOrderEventRow uuid "OrderCreated"]))
      (mkOrder uuid (text (body_customerId req)) (text (body_productId req))
         (match body_quantity req with Some v => v | None => 0 end)
         pending (Some (requestKey genKey req)) None false None)
      (text (body_customerId req)) (text (body_productId req))
      (match body_quantity req with Some v => v | None => 0 end)
      (requestKey genKey req).
Proof.
  intros Hval Hfresh. destruct (valid_fields req Hval) as [Hmiss Hq].
  assert (Hnone : List.filter (byKey (requestKey genKey req)) (orders db) = []).
  { apply filter_none. intros o Ho. unfold byKey. apply bool_decide_eq_false.
    now apply Hfresh. }
  unfold postOrders. fold (suppliedKey req). rewrite Hmiss, Hq.
  fold (requestKey genKey req).
  replace (if truthy (suppliedKey req)
           then getOrderByIdempotencyKey db (text (suppliedKey req)) else None)
    with (@None Order).
  2:{ destruct (truthy (suppliedKey req)) eqn:Ht; [|reflexivity].
      unfold getOrderByIdempotencyKey.
      replace (text (suppliedKey req)) with (requestKey genKey req)
        by (unfold requestKey; now rewrite Ht).
      now rewrite Hnone. }
  unfold createOrder.
  cbn [input_idempotencyKey input_customerId input_productId input_quantity].
  rewrite Hnone.
  assert (Hins : insertOrder
                   (mkOrder uuid (text (body_customerId req)) (text (body_productId req))
                      (match body_quantity req with Some v => v | None => 0 end)
                      pending (Some (requestKey genKey req)) None false None)
                   (orders db)
                 = Some (orders db ++
                           [mkOrder uuid (text (body_customerId req))
                              (text (body_productId req))
                              (match body_quantity req with Some v => v | None => 0 end)
                              pending (Some (requestKey genKey req)) None false None])).
  { unfold insertOrder. cbn [quantity].
    apply Z.leb_gt in Hq. apply Z.ltb_lt in Hq. rewrite Hq. simpl negb.
    replace (existsb _ (orders db)) with false; [reflexivity|].
    symmetry. apply not_true_iff_false. intros Hex.
    apply existsb_exists in Hex as (o & Ho & Hcl).
    destruct (Hfresh o Ho) as [Hid Hkey].
    unfold clashes in Hcl. simpl in Hcl. apply orb_true_iff in Hcl as [Hcl|Hcl].
    - apply String.eqb_eq in Hcl. contradiction.
    - unfold byKey in Hcl. apply bool_decide_eq_true in Hcl. contradiction. }
  destruct (truthy (Some (requestKey genKey req))); now rewrite Hins.
Qed.


(** X25: the reply path of POST /orders does not read the status of its
    order. Whatever status the order has when the ReserveStock call ends (it
    may have been cancelled or confirmed while the handler was waiting), a
    reply with success stores confirmed, a reply without success failed, and
    a timeout or an unreachable service pending_verification; any other error
    leaves the order as it is. *)
Theorem reply_path_overwrites (bus : Bus) (now : string)
    (reply : GrpcReply ReserveStockResponse) (db : Db) (p : Pending) (o : Order) :
  getOrder db (id (pending_order p)) = Some o ->
  status <$> getOrder (move db (Reply bus now reply p)) (id (pending_order p))
  = Some (match clientReserveStock reply with
          | Returned result => if success result then confirmed else failed
          | Thrown e =>
              if String.eqb e "TIMEOUT" || String.eqb e "UNAVAILABLE"
              then pending_verification else status o
          end).
Proof.
  intros Hget. pose proof (getOrder_id _ _ _ Hget) as [_ Hid].
  assert (Hwritten : forall st rid err,
             status <$> getOrder
                          (fst (updateOrderStatus db (id (pending_order p)) st rid err))
                          (id (pending_order p))
             = Some st).
  { intros st rid err. rewrite getOrder_updated, Hget. simpl.
    now rewrite status_rewriteRow_same. }
  unfold move, finishOrder.
  destruct (clientReserveStock reply) as [result|e].
  - destruct (success result); destruct (bus _); apply Hwritten.
  - destruct (String.eqb e "TIMEOUT" || String.eqb e "UNAVAILABLE").
    + destruct (bus (SendVerifyOrderMessage _)); [destruct (bus _)|]; apply Hwritten.
    + simpl. now rewrite Hget.
Qed.

Lemma reply_path_overwrites_witness :
  status <$> getOrder (step overlapDb (Cancel "ord-2")) "ord-2" = Some cancelled
  /\ status <$> getOrder
                  (move (step overlapDb (Cancel "ord-2"))
                     (Reply reliable "2026-01-01T00:00:09Z" happyReply secondPending))
                  "ord-2"
     = Some confirmed.
Proof.
  split; [reflexivity|].
  apply (reply_path_overwrites reliable "2026-01-01T00:00:09Z" happyReply
           (step overlapDb (Cancel "ord-2")) secondPending
           (mkOrder "ord-2" "C2" "SKU-001" 1 cancelled (Some "g-2") None true None)).
  reflexivity.
Defined.

(** With a valid request, an unused order id and a request key that is not
    stored, the handler inserts the order, publishes OrderCreated when the
    send returns and waits for the reservation. *)
Lemma begin_inserts bus genKey uuid db req :
  invalid req = false ->
  (forall o, In o (orders db) ->
             id o <> uuid /\ idempotencyKey o <> Some (requestKey genKey req)) ->
  let customerId := text (body_customerId req) in
  let productId := text (body_productId req) in
  let quantity := match body_quantity req with Some v => v | None => 0 end in
  let row := mkOrder uuid customerId productId quantity pending
               (Some (requestKey genKey req)) None false None in
  let created :=
    PublishOrderEvent
      (mkOrderEvent OrderCreated uuid (Some customerId) (Some productId)
         (Some quantity) (Some pending) None None) in
  bus created = Returned tt ->
  beginOrder bus genKey uuid db req
  = (mkDb (orders db ++ [row]) (order_events db ++ [mkOrderEventRow uuid "OrderCreated"]),
     [created;
      CallReserveStock
        (mkReserveStockRequest uuid productId quantity (requestKey genKey req))],
     inr (mkPending row customerId productId quantity (requestKey genKey req))).
Proof.
  intros Hval Hfresh customerId productId quantity row created Hsent.
  subst customerId productId quantity row created.
  destruct (valid_fields req Hval) as [Hmiss Hq].
  assert (Hnone : List.filter (byKey (requestKey genKey req)) (orders db) = []).
  { apply filter_none. intros o Ho. unfold byKey. apply bool_decide_eq_false.
    now apply Hfresh. }
  unfold beginOrder. fold (suppliedKey req). rewrite Hmiss, Hq.
  fold (requestKey genKey req).
  replace (if truthy (suppliedKey req)
           then getOrderByIdempotencyKey db (text (suppliedKey req)) else None)
    with (@None Order).
  2:{ destruct (truthy (suppliedKey req)) eqn:Ht; [|reflexivity].
      unfold getOrderByIdempotencyKey.
      replace (text (suppliedKey req)) with (requestKey genKey req)
        by (unfold requestKey; now rewrite Ht).
      now rewrite Hnone. }
  unfold createOrder.
  cbn [input_idempotencyKey input_customerId input_productId input_quantity].
  rewrite Hnone.
  assert (Hins : insertOrder
                   (mkOrder uuid (text (body_customerId req)) (text (body_productId req))
                      (match body_quantity req with Some v => v | None => 0 end)
                      pending (Some (requestKey genKey req)) None false None)
                   (orders db)
                 = Some (orders db ++
                           [mkOrder uuid (text (body_customerId req))
                              (text (body_productId req))
                              (match body_quantity req with Some v => v | None => 0 end)
                              pending (Some (requestKey genKey req)) None false None])).
  { unfold insertOrder. cbn [quantity].
    apply Z.leb_gt in Hq. apply Z.ltb_lt in Hq. rewrite Hq. simpl negb.
    replace (existsb _ (orders db)) with false; [reflexivity|].
    symmetry. apply not_true_iff_false. intros Hex.
    apply existsb_exists in Hex as (o & Ho & Hcl).
    destruct (Hfresh o Ho) as [Hid Hkey].
    unfold clashes in Hcl. simpl in Hcl. apply orb_true_iff in Hcl as [Hcl|Hcl].
    - apply String.eqb_eq in Hcl. contradiction.
    - unfold byKey in Hcl. apply bool_decide_eq_true in Hcl. contradiction. }
  destruct (truthy (Some (requestKey genKey req))); rewrite Hins;
    cbn [id]; now rewrite Hsent.
Qed.

End OrderRuns.

(** * The two services together *)

Module SystemRuns.

(** ** The order consumer on the events of the inventory service *)

Lemma stockReserved_consumed db oid p q remaining r o :
  Orders.getOrder db oid = Some o ->
  Orders.getOrder
    (fst (Orders.processMessage db
            (System.eventOnWire (Inventory.StockReserved oid p q remaining r))))
    oid
  = Some (Orders.setStatus Orders.confirmed r None o).
Proof.
  intros Hget. pose proof (OrderFacts.getOrder_id _ _ _ Hget) as [_ Hid].
  unfold Orders.processMessage, System.eventOnWire.
  cbn [Orders.msg_eventType String.eqb Ascii.eqb Bool.eqb].
  rewrite OrderFacts.stockReserved_db.
  cbn [Orders.msg_orderId Orders.msg_reservationId].
  rewrite OrderFacts.getOrder_updated, Hget. simpl.
  unfold Orders.rewriteRow, Orders.byId. now rewrite Hid, String.eqb_refl.
Qed.

Lemma orderVerified_consumed db oid p q recovered r o :
  Orders.getOrder db oid = Some o ->
  Orders.status o = Orders.pending_verification ->
  Orders.getOrder
    (fst (Orders.processMessage db
            (System.eventOnWire
               (Inventory.OrderVerified oid p q Inventory.verified_confirmed
                  recovered r))))
    oid
  = Some (Orders.setStatus Orders.confirmed r None o).
Proof.
  intros Hget Hst. pose proof (OrderFacts.getOrder_id _ _ _ Hget) as [_ Hid].
  unfold Orders.processMessage, System.eventOnWire.
  cbn [Orders.msg_eventType String.eqb Ascii.eqb Bool.eqb orb].
  unfold Orders.handleVerificationComplete.
  cbn [Orders.msg_orderId Orders.msg_verified Orders.msg_status
       Orders.msg_reservationId].
  rewrite Hget, Hst.
  rewrite (bool_decide_eq_true_2 (Orders.pending_verification
                                  = Orders.pending_verification)) by reflexivity.
  rewrite (bool_decide_eq_true_2 (Some "confirmed" = Some "confirmed")) by reflexivity.
  cbn [negb fst]. rewrite OrderFacts.getOrder_updated, Hget. simpl.
  unfold Orders.rewriteRow, Orders.byId. now rewrite Hid, String.eqb_refl.
Qed.

Lemma orderVerified_skipped db oid p q verdict recovered r o :
  Orders.getOrder db oid = Some o ->
  Orders.status o <> Orders.pending_verification ->
  Orders.processMessage db
    (System.eventOnWire (Inventory.OrderVerified oid p q verdict recovered r))
  = (db, []).
Proof.
  intros Hget Hst. unfold Orders.processMessage, System.eventOnWire.
  cbn [Orders.msg_eventType String.eqb Ascii.eqb Bool.eqb orb].
  unfold Orders.handleVerificationComplete. cbn [Orders.msg_orderId].
  rewrite Hget. now rewrite bool_decide_eq_false_2 by assumption.
Qed.

Lemma lowStockAlert_ignored db p current threshold :
  Orders.processMessage db
    (System.eventOnWire (Inventory.LowStockAlert p current threshold))
  = (db, []).
Proof. reflexivity. Qed.

Lemma crash_message :
  callErrorMessage INTERNAL "SCHRODINGER_CRASH: Service crashed after DB commit"
  = "13 INTERNAL: SCHRODINGER_CRASH: Service crashed after DB commit".
Proof. reflexivity. Qed.

Lemma length_append (a b : string) :
  String.length (a +:+ b) = (String.length a + String.length b)%nat.
Proof. induction a as [|c a IH]; simpl; [reflexivity|now rewrite IH]. Qed.

Lemma verify_key_differs (k : string) : k <> "verify-" +:+ k.
Proof.
  intros H. apply (f_equal String.length) in H. rewrite length_append in H.
  simpl in H. lia.
Qed.

(** Every event of a list is one of the three kinds of [confirmed_stays]. *)
Ltac each_event :=
  cbn [app]; repeat first [apply List.Forall_nil | apply List.Forall_cons];
  solve [left; repeat eexists | right; left; repeat eexists
        | right; right; repeat eexists].

Section PlacingAnOrder.

Variables (enum : Z -> Z) (genKey uuid rid now : string).
Variables (st : System.State) (req : Orders.CreateOrderRequest).
Variable product : Inventory.Product.

Local Abbreviation customer := (Orders.text (Orders.body_customerId req)).
Local Abbreviation pid := (Orders.text (Orders.body_productId req)).
Local Abbreviation qty :=
  (match Orders.body_quantity req with Some v => v | None => 0 end).
Local Abbreviation key := (Orders.requestKey genKey req).

(** The request passes validation; the order id, the reservation id and the
    request key are not in use; the product is in stock for the quantity; and
    the values to store fit their columns. *)
Hypothesis valid : Orders.invalid req = false.
Hypothesis fresh : System.unused genKey uuid rid st req.
Hypothesis stocked :
  Inventory.products (System.inventoryDb st) !! pid = Some product.
Hypothesis enough : qty <= Inventory.stock product.
Hypothesis fit : System.fits genKey uuid rid key req product = true.

(** The order database once the order is inserted, the handler waiting for
    its call, and the order as a reservation id confirms it. *)
Local Abbreviation inserted :=
  (Orders.mkDb (Orders.orders (System.orderDb st) ++ [System.newOrder genKey uuid req])
     (Orders.order_events (System.orderDb st)
      ++ [Orders.mkOrderEventRow uuid "OrderCreated"])).
Local Abbreviation waiting :=
  (Orders.mkPending (System.newOrder genKey uuid req) customer pid qty key).
Local Abbreviation confirmedUnder r :=
  (Orders.mkOrder uuid customer pid qty Orders.confirmed (Some key) (Some r) true None).

Lemma orders_fresh o :
  In o (Orders.orders (System.orderDb st)) ->
  Orders.id o <> uuid /\ Orders.idempotencyKey o <> Some key.
Proof using fresh. destruct fresh as (_ & H & _). apply H. Qed.

Lemma route_waits :
  Orders.beginOrder Orders.reliable genKey uuid (System.orderDb st) req
  = (inserted,
     [Orders.PublishOrderEvent
        (Orders.mkOrderEvent Orders.OrderCreated uuid (Some customer) (Some pid)
           (Some qty) (Some Orders.pending) None None);
      Orders.CallReserveStock (Orders.mkReserveStockRequest uuid pid qty key)],
     inr waiting).
Proof using valid fresh.
  now apply (OrderRuns.begin_inserts Orders.reliable genKey uuid _ req valid
               orders_fresh).
Qed.

Lemma handler_reserves_on crash inv p :
  Inventory.products inv !! pid = Some p ->
  qty <= Inventory.stock p ->
  (forall r, In r (Inventory.reservations inv) ->
     Inventory.id r <> rid /\ Inventory.idempotencyKey r <> Some key) ->
  Inventory.grpcReserveStock crash rid inv
    (Inventory.mkReserveStockRequest uuid pid qty key)
  = (Inventory.reservedDb inv rid uuid pid qty (Some key) p,
     (if crash then []
      else Inventory.StockReserved uuid pid qty (Some (Inventory.stock p - qty))
             (Some rid)
           :: (if Inventory.stock p - qty <=? Inventory.lowStockThreshold p
               then [Inventory.LowStockAlert pid (Inventory.stock p - qty)
                       (Inventory.lowStockThreshold p)]
               else [])),
     if crash
     then GrpcError INTERNAL "SCHRODINGER_CRASH: Service crashed after DB commit"
     else GrpcOk (Inventory.mkReserveStockResponse true "Stock reserved successfully"
                    rid (Inventory.stock p - qty) 1)).
Proof using fresh.
  intros Hp Hge Hrows. destruct fresh as (Hkey & _ & _).
  assert (Ht : truthy (Some key) = true).
  { simpl. apply negb_true_iff. now apply String.eqb_neq. }
  unfold Inventory.grpcReserveStock.
  cbn [Inventory.reserve_orderId Inventory.reserve_productId
       Inventory.reserve_quantity Inventory.reserve_idempotencyKey].
  rewrite Ht.
  rewrite (InventoryRuns.reserve_succeeds rid _ uuid pid qty key p);
    try assumption.
  destruct crash; simpl; [reflexivity|].
  unfold Inventory.getProduct. simpl. now rewrite lookup_insert_eq.
Qed.

Lemma handler_reserves crash :
  Inventory.grpcReserveStock crash rid (System.inventoryDb st)
    (System.callOnWire waiting)
  = (Inventory.reservedDb (System.inventoryDb st) rid uuid pid qty (Some key) product,
     (if crash then []
      else Inventory.StockReserved uuid pid qty (Some (Inventory.stock product - qty))
             (Some rid)
           :: (if Inventory.stock product - qty <=? Inventory.lowStockThreshold product
               then [Inventory.LowStockAlert pid (Inventory.stock product - qty)
                       (Inventory.lowStockThreshold product)]
               else [])),
     if crash
     then GrpcError INTERNAL "SCHRODINGER_CRASH: Service crashed after DB commit"
     else GrpcOk (Inventory.mkReserveStockResponse true "Stock reserved successfully"
                    rid (Inventory.stock product - qty) 1)).
Proof using fresh stocked enough.
  apply handler_reserves_on; [assumption..|].
  intros r Hr. destruct fresh as (_ & _ & Hinv).
  destruct (Hinv r Hr) as (H1 & _ & H3). now split.
Qed.

Lemma order_inserted :
  Orders.getOrder inserted uuid = Some (System.newOrder genKey uuid req).
Proof using fresh.
  apply (OrderRuns.getOrder_new (System.orderDb st) (System.newOrder genKey uuid req)).
  intros o Ho. now destruct (orders_fresh o Ho).
Qed.

Lemma order_after_update status r e :
  Orders.getOrder (fst (Orders.updateOrderStatus inserted uuid status r e)) uuid
  = Some (Orders.setStatus status r e (System.newOrder genKey uuid req)).
Proof using fresh.
  rewrite OrderFacts.getOrder_updated, order_inserted. simpl.
  unfold Orders.rewriteRow, Orders.byId. simpl. now rewrite String.eqb_refl.
Qed.

Lemma one_active_after db' r k :
  Inventory.reservations db'
  = Inventory.reservations (System.inventoryDb st)
    ++ [Inventory.mkReservation r uuid pid qty Inventory.active k] ->
  Inventory.activeCount db' uuid = 1%nat.
Proof using fresh.
  intros Hrows. unfold Inventory.activeCount. rewrite Hrows.
  rewrite List.filter_app, length_app.
  replace (List.filter (Inventory.activeFor uuid)
             (Inventory.reservations (System.inventoryDb st)))
    with (@nil Inventory.Reservation).
  - simpl. unfold Inventory.activeFor. simpl. now rewrite String.eqb_refl.
  - symmetry. apply InventoryFacts.filter_nil_forall. intros r' Hr.
    destruct fresh as (_ & _ & Hinv). destruct (Hinv r' Hr) as (_ & Ho & _).
    unfold Inventory.activeFor. apply andb_false_iff. left.
    now apply String.eqb_neq.
Qed.

(** X19: an order that goes through. For a valid request with unused ids and a
    request key not stored on either side, on a product with enough stock and
    with values that fit their columns, when no send fails, the ReserveStock
    call is answered in time and no crash is simulated: the answer is 201
    with the order confirmed under the id of the new reservation; the
    inventory database is the one reserveStock writes (stock less the
    quantity, one active reservation for the order, one audit row); and the
    inventory service publishes StockReserved, with LowStockAlert when the
    remaining stock is at or below the threshold. *)
Theorem order_goes_through :
  let outcome := System.placeOrder Orders.reliable false enum genKey uuid rid now
                   st req in
  let after := fst (fst (fst outcome)) in
  Orders.statusCode (snd outcome) = 201
  /\ Orders.json_data (snd outcome) = Some (confirmedUnder rid)
  /\ Orders.getOrder (System.orderDb after) uuid = Some (confirmedUnder rid)
  /\ System.inventoryDb after
     = Inventory.reservedDb (System.inventoryDb st) rid uuid pid qty (Some key) product
  /\ Inventory.stockOf (System.inventoryDb after) pid = Inventory.stock product - qty
  /\ Inventory.activeCount (System.inventoryDb after) uuid = 1%nat
  /\ snd (fst (fst outcome))
     = Inventory.StockReserved uuid pid qty (Some (Inventory.stock product - qty))
         (Some rid)
       :: (if Inventory.stock product - qty <=? Inventory.lowStockThreshold product
           then [Inventory.LowStockAlert pid (Inventory.stock product - qty)
                   (Inventory.lowStockThreshold product)]
           else []).
Proof using valid fresh stocked enough fit.
  intros outcome after. subst outcome after.
  unfold System.placeOrder. rewrite route_waits, handler_reserves.
  cbn [System.replyOnWire Inventory.reserve_success Inventory.reserve_message
       Inventory.reserve_reservationId Inventory.reserve_remainingStock
       Inventory.reserve_status].
  unfold Orders.finishOrder, Orders.reliable.
  cbn [Orders.clientReserveStock Orders.success Orders.response_reservationId
       Orders.pending_order Orders.pending_productId Orders.pending_quantity
       Orders.pending_key System.newOrder Orders.id].
  cbn [fst snd System.orderDb System.inventoryDb Orders.statusCode Orders.json_data].
  rewrite order_after_update.
  repeat split.
  - apply InventoryRuns.stockOf_insert_same.
  - now apply (one_active_after _ rid (Some key)).
Qed.

(** X20: a simulated crash that is answered in time strands the order. Under
    the same conditions, when shouldSimulateCrash() answers yes and the error
    reply arrives within the deadline, the reservation is written (stock less
    the quantity, one active reservation) but POST /orders answers 500 with
    the message of the INTERNAL error; the order stays pending without a
    reservation id, no VerifyOrder message is sent and the inventory service
    publishes nothing that would confirm it. *)
Theorem crash_strands_order :
  let outcome := System.placeOrder Orders.reliable true enum genKey uuid rid now
                   st req in
  let after := fst (fst (fst outcome)) in
  Orders.statusCode (snd outcome) = 500
  /\ Orders.json_error (snd outcome)
     = Some "13 INTERNAL: SCHRODINGER_CRASH: Service crashed after DB commit"
  /\ Orders.getOrder (System.orderDb after) uuid
     = Some (System.newOrder genKey uuid req)
  /\ (forall m, ~ In (Orders.SendVerifyOrderMessage m) (snd (fst outcome)))
  /\ snd (fst (fst outcome)) = []
  /\ Inventory.stockOf (System.inventoryDb after) pid = Inventory.stock product - qty
  /\ Inventory.activeCount (System.inventoryDb after) uuid = 1%nat.
Proof using valid fresh stocked enough fit.
  intros outcome after. subst outcome after.
  unfold System.placeOrder. rewrite route_waits, handler_reserves.
  cbn [System.replyOnWire].
  unfold Orders.finishOrder. cbn [Orders.clientReserveStock].
  change (INTERNAL =? DEADLINE_EXCEEDED) with false.
  change (INTERNAL =? UNAVAILABLE) with false.
  cbv iota. rewrite crash_message.
  cbn [fst snd System.orderDb System.inventoryDb Orders.statusCode Orders.json_error
       Orders.internalError String.eqb Ascii.eqb Bool.eqb orb app].
  repeat split.
  - apply order_inserted.
  - intros m [H|[H|[]]]; discriminate H.
  - apply InventoryRuns.stockOf_insert_same.
  - now apply (one_active_after _ rid (Some key)).
Qed.


(** ** When the reply does not arrive *)

Local Abbreviation verifyMessage :=
  (Orders.mkVerifyOrderMessage uuid pid qty key now).
Local Abbreviation unverified :=
  (fst (Orders.updateOrderStatus inserted uuid Orders.pending_verification None None)).

Lemma route_gives_up code details :
  code = DEADLINE_EXCEEDED \/ code = UNAVAILABLE ->
  System.unanswered Orders.reliable code details genKey uuid now st req
  = (System.mkState unverified (System.inventoryDb st),
     [Orders.PublishOrderEvent
        (Orders.mkOrderEvent Orders.OrderCreated uuid (Some customer) (Some pid)
           (Some qty) (Some Orders.pending) None None);
      Orders.CallReserveStock (Orders.mkReserveStockRequest uuid pid qty key);
      Orders.SendVerifyOrderMessage verifyMessage;
      Orders.PublishOrderEvent
        (Orders.mkOrderEvent Orders.OrderPendingVerification uuid None (Some pid)
           (Some qty) (Some Orders.pending_verification)
           (Some "gRPC timeout - verification required") None)],
     Orders.mkResponse 202 true
       (Some (Orders.setStatus Orders.pending_verification None None
                (System.newOrder genKey uuid req)))
       false None true).
Proof using valid fresh.
  intros Hcode. unfold System.unanswered, Orders.postOrdersVia.
  rewrite route_waits. unfold Orders.finishOrder, Orders.reliable.
  assert (Hthrown : Orders.clientReserveStock (GrpcError code details) = Thrown "TIMEOUT"
                    \/ Orders.clientReserveStock (GrpcError code details)
                       = Thrown "UNAVAILABLE").
  { destruct Hcode as [-> | ->]; [left|right]; reflexivity. }
  destruct Hthrown as [-> | ->];
    cbn [String.eqb Ascii.eqb Bool.eqb orb Orders.pending_order
         Orders.pending_productId Orders.pending_quantity Orders.pending_key
         System.newOrder Orders.id app];
    now rewrite order_after_update.
Qed.

Lemma order_unverified :
  Orders.getOrder unverified uuid
  = Some (Orders.setStatus Orders.pending_verification None None
            (System.newOrder genKey uuid req)).
Proof using fresh. apply order_after_update. Qed.

Lemma no_active_yet :
  Inventory.findReservationByOrderId (System.inventoryDb st) uuid = None.
Proof using fresh.
  apply InventoryFacts.findReservation_none. intros r Hr [Ho _].
  destruct fresh as (_ & _ & Hinv). now destruct (Hinv r Hr) as (_ & H & _).
Qed.

(** The VerifyOrder handler when the reservation of the call is committed. *)
Lemma handler_finds uuid' :
  Inventory.handleVerifyOrderMessage uuid'
    (Inventory.reservedDb (System.inventoryDb st) rid uuid pid qty (Some key) product)
    (System.verifyOnWire verifyMessage)
  = (Inventory.reservedDb (System.inventoryDb st) rid uuid pid qty (Some key) product,
     [Inventory.OrderVerified uuid pid qty Inventory.verified_confirmed true
        (Some rid)],
     Returned tt).
Proof using fresh.
  unfold Inventory.handleVerifyOrderMessage, System.verifyOnWire.
  cbn [Inventory.verify_orderId Inventory.verify_productId Inventory.verify_quantity
       Orders.verify_orderId Orders.verify_productId Orders.verify_quantity].
  unfold Inventory.reservedDb at 1.
  rewrite (InventoryRuns.findReservation_appended (System.inventoryDb st) uuid
             (Inventory.mkReservation rid uuid pid qty Inventory.active (Some key)));
    [reflexivity|apply no_active_yet|reflexivity|reflexivity].
Qed.

(** The VerifyOrder handler when the inventory holds nothing for the order. *)
Lemma handler_reserves_anew uuid' :
  (forall r, In r (Inventory.reservations (System.inventoryDb st)) ->
     Inventory.id r <> uuid'
     /\ Inventory.idempotencyKey r <> Some ("verify-" +:+ key)) ->
  Inventory.handleVerifyOrderMessage uuid' (System.inventoryDb st)
    (System.verifyOnWire verifyMessage)
  = (Inventory.reservedDb (System.inventoryDb st) uuid' uuid pid qty
       (Some ("verify-" +:+ key)) product,
     [Inventory.OrderVerified uuid pid qty Inventory.verified_confirmed false
        (Some uuid');
      Inventory.StockReserved uuid pid qty (Some (Inventory.stock product - qty))
        (Some uuid')],
     Returned tt).
Proof using fresh stocked enough.
  intros spare.
  unfold Inventory.handleVerifyOrderMessage, System.verifyOnWire.
  cbn [Inventory.verify_orderId Inventory.verify_productId Inventory.verify_quantity
       Inventory.verify_idempotencyKey
       Orders.verify_orderId Orders.verify_productId Orders.verify_quantity
       Orders.verify_idempotencyKey].
  rewrite no_active_yet.
  rewrite (InventoryRuns.reserve_succeeds uuid' _ uuid pid qty ("verify-" +:+ key)
             product); [reflexivity|discriminate|assumption..].
Qed.

(** Once the order is confirmed under [r], further events that confirm it
    under [r], and alerts, leave it as it is. *)
Lemma confirmed_stays r events odb :
  Orders.getOrder odb uuid = Some (confirmedUnder r) ->
  Forall (fun e =>
            (exists p q remaining,
               e = Inventory.StockReserved uuid p q remaining (Some r))
            \/ (exists p q verdict recovered r',
                  e = Inventory.OrderVerified uuid p q verdict recovered r')
            \/ (exists p current threshold,
                  e = Inventory.LowStockAlert p current threshold))
    events ->
  Orders.getOrder (System.consume odb events) uuid = Some (confirmedUnder r).
Proof.
  intros Hget Hall. revert odb Hget.
  induction Hall as [|e rest He _ IH]; intros odb Hget; [exact Hget|].
  unfold System.consume. cbn [fold_left]. apply IH.
  destruct He as [(p & q & remaining & ->)|[(p & q & v & rec & r' & ->)
                                           |(p & c & t & ->)]].
  - now rewrite (stockReserved_consumed _ _ _ _ _ _ _ Hget).
  - rewrite (orderVerified_skipped _ _ _ _ _ _ _ _ Hget); [exact Hget|discriminate].
  - exact Hget.
Qed.

(** X21: recovery after a reply that came too late, when the reservation is
    committed before the VerifyOrder message is handled. Under the same
    conditions, when the call misses the deadline, POST /orders answers 202
    with the order in pending_verification and sends VerifyOrder. If the
    inventory handler has run the call by the time that message is handled
    (with or without a simulated crash), the VerifyOrder handler finds the
    reservation, publishes OrderVerified with status confirmed and
    recoveredFromCrash true, and makes no second reservation: the order holds
    one active reservation and the stock has been deducted once. When the
    order consumer then handles that event, alone or with the events of the
    ReserveStock handler before or after it, the order is confirmed under the
    id of the reservation. *)
Theorem late_reply_recovered (crash : bool) (details uuid' : string) :
  let timedOut :=
    System.unanswered Orders.reliable DEADLINE_EXCEEDED details genKey uuid now st
      req in
  let served :=
    System.serve crash rid (fst (fst timedOut))
      (Inventory.mkReserveStockRequest uuid pid qty key) in
  let verified := System.verify uuid' (fst served) verifyMessage in
  let final := fst verified in
  Orders.statusCode (snd timedOut) = 202
  /\ In (Orders.SendVerifyOrderMessage verifyMessage) (snd (fst timedOut))
  /\ snd verified
     = [Inventory.OrderVerified uuid pid qty Inventory.verified_confirmed true
          (Some rid)]
  /\ System.inventoryDb final
     = Inventory.reservedDb (System.inventoryDb st) rid uuid pid qty (Some key) product
  /\ Inventory.activeCount (System.inventoryDb final) uuid = 1%nat
  /\ Inventory.stockOf (System.inventoryDb final) pid = Inventory.stock product - qty
  /\ (forall events,
        events = snd verified \/ events = snd served ++ snd verified
        \/ events = snd verified ++ snd served ->
        Orders.getOrder (System.orderDb (System.deliverEvents final events)) uuid
        = Some (confirmedUnder rid)).
Proof using valid fresh stocked enough fit.
  intros timedOut served verified final. subst timedOut served verified final.
  rewrite (route_gives_up DEADLINE_EXCEEDED details) by now left.
  unfold System.serve. cbn [fst snd System.inventoryDb System.orderDb].
  change (Inventory.mkReserveStockRequest uuid pid qty key)
    with (System.callOnWire waiting).
  rewrite handler_reserves. unfold System.verify.
  cbn [fst snd System.inventoryDb System.orderDb]. rewrite handler_finds.
  cbn [fst snd System.inventoryDb System.orderDb System.deliverEvents].
  split; [reflexivity|]. split; [right; right; now left|]. split; [reflexivity|].
  split; [reflexivity|].
  split; [now apply (one_active_after _ rid (Some key))|].
  split; [apply InventoryRuns.stockOf_insert_same|].
  assert (Hverified :
            Orders.getOrder
              (fst (Orders.processMessage unverified
                      (System.eventOnWire
                         (Inventory.OrderVerified uuid pid qty
                            Inventory.verified_confirmed true (Some rid)))))
              uuid
            = Some (confirmedUnder rid)).
  { now rewrite (orderVerified_consumed _ _ _ _ _ _ _ order_unverified). }
  assert (Hreserved :
            Orders.getOrder
              (fst (Orders.processMessage unverified
                      (System.eventOnWire
                         (Inventory.StockReserved uuid pid qty
                            (Some (Inventory.stock product - qty)) (Some rid)))))
              uuid
            = Some (confirmedUnder rid)).
  { now rewrite (stockReserved_consumed _ _ _ _ _ _ _ order_unverified). }
  intros events [-> | [-> | ->]].
  - exact Hverified.
  - destruct crash; [exact Hverified|].
    cbn [app]. unfold System.consume. cbn [fold_left].
    apply confirmed_stays; [exact Hreserved|].
    destruct (Inventory.stock product - qty <=? Inventory.lowStockThreshold product);
      each_event.
  - cbn [app]. unfold System.consume. cbn [fold_left].
    apply confirmed_stays; [exact Hverified|].
    destruct crash; [constructor|].
    destruct (Inventory.stock product - qty <=? Inventory.lowStockThreshold product);
      each_event.
Qed.

(** X22: recovery when the inventory service was never reached. Under the same
    conditions, when the ReserveStock call is not run at all (UNAVAILABLE),
    POST /orders answers 202, leaves the inventory database untouched and
    sends VerifyOrder. When that message is handled, neither the id the
    handler generates nor the key verify-<key> is stored and the values fit
    their columns (verify-<key> within VARCHAR(100)), the handler makes the
    reservation itself, under the key verify-<key>, and publishes OrderVerified
    (confirmed, recoveredFromCrash false) followed by StockReserved; after the
    order consumer has handled both, the order is confirmed under the id of
    that reservation, the one active reservation of the order, and the stock
    has been deducted once. *)
Theorem unreached_service_recovered (details uuid' : string)
    (spare : forall r, In r (Inventory.reservations (System.inventoryDb st)) ->
               Inventory.id r <> uuid'
               /\ Inventory.idempotencyKey r <> Some ("verify-" +:+ key))
    (fit' : System.fits genKey uuid uuid' ("verify-" +:+ key) req product = true) :
  let gaveUp :=
    System.unanswered Orders.reliable UNAVAILABLE details genKey uuid now st req in
  let verified := System.verify uuid' (fst (fst gaveUp)) verifyMessage in
  let final := fst verified in
  Orders.statusCode (snd gaveUp) = 202
  /\ System.inventoryDb (fst (fst gaveUp)) = System.inventoryDb st
  /\ In (Orders.SendVerifyOrderMessage verifyMessage) (snd (fst gaveUp))
  /\ snd verified
     = [Inventory.OrderVerified uuid pid qty Inventory.verified_confirmed false
          (Some uuid');
        Inventory.StockReserved uuid pid qty (Some (Inventory.stock product - qty))
          (Some uuid')]
  /\ System.inventoryDb final
     = Inventory.reservedDb (System.inventoryDb st) uuid' uuid pid qty
         (Some ("verify-" +:+ key)) product
  /\ Inventory.activeCount (System.inventoryDb final) uuid = 1%nat
  /\ Inventory.stockOf (System.inventoryDb final) pid = Inventory.stock product - qty
  /\ Orders.getOrder (System.orderDb (System.deliverEvents final (snd verified))) uuid
     = Some (confirmedUnder uuid').
Proof using valid fresh stocked enough.
  intros gaveUp verified final. subst gaveUp verified final.
  rewrite (route_gives_up UNAVAILABLE details) by now right.
  unfold System.verify. cbn [fst snd System.inventoryDb System.orderDb].
  rewrite (handler_reserves_anew uuid' spare).
  cbn [fst snd System.inventoryDb System.orderDb System.deliverEvents].
  split; [reflexivity|]. split; [reflexivity|].
  split; [right; right; now left|]. split; [reflexivity|]. split; [reflexivity|].
  split; [now apply (one_active_after _ uuid' (Some ("verify-" +:+ key)))|].
  split; [apply InventoryRuns.stockOf_insert_same|].
  unfold System.consume. cbn [fold_left].
  apply (confirmed_stays uuid'
           [Inventory.StockReserved uuid pid qty
              (Some (Inventory.stock product - qty)) (Some uuid')]).
  - now rewrite (orderVerified_consumed _ _ _ _ _ _ _ order_unverified).
  - each_event.
Qed.

(** X24: the same timeout when the VerifyOrder message is handled first. The
    ReserveStock handler sleeps before it reserves, so the message can be
    handled while the inventory holds nothing for the order: the VerifyOrder
    handler then reserves under the key verify-<key>, and when the delayed
    call runs, its own key is not stored and reserveStock does not look at
    the order. With stock for twice the quantity, unused ids and values that
    fit their columns, the order ends with two active reservations and the
    stock deducted twice; the order is confirmed under the reservation of the
    VerifyOrder handler and, once the StockReserved event of the delayed call
    is handled, under that of the call, with the other reservation still
    active. *)
Theorem verify_before_commit (crash : bool) (details uuid' : string)
    (spare : forall r, In r (Inventory.reservations (System.inventoryDb st)) ->
               Inventory.id r <> uuid'
               /\ Inventory.idempotencyKey r <> Some ("verify-" +:+ key))
    (distinct : rid <> uuid')
    (twice : 2 * qty <= Inventory.stock product)
    (fit' : System.fits genKey uuid uuid' ("verify-" +:+ key) req product = true)
    (fit'' : System.fits genKey uuid rid key req
               (Inventory.mkProduct (Inventory.stock product - qty)
                  (Inventory.lowStockThreshold product)) = true) :
  let timedOut :=
    System.unanswered Orders.reliable DEADLINE_EXCEEDED details genKey uuid now st
      req in
  let verified := System.verify uuid' (fst (fst timedOut)) verifyMessage in
  let served :=
    System.serve crash rid (fst verified)
      (Inventory.mkReserveStockRequest uuid pid qty key) in
  let final := fst served in
  snd verified
  = [Inventory.OrderVerified uuid pid qty Inventory.verified_confirmed false
       (Some uuid');
     Inventory.StockReserved uuid pid qty (Some (Inventory.stock product - qty))
       (Some uuid')]
  /\ Inventory.activeCount (System.inventoryDb final) uuid = 2%nat
  /\ Inventory.stockOf (System.inventoryDb final) pid
     = Inventory.stock product - 2 * qty
  /\ Orders.getOrder (System.orderDb (System.deliverEvents final (snd verified))) uuid
     = Some (confirmedUnder uuid')
  /\ (crash = false ->
      Orders.getOrder
        (System.orderDb (System.deliverEvents final (snd verified ++ snd served)))
        uuid
      = Some (confirmedUnder rid)).
Proof using valid fresh stocked enough.
  intros timedOut verified served final. subst timedOut verified served final.
  rewrite (route_gives_up DEADLINE_EXCEEDED details) by now left.
  unfold System.verify. cbn [fst snd System.inventoryDb System.orderDb].
  rewrite (handler_reserves_anew uuid' spare).
  unfold System.serve. cbn [fst snd System.inventoryDb System.orderDb].
  rewrite (handler_reserves_on crash _
             (Inventory.mkProduct (Inventory.stock product - qty)
                (Inventory.lowStockThreshold product))).
  2:{ unfold Inventory.reservedDb. simpl. now rewrite lookup_insert_eq. }
  2:{ simpl. lia. }
  2:{ intros r Hr. unfold Inventory.reservedDb in Hr. simpl in Hr.
      apply in_app_iff in Hr as [Hr|[<-|[]]].
      - destruct fresh as (_ & _ & Hinv). destruct (Hinv r Hr) as (H1 & _ & H3).
        now split.
      - simpl. split; [congruence|]. intros [= H]. symmetry in H.
        now apply verify_key_differs in H. }
  cbn [fst snd System.inventoryDb System.orderDb System.deliverEvents].
  assert (Hverified :
            Orders.getOrder
              (System.consume unverified
                 [Inventory.OrderVerified uuid pid qty Inventory.verified_confirmed
                    false (Some uuid');
                  Inventory.StockReserved uuid pid qty
                    (Some (Inventory.stock product - qty)) (Some uuid')])
              uuid
            = Some (confirmedUnder uuid')).
  { unfold System.consume. cbn [fold_left].
    apply (confirmed_stays uuid'
             [Inventory.StockReserved uuid pid qty
                (Some (Inventory.stock product - qty)) (Some uuid')]).
    - now rewrite (orderVerified_consumed _ _ _ _ _ _ _ order_unverified).
    - each_event. }
  split; [reflexivity|]. split; [|split; [|split; [exact Hverified|]]].
  - unfold Inventory.activeCount, Inventory.reservedDb. simpl.
    rewrite !List.filter_app, !length_app.
    replace (List.filter (Inventory.activeFor uuid)
               (Inventory.reservations (System.inventoryDb st)))
      with (@nil Inventory.Reservation).
    + simpl. unfold Inventory.activeFor. simpl. now rewrite String.eqb_refl.
    + symmetry. apply InventoryFacts.filter_nil_forall. intros r Hr.
      destruct fresh as (_ & _ & Hinv). destruct (Hinv r Hr) as (_ & Ho & _).
      unfold Inventory.activeFor. apply andb_false_iff. left.
      now apply String.eqb_neq.
  - unfold Inventory.stockOf, Inventory.reservedDb. simpl.
    rewrite lookup_insert_eq. simpl. lia.
  - intros ->. unfold System.consume. rewrite fold_left_app.
    fold (System.consume unverified
            [Inventory.OrderVerified uuid pid qty Inventory.verified_confirmed
               false (Some uuid');
             Inventory.StockReserved uuid pid qty
               (Some (Inventory.stock product - qty)) (Some uuid')]).
    cbn [fold_left Inventory.stock Inventory.lowStockThreshold].
    apply (confirmed_stays rid
             (if Inventory.stock product - qty - qty
                 <=? Inventory.lowStockThreshold product
              then [Inventory.LowStockAlert pid (Inventory.stock product - qty - qty)
                      (Inventory.lowStockThreshold product)]
              else [])).
    + now rewrite (stockReserved_consumed _ _ _ _ _ _ _ Hverified).
    + destruct (Inventory.stock product - qty - qty
                <=? Inventory.lowStockThreshold product); each_event.
Qed.

End PlacingAnOrder.


(** ** The theorems at the first order of an empty shop *)

Lemma emptyShop_unused :
  System.unused "g-1" "ord-1" "r-1" System.emptyShop Orders.firstOrder.
Proof.
  split; [discriminate|]. split; [intros o []|intros r []].
Qed.

Lemma order_goes_through_witness :
  Orders.statusCode
    (snd (System.placeOrder Orders.reliable false (fun z => z) "g-1" "ord-1" "r-1"
            "2026-01-01T00:00:00Z" System.emptyShop Orders.firstOrder)) = 201
  /\ Inventory.stockOf
       (System.inventoryDb
          (fst (fst (fst (System.placeOrder Orders.reliable false (fun z => z)
                            "g-1" "ord-1" "r-1" "2026-01-01T00:00:00Z"
                            System.emptyShop Orders.firstOrder)))))
       "SKU-002" = 197.
Proof.
  destruct (order_goes_through (fun z => z) "g-1" "ord-1" "r-1" "2026-01-01T00:00:00Z"
              System.emptyShop Orders.firstOrder (Inventory.mkProduct 200 20))
    as (Hcode & _ & _ & _ & Hstock & _).
  - reflexivity.
  - exact emptyShop_unused.
  - reflexivity.
  - simpl. lia.
  - reflexivity.
  - split; [exact Hcode|exact Hstock].
Defined.

Lemma crash_strands_order_witness :
  Orders.json_error
    (snd (System.placeOrder Orders.reliable true (fun z => z) "g-1" "ord-1" "r-1"
            "2026-01-01T00:00:00Z" System.emptyShop Orders.firstOrder))
  = Some "13 INTERNAL: SCHRODINGER_CRASH: Service crashed after DB commit"
  /\ Inventory.stockOf
       (System.inventoryDb
          (fst (fst (fst (System.placeOrder Orders.reliable true (fun z => z)
                            "g-1" "ord-1" "r-1" "2026-01-01T00:00:00Z"
                            System.emptyShop Orders.firstOrder)))))
       "SKU-002" = 197.
Proof.
  destruct (crash_strands_order (fun z => z) "g-1" "ord-1" "r-1" "2026-01-01T00:00:00Z"
              System.emptyShop Orders.firstOrder (Inventory.mkProduct 200 20))
    as (_ & Herror & _ & _ & _ & Hstock & _).
  - reflexivity.
  - exact emptyShop_unused.
  - reflexivity.
  - simpl. lia.
  - reflexivity.
  - split; [exact Herror|exact Hstock].
Defined.

Lemma late_reply_recovered_witness :
  Inventory.activeCount
    (System.inventoryDb
       (fst (System.verify "r-2"
               (fst (System.serve true "r-1"
                       (fst (fst (System.unanswered Orders.reliable DEADLINE_EXCEEDED
                                    "Deadline exceeded" "g-1" "ord-1"
                                    "2026-01-01T00:00:00Z" System.emptyShop
                                    Orders.firstOrder)))
                       (Inventory.mkReserveStockRequest "ord-1" "SKU-002" 3 "k-42")))
               (Orders.mkVerifyOrderMessage "ord-1" "SKU-002" 3 "k-42"
                  "2026-01-01T00:00:00Z"))))
    "ord-1"
  = 1%nat.
Proof.
  destruct (late_reply_recovered "g-1" "ord-1" "r-1" "2026-01-01T00:00:00Z"
              System.emptyShop Orders.firstOrder (Inventory.mkProduct 200 20))
    with (crash := true) (details := "Deadline exceeded") (uuid' := "r-2")
    as (_ & _ & _ & _ & Hactive & _).
  - reflexivity.
  - exact emptyShop_unused.
  - reflexivity.
  - simpl. lia.
  - reflexivity.
  - exact Hactive.
Defined.

Lemma unreached_service_recovered_witness :
  Orders.reservationId
  <$> Orders.getOrder
        (System.orderDb
           (System.deliverEvents
              (fst (System.verify "r-2"
                      (fst (fst (System.unanswered Orders.reliable UNAVAILABLE
                                   "No connection established" "g-1" "ord-1"
                                   "2026-01-01T00:00:00Z" System.emptyShop
                                   Orders.firstOrder)))
                      (Orders.mkVerifyOrderMessage "ord-1" "SKU-002" 3 "k-42"
                         "2026-01-01T00:00:00Z")))
              (snd (System.verify "r-2"
                      (fst (fst (System.unanswered Orders.reliable UNAVAILABLE
                                   "No connection established" "g-1" "ord-1"
                                   "2026-01-01T00:00:00Z" System.emptyShop
                                   Orders.firstOrder)))
                      (Orders.mkVerifyOrderMessage "ord-1" "SKU-002" 3 "k-42"
                         "2026-01-01T00:00:00Z")))))
        "ord-1"
  = Some (Some "r-2").
Proof.
  destruct (unreached_service_recovered "g-1" "ord-1" "r-1" "2026-01-01T00:00:00Z"
              System.emptyShop Orders.firstOrder (Inventory.mkProduct 200 20))
    with (details := "No connection established") (uuid' := "r-2")
    as (_ & _ & _ & _ & _ & _ & _ & Horder).
  - reflexivity.
  - exact emptyShop_unused.
  - reflexivity.
  - simpl. lia.
  - intros r [].
  - reflexivity.
  - exact (f_equal (fmap Orders.reservationId) Horder).
Defined.

Lemma verify_before_commit_witness :
  Inventory.activeCount
    (System.inventoryDb
       (fst (System.serve false "r-1"
               (fst (System.verify "r-2"
                       (fst (fst (System.unanswered Orders.reliable DEADLINE_EXCEEDED
                                    "Deadline exceeded" "g-1" "ord-1"
                                    "2026-01-01T00:00:00Z" System.emptyShop
                                    Orders.firstOrder)))
                       (Orders.mkVerifyOrderMessage "ord-1" "SKU-002" 3 "k-42"
                          "2026-01-01T00:00:00Z")))
               (Inventory.mkReserveStockRequest "ord-1" "SKU-002" 3 "k-42"))))
    "ord-1"
  = 2%nat.
Proof.
  destruct (verify_before_commit "g-1" "ord-1" "r-1" "2026-01-01T00:00:00Z"
              System.emptyShop Orders.firstOrder (Inventory.mkProduct 200 20))
    with (crash := false) (details := "Deadline exceeded") (uuid' := "r-2")
    as (_ & Hactive & _).
  - reflexivity.
  - exact emptyShop_unused.
  - reflexivity.
  - simpl. lia.
  - intros r [].
  - discriminate.
  - simpl. lia.
  - reflexivity.
  - reflexivity.
  - exact Hactive.
Defined.

End SystemRuns.


(** * Facts about the dashboard's metrics store *)

Module DashboardFacts.
Import Dashboard.

Lemma sliceLast_length {A : Type} (n : nat) (l : list A) :
  length (sliceLast n l) = Nat.min n (length l).
Proof. unfold sliceLast. rewrite length_drop. lia. Qed.

(** Pushing onto the last [n] of a list gives the last [n] of the longer
    list. *)
Lemma pushCapped_window {A : Type} (n : nat) (l : list A) (x : A) :
  pushCapped n (sliceLast n l) x = sliceLast n (l ++ [x]).
Proof.
  unfold pushCapped. cbv zeta. rewrite length_app, sliceLast_length. simpl length.
  destruct (Nat.ltb_spec n (Nat.min n (length l) + 1)) as [Hfull|Hroom].
  - unfold sliceLast. rewrite !length_app, length_drop. simpl length.
    rewrite <- (drop_app_le l [x] (length l - n)) by lia.
    rewrite drop_drop. f_equal. lia.
  - unfold sliceLast. rewrite length_app. simpl length.
    replace (length l - n)%nat with 0%nat by lia.
    replace (length l + 1 - n)%nat with 0%nat by lia. reflexivity.
Qed.

Lemma after_snoc {P : Type} (serviceOf : P -> string) (healthyOf : P -> bool)
    clients store (calls : list (Call P)) c :
  after P serviceOf healthyOf clients store (calls ++ [c])
  = fst (broadcastMetric P serviceOf healthyOf (call_now P c) (call_sentAt P c)
           clients (after P serviceOf healthyOf clients store calls)
           (call_type P c) (call_data P c)).
Proof. unfold after. now rewrite fold_left_app. Qed.

Lemma pushedBy_snoc {P : Type} type (calls : list (Call P)) c :
  pushedBy P type (calls ++ [c])
  = pushedBy P type calls
    ++ (if String.eqb (call_type P c) type
        then [mkStamped P (call_now P c) (call_data P c)] else []).
Proof.
  unfold pushedBy. rewrite List.filter_app, List.map_app. simpl.
  now destruct (String.eqb (call_type P c) type).
Qed.

(** X23: the dashboard keeps a sliding window. Starting from the initial
    store, after any sequence of broadcastMetric calls, responseTimes holds
    exactly the last 100 entries pushed by the calls of type responseTime, in
    call order, and events the last 50 pushed by the calls of type event; so
    neither list ever grows beyond its cap. *)
Theorem store_is_sliding_window {P : Type} (serviceOf : P -> string)
    (healthyOf : P -> bool) (clients : list Client) (calls : list (Call P)) :
  let store := after P serviceOf healthyOf clients (metricsStore P) calls in
  responseTimes P store = sliceLast 100 (pushedBy P "responseTime" calls)
  /\ events P store = sliceLast 50 (pushedBy P "event" calls)
  /\ (length (responseTimes P store) <= 100)%nat
  /\ (length (events P store) <= 50)%nat.
Proof.
  cbv zeta.
  assert (Hw : responseTimes P (after P serviceOf healthyOf clients (metricsStore P) calls)
               = sliceLast 100 (pushedBy P "responseTime" calls)
               /\ events P (after P serviceOf healthyOf clients (metricsStore P) calls)
                  = sliceLast 50 (pushedBy P "event" calls)).
  { induction calls as [|c calls IH] using rev_ind; [now split|].
    destruct IH as [IHr IHe]. rewrite after_snoc, !pushedBy_snoc.
    unfold broadcastMetric. cbn [fst].
    destruct (String.eqb (call_type P c) "serviceHealth") eqn:Hh.
    - apply String.eqb_eq in Hh. rewrite Hh. cbn [responseTimes events].
      rewrite IHr, IHe, !app_nil_r. now split.
    - destruct (String.eqb (call_type P c) "responseTime") eqn:Hr.
      + apply String.eqb_eq in Hr. rewrite Hr. cbn [responseTimes events].
        rewrite IHr, IHe, pushCapped_window, app_nil_r. now split.
      + destruct (String.eqb (call_type P c) "event") eqn:He.
        * cbn [responseTimes events].
          rewrite IHr, IHe, pushCapped_window, app_nil_r. now split.
        * rewrite IHr, IHe, !app_nil_r. now split. }
  destruct Hw as [Hr He]. rewrite Hr, He, !sliceLast_length. repeat split; lia.
Qed.

End DashboardFacts.
